(** * Barangay Cagpile GIS editor: the map editing controller

    A shallow embedding of the class [BarangayCagpileGISEditor] (the editor
    page script).  The controller is a stateful object wired to the Leaflet
    map library, the Leaflet.draw toolkit and the DOM.  Its fields, the
    feature and shape objects it shares with its click handlers, and the few
    DOM nodes it writes are gathered in one record [Editor]; every method is
    a function from [Editor] to [Editor].

    Conventions
    - JavaScript objects used as dictionaries ([properties], [colors],
      [mapLayers], [defaults]) are finite maps over their own keys.  Where
      a method looks one up under a name it is passed ([mapLayers] in
      [toggleLayer], [defaults] in [getDefaultProperties]), the members
      every object inherits from [Object.prototype] are accounted for.
    - The attribute panel is filled by assigning markup, a string built
      from the property values as they are, to its [innerHTML].  What the
      browser makes of the markup is a parameter of the development (the
      class [Browser]); the scenarios are run with a reader of plain
      markup.
    - Feature objects and shapes (Leaflet layers) live in two stores and
      are referred to by reference, so that the selection, the click
      handlers and the groups alias the same object as in the source.
    - Numbers held in property bags are integers (ids, counts, timestamps);
      coordinates are rationals.
    - The page instantiates the class on DOMContentLoaded under a misspelt
      name ([BarangayCappileGISEditor]); this development is about the
      methods of the class as declared. *)

From Stdlib Require Import ZArith QArith Ascii String.
From stdpp Require Import gmap strings list fin_maps pretty.

Open Scope Z_scope.
Open Scope string_scope.

(** ** JavaScript primitives used by the controller *)

Module Js.

(** A property value: a string or a number. *)
Inductive value :=
| VStr (s : string)
| VNum (n : Z).

#[global] Instance value_eq_dec : EqDecision value.
Proof. solve_decision. Defined.

(** Truthiness of a possibly missing ([undefined]) value. *)
Definition truthy (v : option value) : bool :=
  match v with
  | None => false
  | Some (VStr s) => negb (String.eqb s EmptyString)
  | Some (VNum n) => negb (Z.eqb n 0)
  end.

(** [a || b] *)
Definition or (a b : option value) : option value :=
  if truthy a then a else b.

(** *** Numbers as strings

    A number of a property bag is the Number nearest to the integer it is
    written as.  Up to [2^53] every integer is a Number and prints as its
    decimal digits.  Beyond, [Number::toString] prints the shortest digit
    string that reads back as the same Number (the nearest one when there
    are several, as the engines do), padded with zeros up to 21 digits and
    in exponent form from 22 digits on. *)

(** Round to 53 significant bits, ties to the even mantissa. *)
Definition nearest_double (m : Z) : Z :=
  (let s := Z.log2 m - 52 in
   if s <=? 0 then m
   else
     let q := Z.shiftr m s in
     let r := Z.land m (Z.ones s) in
     let half := Z.shiftl 1 (s - 1) in
     let q := if ((half <? r) || ((r =? half) && Z.odd q))%bool
              then q + 1 else q in
     Z.shiftl q s)%Z.

(** Whether the integer [v] rounds to the Number [x >= 2^53]: [v] lies
    between the midpoints to the neighbours of [x], which count when the
    mantissa of [x] is even. *)
Definition rounds_to (x v : Z) : bool :=
  (let s := Z.log2 x - 52 in
   let q := Z.shiftr x s in
   let up := Z.shiftl 1 s in
   let down := if q =? 2 ^ 52 then Z.shiftl 1 (s - 1) else up in
   if Z.even q
   then ((2 * x - down <=? 2 * v) && (2 * v <=? 2 * x + up))%bool
   else ((2 * x - down <? 2 * v) && (2 * v <? 2 * x + up))%bool)%Z.

Definition decimal_length (m : Z) : Z := Z.of_nat (String.length (pretty m)).

(** The pairs [(s, n)] with [k] digits in [s] such that [s * 10^(n-k)]
    rounds to [x]. *)
Definition candidates (x k : Z) : list (Z * Z) :=
  (let N := decimal_length x in
   flat_map (fun n =>
     let t := n - k in
     if t <? 0 then []
     else
       let p := 10 ^ t in
       let lo := x / p in
       List.filter (fun c =>
                 ((10 ^ (k - 1) <=? fst c) && (fst c <? 10 ^ k)
                  && rounds_to x (fst c * p))%bool)
              [(lo, n); (lo + 1, n)])
     [N; N + 1])%Z.

Definition closer (x : Z) (a b : Z * Z) : Z * Z :=
  (let va := fst a * 10 ^ (snd a - decimal_length (fst a)) in
   let vb := fst b * 10 ^ (snd b - decimal_length (fst b)) in
   let da := Z.abs (va - x) in
   let db := Z.abs (vb - x) in
   if da <? db then a
   else if db <? da then b
   else if Z.even (fst a) then a else b)%Z.

(** The fewest digits first; 17 always suffice. *)
Fixpoint shortest (fuel : nat) (x k : Z) : Z * Z :=
  match fuel with
  | O => (x, decimal_length x)
  | S fuel' =>
      match candidates x k with
      | [] => shortest fuel' x (k + 1)%Z
      | c :: cs => fold_left (closer x) cs c
      end
  end.

Fixpoint zeros (n : nat) : string :=
  match n with
  | O => EmptyString
  | S n' => String "0" (zeros n')
  end.

(** [m >= 2^53] *)
Definition large_to_string (m : Z) : string :=
  let x := nearest_double m in
  if (2 ^ 1024 <=? x)%Z then "Infinity"
  else
    let '(d, n) := shortest 17 x 1 in
    let digits := pretty d in
    if (n <=? 21)%Z then digits +:+ zeros (Z.to_nat (n - decimal_length d))
    else
      match digits with
      | String c EmptyString => String c ("e+" +:+ pretty (n - 1)%Z)
      | String c rest => String c ("." +:+ rest +:+ "e+" +:+ pretty (n - 1)%Z)
      | EmptyString => EmptyString
      end.

Definition number_to_string (n : Z) : string :=
  if (Z.abs n <? 2 ^ 53)%Z then pretty n
  else if (n <? 0)%Z then "-" +:+ large_to_string (- n)
  else large_to_string n.

(** Interpolation of a value in a template literal. *)
Definition to_string (v : option value) : string :=
  match v with
  | None => "undefined"
  | Some (VStr s) => s
  | Some (VNum n) => number_to_string n
  end.

Definition str (s : string) : option value := Some (VStr s).

Definition toUpperCase_ascii (c : ascii) : ascii :=
  let n := nat_of_ascii c in
  if (Nat.leb 97 n && Nat.leb n 122)%bool then ascii_of_nat (n - 32) else c.

(** [s.charAt(0).toUpperCase() + s.slice(1)] (ASCII letters). *)
Definition capitalize (s : string) : string :=
  match s with
  | EmptyString => EmptyString
  | String c r => String (toUpperCase_ascii c) r
  end.

Fixpoint drop_chars (n : nat) (s : string) : string :=
  match n, s with
  | O, _ => s
  | S n', String _ r => drop_chars n' r
  | S _, EmptyString => EmptyString
  end.

(** [s.replace(pat, rep)] with a string pattern: the first occurrence
    only. *)
Fixpoint replace (pat rep s : string) : string :=
  if String.prefix pat s then rep +:+ drop_chars (String.length pat) s
  else match s with
       | EmptyString => EmptyString
       | String c r => String c (replace pat rep r)
       end.

(** [s.includes(pat)] *)
Fixpoint includes (pat s : string) : bool :=
  (String.prefix pat s
   || match s with
      | EmptyString => false
      | String _ r => includes pat r
      end)%bool.

Definition dq : string := String (ascii_of_nat 34) EmptyString.

(** [s] between double quotes. *)
Definition quoted (s : string) : string := dq +:+ s +:+ dq.
Definition nl : string := String (ascii_of_nat 10) EmptyString.

Fixpoint spaces (n : nat) : string :=
  match n with
  | O => EmptyString
  | S n' => String (ascii_of_nat 32) (spaces n')
  end.

(** A line break inside a template literal, followed by the source
    indentation. *)
Definition br (indent : nat) : string := nl +:+ spaces indent.

End Js.

Import Js.

(** ** Data model *)

(** Property bag of a feature. *)
Abbreviation Props := (gmap string value).

(** [{ ...a, ...b }] : the keys of [b] win. *)
Definition spread (a b : Props) : Props := b ∪ a.

Inductive Geometry :=
| Point (lng lat : Q)
| LineString (coords : list (Q * Q))
| Polygon (rings : list (list (Q * Q))).

(** A GeoJSON feature object ([type] is always ['Feature']). *)
Record Feature := mkFeature {
  properties : Props;
  geometry : Geometry
}.

(** Path options touched by the controller.  Opacities are set once at
    creation and never read or changed afterwards; they are left out. *)
Record Style := mkStyle {
  weight : Z;
  color : string;
  fillColor : option string
}.

(** References into the feature store and the shape store. *)
Abbreviation fref := nat.
Abbreviation sref := nat.

(** A drawable shape (a Leaflet layer).  [shape_style] is [None] for a
    shape that has no [setStyle] method (a plain marker); [shape_click] is
    the pair captured by the click handler the controller registered. *)
Record Shape := mkShape {
  shape_style : option Style;
  shape_popup : option string;
  shape_click : option (fref * string);
  shape_latlngs : Geometry;
  shape_editable : bool
}.

Record Selection := mkSelection {
  sel_feature : fref;
  sel_layer : sref;
  sel_layerName : string
}.

(** One element of class [form-input] of the attribute editor: its id,
    its type, the string its [value] reads and whether it is read-only. *)
Record Input := mkInput {
  input_id : string;
  input_type : string;
  input_value : string;
  input_readonly : bool
}.

(** Content of the [#attribute-editor] panel as the controller reads it
    back: the heading, the elements
    [querySelectorAll('#attribute-editor .form-input')] returns, in
    document order, and whether the save button reads [Create]. *)
Inductive Panel :=
| NoSelectionPanel
| AttributeForm (heading : string) (inputs : list Input) (is_new : bool).

Definition panel_inputs (p : Panel) : list Input :=
  match p with
  | NoSelectionPanel => []
  | AttributeForm _ inputs _ => inputs
  end.

(** [this.colors] *)
Definition colors : gmap string string :=
  {[ "households" := "#3388ff";
     "facilities" := "#27ae60";
     "roads" := "#7f8c8d";
     "boundary" := "#ff7800" ]}.

(** [this.geojsonFiles] *)
Definition geojsonFiles : gmap string string :=
  {[ "households" := "/api/households";
     "facilities" := "/api/facilities";
     "roads" := "/api/roads";
     "boundary" := "/api/boundary" ]}.

(** ** Pure helpers of the class *)

Definition createPopupContent (feature : Feature) (layerName : string) : string :=
  let props := properties feature in
  let content :=
    "<div style=" +:+ dq +:+ "min-width: 200px" +:+ dq +:+ "><strong>"
    +:+ capitalize layerName +:+ "</strong>" in
  let content :=
    if String.eqb layerName "households" then
      content
      +:+ br 16 +:+ "<br><strong>Owner:</strong> "
      +:+ to_string (Js.or (props !! "Owner") (str "N/A"))
      +:+ br 16 +:+ "<br><strong>Family:</strong> "
      +:+ to_string (Js.or (props !! "Family nm") (str "N/A"))
      +:+ br 16 +:+ "<br><strong>Residents:</strong> "
      +:+ to_string (Js.or (props !! "Residents") (str "0"))
      +:+ br 16 +:+ "<br><em>Click to edit</em>"
      +:+ br 12
    else if String.eqb layerName "facilities" then
      content
      +:+ br 16 +:+ "<br><strong>Facility:</strong> "
      +:+ to_string (Js.or (props !! "Facility") (str "N/A"))
      +:+ br 16 +:+ "<br><em>Click to edit</em>"
      +:+ br 12
    else
      content +:+ "<br><em>Click to edit</em>" in
  content +:+ "</div>".

(** The names under which every object literal inherits a member from
    [Object.prototype]: its methods and the accessor [__proto__].  A read
    [obj[name]] of a name that is not a key of [obj] itself finds the
    inherited member under these names, and [undefined] under any other. *)
Definition objectPrototype : list string :=
  ["constructor"; "__defineGetter__"; "__defineSetter__"; "hasOwnProperty";
   "__lookupGetter__"; "__lookupSetter__"; "isPrototypeOf";
   "propertyIsEnumerable"; "toString"; "valueOf"; "__proto__";
   "toLocaleString"].

(** What [getDefaultProperties] returns: a record of default properties,
    or the member of [Object.prototype] found under the layer name (a
    method, or [Object.prototype] itself under ['__proto__']), which is
    truthy and so stands in the way of the fallback. *)
Inductive DefaultsValue :=
| OwnRecord (props : Props)
| InheritedMember (name : string).

(** The value as the [properties] of a feature: its own enumerable
    properties.  An inherited member has none, and none of the keys [id],
    [ID], [Owner], ['Family nm'] and [Residents]: the form generated for
    it under ['drawn'] shows empty values and the spread of
    [saveAttributes] copies nothing from it.  (A method has the
    properties [name] and [length] of every function; they are not
    enumerable, and nothing reads them from a drawn feature.) *)
Definition own_properties (d : DefaultsValue) : Props :=
  match d with
  | OwnRecord props => props
  | InheritedMember _ => ∅
  end.

(** [getDefaultProperties(layerName)]; [now] is the value of [Date.now()]. *)
Definition getDefaultProperties (now : Z) (layerName : string) : DefaultsValue :=
  let defaults : gmap string Props :=
    {[ "households" :=
         {[ "id" := VNum now;
            "Owner" := VStr "New Owner";
            "Family nm" := VStr "New Family";
            "Residents" := VNum 1 ]};
       "facilities" :=
         {[ "id" := VNum now;
            "Facility" := VStr "New Facility" ]};
       "drawn" :=
         {[ "id" := VNum now;
            "name" := VStr "New Feature" ]} ]} in
  match defaults !! layerName with
  | Some props => OwnRecord props
  | None =>
      if bool_decide (layerName ∈ objectPrototype)
      then InheritedMember layerName
      else OwnRecord {[ "id" := VNum now; "name" := VStr "New Feature" ]}
  end.

(** [createAttributeForm(properties, layerName, isNew)]: the markup of
    the attribute form.  The values are interpolated as they are, without
    escaping. *)
Definition createAttributeForm (props : Props) (layerName : string)
    (isNew : bool) : string :=
  let id_or (d : string) : string :=
    to_string (Js.or (Js.or (props !! "id") (props !! "ID")) (str d)) in
  let value_of (v : option value) : string :=
    to_string (Js.or v (str EmptyString)) in
  let html :=
    br 12 +:+ "<div class=" +:+ quoted "attribute-form" +:+ ">"
    +:+ br 16 +:+ "<h3>" +:+ capitalize layerName +:+ " "
    +:+ (if isNew then "(New)" else "#" +:+ id_or "N/A") +:+ "</h3>"
    +:+ br 8 in
  let html :=
    if (String.eqb layerName "households" || String.eqb layerName "drawn")%bool
    then
      html
      +:+ br 16 +:+ "<div class=" +:+ quoted "form-group" +:+ ">"
      +:+ br 20 +:+ "<label class=" +:+ quoted "form-label"
      +:+ ">Household ID</label>"
      +:+ br 20 +:+ "<input type=" +:+ quoted "text" +:+ " class="
      +:+ quoted "form-input" +:+ " id=" +:+ quoted "attr-id" +:+ " value="
      +:+ quoted (id_or EmptyString) +:+ " "
      +:+ (if isNew then EmptyString else "readonly") +:+ ">"
      +:+ br 16 +:+ "</div>"
      +:+ br 16 +:+ "<div class=" +:+ quoted "form-group" +:+ ">"
      +:+ br 20 +:+ "<label class=" +:+ quoted "form-label"
      +:+ ">Owner Name</label>"
      +:+ br 20 +:+ "<input type=" +:+ quoted "text" +:+ " class="
      +:+ quoted "form-input" +:+ " id=" +:+ quoted "attr-owner" +:+ " value="
      +:+ quoted (value_of (props !! "Owner")) +:+ ">"
      +:+ br 16 +:+ "</div>"
      +:+ br 16 +:+ "<div class=" +:+ quoted "form-group" +:+ ">"
      +:+ br 20 +:+ "<label class=" +:+ quoted "form-label"
      +:+ ">Family Name</label>"
      +:+ br 20 +:+ "<input type=" +:+ quoted "text" +:+ " class="
      +:+ quoted "form-input" +:+ " id=" +:+ quoted "attr-family"
      +:+ " value=" +:+ quoted (value_of (props !! "Family nm")) +:+ ">"
      +:+ br 16 +:+ "</div>"
      +:+ br 16 +:+ "<div class=" +:+ quoted "form-group" +:+ ">"
      +:+ br 20 +:+ "<label class=" +:+ quoted "form-label"
      +:+ ">Number of Residents</label>"
      +:+ br 20 +:+ "<input type=" +:+ quoted "number" +:+ " class="
      +:+ quoted "form-input" +:+ " id=" +:+ quoted "attr-residents"
      +:+ " value=" +:+ quoted (value_of (props !! "Residents")) +:+ ">"
      +:+ br 16 +:+ "</div>"
      +:+ br 12
    else if String.eqb layerName "facilities" then
      html
      +:+ br 16 +:+ "<div class=" +:+ quoted "form-group" +:+ ">"
      +:+ br 20 +:+ "<label class=" +:+ quoted "form-label"
      +:+ ">Facility Name</label>"
      +:+ br 20 +:+ "<input type=" +:+ quoted "text" +:+ " class="
      +:+ quoted "form-input" +:+ " id=" +:+ quoted "attr-facility"
      +:+ " value=" +:+ quoted (value_of (props !! "Facility")) +:+ ">"
      +:+ br 16 +:+ "</div>"
      +:+ br 12
    else
      html
      +:+ br 16 +:+ "<div class=" +:+ quoted "form-group" +:+ ">"
      +:+ br 20 +:+ "<label class=" +:+ quoted "form-label"
      +:+ ">Name</label>"
      +:+ br 20 +:+ "<input type=" +:+ quoted "text" +:+ " class="
      +:+ quoted "form-input" +:+ " id=" +:+ quoted "attr-name" +:+ " value="
      +:+ quoted (value_of (Js.or (props !! "name") (props !! "Name")))
      +:+ ">"
      +:+ br 16 +:+ "</div>"
      +:+ br 12 in
  html
  +:+ br 12 +:+ "<div class=" +:+ quoted "form-actions" +:+ ">"
  +:+ br 16 +:+ "<button class=" +:+ quoted "btn btn-primary" +:+ " onclick="
  +:+ quoted "gisEditor.saveAttributes()" +:+ ">"
  +:+ br 20 +:+ "<i class=" +:+ quoted "fas fa-save" +:+ "></i> "
  +:+ (if isNew then "Create" else "Save Changes")
  +:+ br 16 +:+ "</button>"
  +:+ br 16 +:+ "<button class=" +:+ quoted "btn btn-danger" +:+ " onclick="
  +:+ quoted "gisEditor.deleteSelectedFeature()" +:+ ">"
  +:+ br 20 +:+ "<i class=" +:+ quoted "fas fa-trash" +:+ "></i> Delete"
  +:+ br 16 +:+ "</button>"
  +:+ br 12 +:+ "</div>"
  +:+ br 8 +:+ "</div>".

(** [getNoSelectionHTML()] *)
Definition getNoSelectionHTML : string :=
  br 12 +:+ "<div class=" +:+ quoted "no-selection" +:+ ">"
  +:+ br 16 +:+ "<i class=" +:+ quoted "fas fa-info-circle" +:+ "></i>"
  +:+ br 16
  +:+ "<p>Select a feature on the map to view and edit its attributes.</p>"
  +:+ br 12 +:+ "</div>"
  +:+ br 8.

(** *** The panel the markup spells out

    The browser parses the markup assigned to [innerHTML].  When no
    interpolated value holds a character the parser treats specially (a
    double quote, an ampersand, a line break, and [<] in the heading), the
    elements it builds are the ones the template spells out, with the
    values as they are; a number input keeps a value only if it is a
    valid floating-point number. *)

Definition is_digit (c : ascii) : bool :=
  let n := nat_of_ascii c in (Nat.leb 48 n && Nat.leb n 57)%bool.

Fixpoint skip_digits (s : string) : string :=
  match s with
  | String c r => if is_digit c then skip_digits r else s
  | EmptyString => s
  end.

Definition starts_with_digit (s : string) : bool :=
  match s with
  | String c _ => is_digit c
  | EmptyString => false
  end.

(** A valid floating-point number of HTML: an optional [-], digits, a
    fraction, or both, and an optional exponent. *)
Definition valid_floating_point_number (s : string) : bool :=
  let s := match s with String "-" r => r | _ => s end in
  let has_int := starts_with_digit s in
  let s := skip_digits s in
  let '(has_frac, s) :=
    match s with
    | String "." r =>
        if starts_with_digit r then (true, skip_digits r) else (false, s)
    | _ => (false, s)
    end in
  if negb (has_int || has_frac) then false
  else
    match s with
    | EmptyString => true
    | String c r =>
        if (Ascii.eqb c "e" || Ascii.eqb c "E")%bool then
          let r := match r with
                   | String "-" r' => r'
                   | String "+" r' => r'
                   | _ => r
                   end in
          (starts_with_digit r && String.eqb (skip_digits r) EmptyString)%bool
        else false
    end.

(** The value a number input takes from its [value] attribute. *)
Definition number_value (s : string) : string :=
  if valid_floating_point_number s then s else EmptyString.

(** The panel the markup of [createAttributeForm] spells out. *)
Definition attributeForm (props : Props) (layerName : string)
    (isNew : bool) : Panel :=
  let heading :=
    capitalize layerName +:+ " "
    +:+ (if isNew then "(New)"
         else "#" +:+ to_string (Js.or (Js.or (props !! "id") (props !! "ID"))
                                       (str "N/A"))) in
  let inputs :=
    if (String.eqb layerName "households" || String.eqb layerName "drawn")%bool
    then
      [ mkInput "attr-id" "text"
          (to_string (Js.or (Js.or (props !! "id") (props !! "ID"))
                            (str EmptyString)))
          (negb isNew);
        mkInput "attr-owner" "text"
          (to_string (Js.or (props !! "Owner") (str EmptyString))) false;
        mkInput "attr-family" "text"
          (to_string (Js.or (props !! "Family nm") (str EmptyString))) false;
        mkInput "attr-residents" "number"
          (number_value
             (to_string (Js.or (props !! "Residents") (str EmptyString))))
          false ]
    else if String.eqb layerName "facilities" then
      [ mkInput "attr-facility" "text"
          (to_string (Js.or (props !! "Facility") (str EmptyString))) false ]
    else
      [ mkInput "attr-name" "text"
          (to_string (Js.or (Js.or (props !! "name") (props !! "Name"))
                            (str EmptyString)))
          false ] in
  AttributeForm heading inputs isNew.

(** ** The browser's HTML parser

    [innerHTML html] is what the assignment of [html] to the [innerHTML]
    of [#attribute-editor] leaves in the panel: the form controls of
    class [form-input] in document order, each with its id, its type, its
    value and whether it is read-only, under the heading shown;
    [NoSelectionPanel] when the panel holds no such control and no button.
    What the parser makes of a given markup is not fixed here: a statement
    that depends on it says so.  The one fact taken for granted is about
    the constant markup of [getNoSelectionHTML], which holds no control. *)
Class Browser := {
  innerHTML : string -> Panel;
  innerHTML_no_selection : innerHTML getNoSelectionHTML = NoSelectionPanel
}.

(** *** Reading plain markup back

    A reader for the markup [createAttributeForm] generates from values
    that hold none of the characters the parser treats specially: it takes
    the text between two double quotes as an attribute value, as it is.
    On such markup this is what a browser builds; it is used to run the
    scenarios below, whose values are letters, digits and spaces. *)
Module Markup.

(** The text after the first occurrence of [pat]. *)
Fixpoint after (pat s : string) : option string :=
  if String.prefix pat s then Some (drop_chars (String.length pat) s)
  else match s with
       | EmptyString => None
       | String _ r => after pat r
       end.

(** The text before the first occurrence of [pat]. *)
Fixpoint before (pat s : string) : string :=
  if String.prefix pat s then EmptyString
  else match s with
       | EmptyString => EmptyString
       | String c r => String c (before pat r)
       end.

(** The value of the attribute [name] in the text of a start tag. *)
Definition attribute (name tag : string) : string :=
  from_option (before dq) EmptyString (after (" " +:+ name +:+ "=" +:+ dq) tag).

(** The text of a start tag outside its quoted values. *)
Fixpoint unquoted (inside : bool) (tag : string) : string :=
  match tag with
  | EmptyString => EmptyString
  | String c r =>
      if Ascii.eqb c (ascii_of_nat 34) then unquoted (negb inside) r
      else if inside then unquoted inside r
      else String c (unquoted inside r)
  end.

Definition input_of (tag : string) : Input :=
  let type := attribute "type" tag in
  let value := attribute "value" tag in
  mkInput (attribute "id" tag) type
    (if String.eqb type "number" then number_value value else value)
    (includes " readonly" (unquoted false tag)).

(** The [input] elements of class [form-input], in document order. *)
Fixpoint inputs (fuel : nat) (html : string) : list Input :=
  match fuel with
  | O => []
  | S fuel' =>
      match after "<input" html with
      | None => []
      | Some rest =>
          let tag := before ">" rest in
          let others := inputs fuel' (default EmptyString (after ">" rest)) in
          if includes "form-input" (attribute "class" tag)
          then input_of tag :: others else others
      end
  end.

Definition read (html : string) : Panel :=
  if (includes "<input" html || includes "<button" html)%bool then
    AttributeForm
      (from_option (before "</h3>") EmptyString (after "<h3>" html))
      (inputs (String.length html) html)
      (includes "</i> Create" html)
  else NoSelectionPanel.

End Markup.

Definition plain_browser : Browser :=
  {| innerHTML := Markup.read;
     innerHTML_no_selection := eq_refl |}.

(** ** Controller state *)

(** The DOM nodes the controller writes. *)
Record Dom := mkDom {
  draw_toolbar_shown : bool;          (* .leaflet-draw-toolbar-top display *)
  attribute_editor : Panel;           (* #attribute-editor *)
  selected_count : string;            (* #selected-count *)
  current_tool_text : string;         (* #current-tool and the active button *)
  current_layer_text : string;        (* #current-layer *)
  map_banner : string;                (* #map-banner *)
  notifications : list (string * string)  (* flash messages: text, type *)
}.

(** The controller object together with the objects it shares.

    - [map_groups], [map_shapes]: the layers currently on the Leaflet map
      ([this.map]): which groups of [mapLayers] and which shapes.
    - [mapLayers]: layer name to the shapes of its group; the key
      ["drawn"] is [this.drawnItems] (one object under two names).
    - [features], [shapes]: the feature objects and shapes reachable from
      the click handlers, the groups and the selection.
    - [edit_enabled]: whether the toolkit's edit mode was switched on.
    - [pending_loads]: the fetches issued by [loadAllGeoJSONData] that have
      not settled yet. *)
Record Editor := mkEditor {
  map_groups : gset string;
  map_shapes : gset sref;
  mapLayers : gmap string (gset sref);
  currentTool : string;
  currentLayer : string;
  selectedFeature : option Selection;
  isDrawing : bool;
  features : gmap fref Feature;
  shapes : gmap sref Shape;
  edit_enabled : bool;
  pending_loads : gset string;
  page : Dom
}.

(** Field updates. *)

Definition with_draw_toolbar_shown (v : bool) (d : Dom) : Dom :=
  {| draw_toolbar_shown := v; attribute_editor := attribute_editor d;
  selected_count := selected_count d; current_tool_text := current_tool_text
  d; current_layer_text := current_layer_text d; map_banner := map_banner d;
  notifications := notifications d |}.

Definition with_attribute_editor (v : Panel) (d : Dom) : Dom :=
  {| draw_toolbar_shown := draw_toolbar_shown d; attribute_editor := v;
  selected_count := selected_count d; current_tool_text := current_tool_text
  d; current_layer_text := current_layer_text d; map_banner := map_banner d;
  notifications := notifications d |}.

Definition with_selected_count (v : string) (d : Dom) : Dom :=
  {| draw_toolbar_shown := draw_toolbar_shown d; attribute_editor :=
  attribute_editor d; selected_count := v; current_tool_text :=
  current_tool_text d; current_layer_text := current_layer_text d;
  map_banner := map_banner d; notifications := notifications d |}.

Definition with_current_tool_text (v : string) (d : Dom) : Dom :=
  {| draw_toolbar_shown := draw_toolbar_shown d; attribute_editor :=
  attribute_editor d; selected_count := selected_count d; current_tool_text
  := v; current_layer_text := current_layer_text d; map_banner := map_banner
  d; notifications := notifications d |}.

Definition with_current_layer_text (v : string) (d : Dom) : Dom :=
  {| draw_toolbar_shown := draw_toolbar_shown d; attribute_editor :=
  attribute_editor d; selected_count := selected_count d; current_tool_text
  := current_tool_text d; current_layer_text := v; map_banner := map_banner
  d; notifications := notifications d |}.

Definition with_map_banner (v : string) (d : Dom) : Dom :=
  {| draw_toolbar_shown := draw_toolbar_shown d; attribute_editor :=
  attribute_editor d; selected_count := selected_count d; current_tool_text
  := current_tool_text d; current_layer_text := current_layer_text d;
  map_banner := v; notifications := notifications d |}.

Definition with_notifications (v : list (string * string)) (d : Dom) : Dom :=
  {| draw_toolbar_shown := draw_toolbar_shown d; attribute_editor :=
  attribute_editor d; selected_count := selected_count d; current_tool_text
  := current_tool_text d; current_layer_text := current_layer_text d;
  map_banner := map_banner d; notifications := v |}.

Definition with_map_groups (v : gset string) (e : Editor) : Editor :=
  {| map_groups := v; map_shapes := map_shapes e; mapLayers := mapLayers e;
  currentTool := currentTool e; currentLayer := currentLayer e;
  selectedFeature := selectedFeature e; isDrawing := isDrawing e; features
  := features e; shapes := shapes e; edit_enabled := edit_enabled e;
  pending_loads := pending_loads e; page := page e |}.

Definition with_map_shapes (v : gset sref) (e : Editor) : Editor :=
  {| map_groups := map_groups e; map_shapes := v; mapLayers := mapLayers e;
  currentTool := currentTool e; currentLayer := currentLayer e;
  selectedFeature := selectedFeature e; isDrawing := isDrawing e; features
  := features e; shapes := shapes e; edit_enabled := edit_enabled e;
  pending_loads := pending_loads e; page := page e |}.

Definition with_mapLayers (v : gmap string (gset sref)) (e : Editor) : Editor :=
  {| map_groups := map_groups e; map_shapes := map_shapes e; mapLayers := v;
  currentTool := currentTool e; currentLayer := currentLayer e;
  selectedFeature := selectedFeature e; isDrawing := isDrawing e; features
  := features e; shapes := shapes e; edit_enabled := edit_enabled e;
  pending_loads := pending_loads e; page := page e |}.

Definition with_currentTool (v : string) (e : Editor) : Editor :=
  {| map_groups := map_groups e; map_shapes := map_shapes e; mapLayers :=
  mapLayers e; currentTool := v; currentLayer := currentLayer e;
  selectedFeature := selectedFeature e; isDrawing := isDrawing e; features
  := features e; shapes := shapes e; edit_enabled := edit_enabled e;
  pending_loads := pending_loads e; page := page e |}.

Definition with_currentLayer (v : string) (e : Editor) : Editor :=
  {| map_groups := map_groups e; map_shapes := map_shapes e; mapLayers :=
  mapLayers e; currentTool := currentTool e; currentLayer := v;
  selectedFeature := selectedFeature e; isDrawing := isDrawing e; features
  := features e; shapes := shapes e; edit_enabled := edit_enabled e;
  pending_loads := pending_loads e; page := page e |}.

Definition with_selectedFeature (v : option Selection) (e : Editor) : Editor :=
  {| map_groups := map_groups e; map_shapes := map_shapes e; mapLayers :=
  mapLayers e; currentTool := currentTool e; currentLayer := currentLayer e;
  selectedFeature := v; isDrawing := isDrawing e; features := features e;
  shapes := shapes e; edit_enabled := edit_enabled e; pending_loads :=
  pending_loads e; page := page e |}.

Definition with_isDrawing (v : bool) (e : Editor) : Editor :=
  {| map_groups := map_groups e; map_shapes := map_shapes e; mapLayers :=
  mapLayers e; currentTool := currentTool e; currentLayer := currentLayer e;
  selectedFeature := selectedFeature e; isDrawing := v; features := features
  e; shapes := shapes e; edit_enabled := edit_enabled e; pending_loads :=
  pending_loads e; page := page e |}.

Definition with_features (v : gmap fref Feature) (e : Editor) : Editor :=
  {| map_groups := map_groups e; map_shapes := map_shapes e; mapLayers :=
  mapLayers e; currentTool := currentTool e; currentLayer := currentLayer e;
  selectedFeature := selectedFeature e; isDrawing := isDrawing e; features
  := v; shapes := shapes e; edit_enabled := edit_enabled e; pending_loads :=
  pending_loads e; page := page e |}.

Definition with_shapes (v : gmap sref Shape) (e : Editor) : Editor :=
  {| map_groups := map_groups e; map_shapes := map_shapes e; mapLayers :=
  mapLayers e; currentTool := currentTool e; currentLayer := currentLayer e;
  selectedFeature := selectedFeature e; isDrawing := isDrawing e; features
  := features e; shapes := v; edit_enabled := edit_enabled e; pending_loads
  := pending_loads e; page := page e |}.

Definition with_edit_enabled (v : bool) (e : Editor) : Editor :=
  {| map_groups := map_groups e; map_shapes := map_shapes e; mapLayers :=
  mapLayers e; currentTool := currentTool e; currentLayer := currentLayer e;
  selectedFeature := selectedFeature e; isDrawing := isDrawing e; features
  := features e; shapes := shapes e; edit_enabled := v; pending_loads :=
  pending_loads e; page := page e |}.

Definition with_pending_loads (v : gset string) (e : Editor) : Editor :=
  {| map_groups := map_groups e; map_shapes := map_shapes e; mapLayers :=
  mapLayers e; currentTool := currentTool e; currentLayer := currentLayer e;
  selectedFeature := selectedFeature e; isDrawing := isDrawing e; features
  := features e; shapes := shapes e; edit_enabled := edit_enabled e;
  pending_loads := v; page := page e |}.

Definition with_page (v : Dom) (e : Editor) : Editor :=
  {| map_groups := map_groups e; map_shapes := map_shapes e; mapLayers :=
  mapLayers e; currentTool := currentTool e; currentLayer := currentLayer e;
  selectedFeature := selectedFeature e; isDrawing := isDrawing e; features
  := features e; shapes := shapes e; edit_enabled := edit_enabled e;
  pending_loads := pending_loads e; page := v |}.

Definition on_page (f : Dom -> Dom) (e : Editor) : Editor :=
  with_page (f (page e)) e.

(** ** The Leaflet operations the controller calls

    Leaflet keeps, for the map and for every group, the set of layers
    added to it.  A group that is on the map forwards additions and
    removals of its shapes to the map; adding or removing a group adds or
    removes its shapes. *)

Module Leaflet.

(** [group.getLayers()] for the group registered under [name]. *)
Definition group (name : string) (e : Editor) : gset sref :=
  default ∅ (mapLayers e !! name).

(** [map.hasLayer(shape)] *)
Definition map_hasLayer (i : sref) (e : Editor) : bool :=
  bool_decide (i ∈ map_shapes e).

(** [map.removeLayer(shape)] *)
Definition map_removeLayer (i : sref) (e : Editor) : Editor :=
  with_map_shapes (map_shapes e ∖ {[ i ]}) e.

(** [map.addLayer(group)]: nothing when the group is already on the map. *)
Definition map_addGroup (name : string) (e : Editor) : Editor :=
  if bool_decide (name ∈ map_groups e) then e
  else with_map_shapes (map_shapes e ∪ group name e)
         (with_map_groups (map_groups e ∪ {[ name ]}) e).

(** [map.removeLayer(group)]: nothing when the group is not on the map. *)
Definition map_removeGroup (name : string) (e : Editor) : Editor :=
  if bool_decide (name ∈ map_groups e) then
    with_map_shapes (map_shapes e ∖ group name e)
      (with_map_groups (map_groups e ∖ {[ name ]}) e)
  else e.

(** [group.hasLayer(shape)] *)
Definition group_hasLayer (name : string) (i : sref) (e : Editor) : bool :=
  bool_decide (i ∈ group name e).

(** [group.addLayer(shape)] *)
Definition group_addLayer (name : string) (i : sref) (e : Editor) : Editor :=
  let e' := with_mapLayers (<[ name := group name e ∪ {[ i ]} ]> (mapLayers e)) e in
  if bool_decide (name ∈ map_groups e)
  then with_map_shapes (map_shapes e ∪ {[ i ]}) e'
  else e'.

(** [group.removeLayer(shape)] *)
Definition group_removeLayer (name : string) (i : sref) (e : Editor) : Editor :=
  let e' :=
    if (bool_decide (name ∈ map_groups e) && group_hasLayer name i e)%bool
    then with_map_shapes (map_shapes e ∖ {[ i ]}) e
    else e in
  with_mapLayers (<[ name := group name e ∖ {[ i ]} ]> (mapLayers e')) e'.

(** Whether the shape has a [setStyle] method. *)
Definition has_setStyle (i : sref) (e : Editor) : bool :=
  match shapes e !! i with
  | Some sh => bool_decide (is_Some (shape_style sh))
  | None => false
  end.

Definition restyle (w : Z) (c : string) (sh : Shape) : Shape :=
  mkShape ((fun st => mkStyle w c (fillColor st)) <$> shape_style sh)
          (shape_popup sh) (shape_click sh) (shape_latlngs sh)
          (shape_editable sh).

(** [shape.setStyle({ weight: w, color: c })] *)
Definition setStyle (i : sref) (w : Z) (c : string) (e : Editor) : Editor :=
  with_shapes (alter (restyle w c) i (shapes e)) e.

(** [shape.setPopupContent(content)]: replaces the content of the bound
    popup, if one is bound. *)
Definition setPopupContent (i : sref) (content : string) (e : Editor) : Editor :=
  with_shapes
    (alter (fun sh => mkShape (shape_style sh)
                        ((fun _ => content) <$> shape_popup sh)
                        (shape_click sh) (shape_latlngs sh) (shape_editable sh))
           i (shapes e)) e.

End Leaflet.

Import Leaflet.

(** ** Methods of the controller *)

Section Controller.

Context `{browser : Browser}.

Definition showNotification (message type : string) (e : Editor) : Editor :=
  on_page (fun d => with_notifications (notifications d ++ [(message, type)]) d) e.

Definition hideDrawToolbar (e : Editor) : Editor :=
  on_page (with_draw_toolbar_shown false) e.

Definition showDrawToolbar (e : Editor) : Editor :=
  on_page (with_draw_toolbar_shown true) e.

Definition showAttributeEditor (props : Props) (layerName : string)
    (isNew : bool) (e : Editor) : Editor :=
  on_page (with_attribute_editor
             (innerHTML (createAttributeForm props layerName isNew))) e.

(** [feature.properties] of the object behind a reference. *)
Definition props_of (f : fref) (e : Editor) : Props :=
  from_option properties ∅ (features e !! f).

(** The unselected outline: [{ weight: 2, color: this.colors[name] ||
    '#3388ff' }]. *)
Definition normal_color (layerName : string) : string :=
  default "#3388ff" (colors !! layerName).

(** First statement of [selectFeature] and of [deselectFeature]: put the
    previous selection back to its unselected outline. *)
Definition restorePrevious (e : Editor) : Editor :=
  match selectedFeature e with
  | Some sel =>
      if has_setStyle (sel_layer sel) e
      then setStyle (sel_layer sel) 2 (normal_color (sel_layerName sel)) e
      else e
  | None => e
  end.

Definition storeSelection (feature : fref) (layer : sref) (layerName : string)
    (e : Editor) : Editor :=
  with_selectedFeature (Some (mkSelection feature layer layerName)) e.

Definition highlight (layer : sref) (e : Editor) : Editor :=
  if has_setStyle layer e then setStyle layer 4 "#ff0000" e else e.

Definition showSelection (feature : fref) (layerName : string) (isNew : bool)
    (e : Editor) : Editor :=
  on_page (with_selected_count "1")
    (showAttributeEditor (props_of feature e) layerName isNew e).

Definition selectFeature (feature : fref) (layer : sref) (layerName : string)
    (isNew : bool) (e : Editor) : Editor :=
  let e := restorePrevious e in
  let e := storeSelection feature layer layerName e in
  let e := highlight layer e in
  showSelection feature layerName isNew e.

Definition deselectFeature (e : Editor) : Editor :=
  let e := restorePrevious e in
  let e := with_selectedFeature None e in
  on_page (fun d => with_selected_count "0"
                     (with_attribute_editor (innerHTML getNoSelectionHTML) d)) e.

(** The key a form input writes: [input.id.replace('attr-', '')]. *)
Definition field_of (i : Input) : string :=
  replace "attr-" EmptyString (input_id i).

(** The body of the [forEach] over the form inputs:
    [updatedProperties[field] = input.value].  An assignment to the key
    ['__proto__'] runs the inherited setter, which ignores a string: no
    property is added. *)
Definition write_input (acc : Props) (i : Input) : Props :=
  if String.eqb (field_of i) "__proto__" then acc
  else <[ field_of i := VStr (input_value i) ]> acc.

Definition updatedProperties (inputs : list Input) : Props :=
  fold_left write_input inputs ∅.

Definition saveAttributes (e : Editor) : Editor :=
  match selectedFeature e with
  | None => e
  | Some sel =>
      let updated := updatedProperties (panel_inputs (attribute_editor (page e))) in
      let e :=
        with_features
          (alter (fun f => mkFeature (spread (properties f) updated) (geometry f))
                 (sel_feature sel) (features e)) e in
      let popupContent :=
        from_option (fun f => createPopupContent f (sel_layerName sel))
                    EmptyString (features e !! sel_feature sel) in
      let e := setPopupContent (sel_layer sel) popupContent e in
      showNotification "✅ Feature saved successfully!" "success" e
  end.

(** [confirmed] is the answer of the [confirm] dialog; it is only asked
    when there is a selection. *)
Definition deleteSelectedFeature (confirmed : bool) (e : Editor) : Editor :=
  match selectedFeature e with
  | None => e
  | Some sel =>
      if negb confirmed then e
      else
        let layer := sel_layer sel in
        let layerName := sel_layerName sel in
        let e := if map_hasLayer layer e then map_removeLayer layer e else e in
        let e :=
          if (bool_decide (is_Some (mapLayers e !! layerName))
              && group_hasLayer layerName layer e)%bool
          then group_removeLayer layerName layer e else e in
        let e :=
          if group_hasLayer "drawn" layer e
          then group_removeLayer "drawn" layer e else e in
        let e := deselectFeature e in
        showNotification "✅ Feature deleted successfully!" "success" e
  end.

(** Whether [toggleLayer(layerName, visible)] raises.  [this.mapLayers]
    is an object literal: under a name that is not one of its keys but is
    inherited from [Object.prototype], [this.mapLayers[layerName]] is a
    truthy value that is not a layer, and [map.addLayer] refuses it with
    an error.  [map.removeLayer] of an object that is not on the map
    leaves the map as it is (it stamps the object with an id of the
    toolkit; the ids are not part of the state, and under ['__proto__'],
    where the object stamped is [Object.prototype], the toolkit would no
    longer tell new layers apart: no event passes such a name). *)
Definition toggleLayer_raises (layerName : string) (visible : bool)
    (e : Editor) : bool :=
  (visible && bool_decide (mapLayers e !! layerName = None)
   && bool_decide (layerName ∈ objectPrototype))%bool.

(** The state [toggleLayer(layerName, visible)] leaves, whether it
    returns or raises: an error of [map.addLayer] ends the call before
    the current layer is set. *)
Definition toggleLayer (layerName : string) (visible : bool) (e : Editor) : Editor :=
  if toggleLayer_raises layerName visible e then e
  else
    let e :=
      if bool_decide (is_Some (mapLayers e !! layerName)) then
        if visible then map_addGroup layerName e else map_removeGroup layerName e
      else e in
    if visible then
      on_page (with_current_layer_text (capitalize layerName))
        (with_currentLayer layerName e)
    else e.

Definition startDrawing (drawType : string) (e : Editor) : Editor :=
  showDrawToolbar (with_isDrawing true e).

Definition drawTools : list string :=
  ["marker"; "polygon"; "rectangle"; "polyline"].

Definition enableTool (tool : string) (confirmed : bool) (e : Editor) : Editor :=
  let e := with_isDrawing false (hideDrawToolbar e) in
  if String.eqb tool "edit" then
    if bool_decide (group "drawn" e ≠ ∅) then with_edit_enabled true e else e
  else if bool_decide (tool ∈ drawTools) then startDrawing tool e
  else if String.eqb tool "delete" then
    match selectedFeature e with
    | Some _ => deleteSelectedFeature confirmed e
    | None => e
    end
  else e.

Definition setActiveTool (tool : string) (confirmed : bool) (e : Editor) : Editor :=
  let e := with_currentTool tool e in
  let e :=
    on_page (fun d =>
      with_map_banner
        ("Using: <strong>" +:+ capitalize tool +:+ "</strong> Tool on <strong>"
         +:+ currentLayer e +:+ "</strong> Layer")
        (with_current_tool_text (capitalize tool) d)) e in
  enableTool tool confirmed e.

(** [layer.bindPopup(content)] and [layer.on('click', ...)] on a shape. *)
Definition bindPopup (i : sref) (content : string) (e : Editor) : Editor :=
  with_shapes
    (alter (fun sh => mkShape (shape_style sh) (Some content) (shape_click sh)
                        (shape_latlngs sh) (shape_editable sh))
           i (shapes e)) e.

Definition onClick (i : sref) (feature : fref) (layerName : string)
    (e : Editor) : Editor :=
  with_shapes
    (alter (fun sh => mkShape (shape_style sh) (shape_popup sh)
                        (Some (feature, layerName))
                        (shape_latlngs sh) (shape_editable sh))
           i (shapes e)) e.

(** [layer.toGeoJSON().geometry] *)
Definition toGeoJSON_geometry (i : sref) (e : Editor) : Geometry :=
  from_option shape_latlngs (Point 0 0) (shapes e !! i).

(** A new object in a store gets a reference not yet in use. *)
Definition new_feature (f : Feature) (e : Editor) : fref * Editor :=
  let r := fresh (dom (features e)) in
  (r, with_features (<[ r := f ]> (features e)) e).

Definition new_shape (sh : Shape) (e : Editor) : sref * Editor :=
  let r := fresh (dom (shapes e)) in
  (r, with_shapes (<[ r := sh ]> (shapes e)) e).

(** [handleDrawCreated(e)] with [e.layer = layer], [e.layerType =
    layerType]; [now] is [Date.now()]. *)
Definition handleDrawCreated (layer : sref) (layerType : string) (now : Z)
    (e : Editor) : Editor :=
  let e := group_addLayer "drawn" layer e in
  let newFeature :=
    mkFeature (own_properties (getDefaultProperties now (currentLayer e)))
              (toGeoJSON_geometry layer e) in
  let '(f, e) := new_feature newFeature e in
  let e := onClick layer f "drawn" e in
  let e := bindPopup layer (createPopupContent newFeature "drawn") e in
  let e := selectFeature f layer "drawn" true e in
  let e := showNotification ("New " +:+ layerType +:+ " created") "success" e in
  setActiveTool "select" false e.

Definition handleDrawEdited (e : Editor) : Editor :=
  showNotification "Features updated successfully" "success" e.

Definition handleDrawDeleted (e : Editor) : Editor :=
  showNotification "Features deleted successfully" "success" (deselectFeature e).

(** The shape [L.geoJSON] builds for one feature: a circle marker for a
    point, a path otherwise, restyled by the [style] option. *)
Definition geojson_shape (layerName : string) (g : Geometry) : Shape :=
  mkShape (Some (mkStyle 2 "#000" (colors !! layerName))) None None g false.

(** The [onEachFeature] callback of [addGeoJSONToMap].  (The feature
    group [L.geoJSON] returns also holds the shape; it is a local that is
    never put on the map.) *)
Definition onEachFeature (layerName : string) (e : Editor) (feature : Feature)
    : Editor :=
  let '(f, e) := new_feature feature e in
  let '(layer, e) := new_shape (geojson_shape layerName (geometry feature)) e in
  let e :=
    with_shapes
      (alter (fun sh => mkShape (shape_style sh) (shape_popup sh)
                          (shape_click sh) (shape_latlngs sh) true)
             layer (shapes e)) e in
  let e := bindPopup layer (createPopupContent feature layerName) e in
  let e := onClick layer f layerName e in
  group_addLayer layerName layer e.

Definition addGeoJSONToMap (data : list Feature) (layerName : string)
    (e : Editor) : Editor :=
  fold_left (onEachFeature layerName) data e.

Record SampleHousehold := mkSample {
  lat : Q; lng : Q; id : Z; name : string; owner : string; residents : Z
}.

Definition sampleHouseholds : list SampleHousehold :=
  [ mkSample 12.2390 125.3180 101 "Cruz Family" "Juan Cruz" 4;
    mkSample 12.2395 125.3190 102 "Santos Family" "Maria Santos" 5;
    mkSample 12.2400 125.3195 103 "Reyes Family" "Pedro Reyes" 3 ].

Definition sampleFeature (household : SampleHousehold) : Feature :=
  mkFeature
    {[ "id" := VNum (id household);
       "Owner" := VStr (owner household);
       "Family nm" := VStr (name household);
       "Residents" := VNum (residents household) ]}
    (Point (lng household) (lat household)).

Definition addSample (layerName : string) (e : Editor)
    (household : SampleHousehold) : Editor :=
  let '(marker, e) :=
    new_shape (mkShape (Some (mkStyle 2 "#000" (colors !! layerName))) None None
                       (Point (lng household) (lat household)) false) e in
  let feature := sampleFeature household in
  let '(f, e) := new_feature feature e in
  let e := bindPopup marker (createPopupContent feature layerName) e in
  let e := onClick marker f layerName e in
  group_addLayer layerName marker e.

Definition createSampleData (layerName : string) (e : Editor) : Editor :=
  if String.eqb layerName "households"
  then fold_left (addSample layerName) sampleHouseholds e
  else e.

(** How a fetch settles.  [FetchOk] carries the features of a well-formed
    feature collection (point, line or polygon geometries). *)
Inductive FetchResult :=
| FetchOk (data : list Feature)
| FetchStatus (status : Z)        (* response.ok is false *)
| FetchParseError                 (* response.json() rejects *)
| FetchNetworkError.              (* fetch itself rejects *)

Definition fetch_failed (r : FetchResult) : bool :=
  match r with FetchOk _ => false | _ => true end.

(** The promise chain of [loadGeoJSONLayer], run when the fetch settles. *)
Definition loadGeoJSONLayer (layerName : string) (r : FetchResult)
    (e : Editor) : Editor :=
  match r with
  | FetchOk data => addGeoJSONToMap data layerName e
  | _ =>
      createSampleData layerName
        (showNotification ("Error loading " +:+ layerName +:+ " data") "error" e)
  end.

(** The controller once the constructor and [init] have run: an empty
    group per layer name, all of them on the map, the four fetches
    outstanding.  The static markup of the page is not part of the script;
    the attribute panel is taken to hold no form input before the first
    selection. *)
Definition init : Editor :=
  {| map_groups := {[ "households"; "facilities"; "roads"; "boundary"; "drawn" ]};
     map_shapes := ∅;
     mapLayers :=
       {[ "households" := ∅; "facilities" := ∅; "roads" := ∅;
          "boundary" := ∅; "drawn" := ∅ ]};
     currentTool := "select";
     currentLayer := "households";
     selectedFeature := None;
     isDrawing := false;
     features := ∅;
     shapes := ∅;
     edit_enabled := false;
     pending_loads := dom geojsonFiles;
     page := {| draw_toolbar_shown := false;
               attribute_editor := NoSelectionPanel;
               selected_count := "0";
               current_tool_text := "Select";
               current_layer_text := "Households";
               map_banner := EmptyString;
               notifications := [] |} |}.

(** ** The event loop

    What can happen to the controller after [init]: a fetch settles, the
    operator uses the page, or the drawing toolkit reports.  [fire] runs
    the registered handler; it is [None] when the event cannot occur in
    the given state. *)

Definition toolNames : list string :=
  ["select"; "edit"; "marker"; "polygon"; "rectangle"; "polyline"; "move";
   "delete"].

Definition checkboxLayers : list string :=
  ["households"; "facilities"; "roads"; "boundary"].

(** The selection outline: [{ weight: 4, color: '#ff0000' }]. *)
Definition is_highlight (st : Style) : bool :=
  (Z.eqb (weight st) 4 && String.eqb (color st) "#ff0000")%bool.

(** - [Loaded]: the fetch of a layer settles.
    - [ToolButton], [LayerCheckbox], [SaveButton], [DeleteButton]: the
      controls of the page; [confirmed] is the answer to the confirm
      dialog, should one be shown.
    - [ShapeClick]: a click on a shape that is on the map runs the click
      handler registered on it; [MapClick]: a click on the background.
    - [Typing]: the operator edits a form input.
    - [DrawCreated]: the toolkit hands over a shape it has just built,
      with the outline [style] of its own shape options ([None] for a
      marker, which has no outline).  The toolkit's options are not the
      selection outline.
    - [DrawEdited]: the toolkit has moved vertices of drawn shapes.
    - [DrawDeleted]: the toolkit has taken shapes out of the drawn-items
      group. *)
Inductive Event :=
| Loaded (layerName : string) (r : FetchResult)
| ToolButton (tool : string) (confirmed : bool)
| LayerCheckbox (layerName : string) (checked : bool)
| ShapeClick (layer : sref)
| MapClick
| Typing (input text : string)
| SaveButton
| DeleteButton (confirmed : bool)
| DrawCreated (layerType : string) (style : option Style) (latlngs : Geometry)
              (now : Z)
| DrawEdited (moved : list (sref * Geometry))
| DrawDeleted (removed : list sref).

(** The operator types [text] into the form input [input]. *)
Definition type_into (input text : string) (p : Panel) : Panel :=
  match p with
  | NoSelectionPanel => NoSelectionPanel
  | AttributeForm heading inputs is_new =>
      AttributeForm heading
        (map (fun i =>
                if (String.eqb (input_id i) input && negb (input_readonly i))%bool
                then mkInput (input_id i) (input_type i) text (input_readonly i)
                else i) inputs)
        is_new
  end.

Definition has_form (e : Editor) : bool :=
  match attribute_editor (page e) with
  | NoSelectionPanel => false
  | AttributeForm _ _ _ => true
  end.

(** The toolkit moves the vertices of shapes of the drawn-items group. *)
Definition toolkit_move (e : Editor) (m : sref * Geometry) : Editor :=
  if group_hasLayer "drawn" m.1 e then
    with_shapes
      (alter (fun sh => mkShape (shape_style sh) (shape_popup sh)
                          (shape_click sh) m.2 (shape_editable sh))
             m.1 (shapes e)) e
  else e.

(** The toolkit takes shapes out of the drawn-items group. *)
Definition toolkit_remove (e : Editor) (i : sref) : Editor :=
  group_removeLayer "drawn" i e.

Definition style_ok (style : option Style) : bool :=
  match style with
  | Some st => negb (is_highlight st)
  | None => true
  end.

Definition fire (ev : Event) (e : Editor) : option Editor :=
  match ev with
  | Loaded layerName r =>
      if bool_decide (layerName ∈ pending_loads e) then
        Some (loadGeoJSONLayer layerName r
                (with_pending_loads (pending_loads e ∖ {[ layerName ]}) e))
      else None
  | ToolButton tool confirmed =>
      if bool_decide (tool ∈ toolNames)
      then Some (setActiveTool tool confirmed e) else None
  | LayerCheckbox layerName checked =>
      if bool_decide (layerName ∈ checkboxLayers)
      then Some (toggleLayer layerName checked e) else None
  | ShapeClick layer =>
      if map_hasLayer layer e then
        match shapes e !! layer ≫= shape_click with
        | Some (feature, layerName) =>
            Some (selectFeature feature layer layerName false e)
        | None => None
        end
      else None
  | MapClick => Some (deselectFeature e)
  | Typing input text =>
      Some (on_page (fun d => with_attribute_editor
                                (type_into input text (attribute_editor d)) d) e)
  | SaveButton =>
      if has_form e then Some (saveAttributes e) else None
  | DeleteButton confirmed =>
      if has_form e then Some (deleteSelectedFeature confirmed e) else None
  | DrawCreated layerType style latlngs now =>
      if style_ok style then
        let '(layer, e) := new_shape (mkShape style None None latlngs false) e in
        Some (handleDrawCreated layer layerType now e)
      else None
  | DrawEdited moved =>
      Some (handleDrawEdited (fold_left toolkit_move moved e))
  | DrawDeleted removed =>
      Some (handleDrawDeleted (fold_left toolkit_remove removed e))
  end.

Fixpoint run (evs : list Event) (e : Editor) : option Editor :=
  match evs with
  | [] => Some e
  | ev :: evs' =>
      match fire ev e with
      | Some e' => run evs' e'
      | None => None
      end
  end.

Inductive reachable : Editor -> Prop :=
| reachable_init : reachable init
| reachable_fire e ev e' :
    reachable e -> fire ev e = Some e' -> reachable e'.

End Controller.

(** The state after a series of events on a page whose browser reads the
    markup plainly ([init] if one of them cannot fire). *)
Definition play (evs : list Event) : Editor :=
  default init (run (browser := plain_browser) evs init).

(** ** Observations used in the statements *)

(** The feature object behind a reference, and what the shape shows. *)
Definition feature_at (f : fref) (e : Editor) : option Feature := features e !! f.

Definition popup_of (i : sref) (e : Editor) : option string :=
  shapes e !! i ≫= shape_popup.

Definition style_of (i : sref) (e : Editor) : option Style :=
  shapes e !! i ≫= shape_style.

Definition highlighted (i : sref) (e : Editor) : Prop :=
  exists st, style_of i e = Some st /\ is_highlight st = true.

Definition at_most_one_highlight (e : Editor) : Prop :=
  forall i j, highlighted i e -> highlighted j e -> i = j.


Definition in_some_group (i : sref) (e : Editor) : Prop :=
  exists name, i ∈ group name e.

(** ** Invariants, auxiliary observations and scenarios *)

(** [if (group.hasLayer(shape)) group.removeLayer(shape)] *)
Definition drop_from (name : string) (i : sref) (e : Editor) : Editor :=
  if group_hasLayer name i e then group_removeLayer name i e else e.

(** The keys [saveAttributes] writes: one per form input. *)
Definition written_keys (e : Editor) : list string :=
  field_of <$> panel_inputs (attribute_editor (page e)).

(** The ids of the inputs [createAttributeForm] renders, and the keys
    they are turned into. *)
Definition formIds : list string :=
  ["attr-id"; "attr-owner"; "attr-family"; "attr-residents"; "attr-facility";
   "attr-name"].

Definition formKeys : list string :=
  ["id"; "owner"; "family"; "residents"; "facility"; "name"].

(** Every input of the panel has one of the ids the template gives its
    inputs. *)
Definition form_ok (p : Panel) : Prop :=
  forall i, i ∈ panel_inputs p -> input_id i ∈ formIds.

(** The part of a tool switch that comes before the [switch] statement:
    it touches the tool name, the drawing flag and the page only. *)
Definition tool_prelude (tool : string) (e : Editor) : Editor :=
  with_isDrawing false
    (hideDrawToolbar
       (on_page (fun d =>
          with_map_banner
            ("Using: <strong>" +:+ capitalize tool
             +:+ "</strong> Tool on <strong>" +:+ currentLayer e
             +:+ "</strong> Layer")
            (with_current_tool_text (capitalize tool) d))
          (with_currentTool tool e))).

Definition panel (e : Editor) : Panel := attribute_editor (page e).

(** The inputs on the page are inputs of the template: the markup that
    was assigned to the panel has not brought in an input of its own. *)
Definition form_rendered (e : Editor) : Prop := form_ok (panel e).

(** A household as served by [/api/households], with the two extra
    columns the viewer page reads. *)
Definition household_7 : Feature :=
  mkFeature
    {[ "id" := VNum 7;
       "Owner" := VStr "Ana Dela Cruz";
       "Family nm" := VStr "Dela Cruz";
       "Residents" := VNum 6;
       "senior/PWD" := VStr "YES";
       "Contact no" := VStr "09171234567" ]}
    (Point 125.3185 12.2392).

(** The household is loaded and clicked, and the owner field is retyped. *)
Definition editing_household_7 : Editor :=
  play [Loaded "households" (FetchOk [household_7]); ShapeClick 0;
        Typing "attr-owner" "X"].

(** The sample households stand in after a failed load; the first one is
    clicked and its owner field is retyped. *)
Definition editing_sample_101 : Editor :=
  play [Loaded "households" (FetchStatus 500); ShapeClick 0;
        Typing "attr-owner" "X"].

(** What [onEachFeature] and the loop body of [createSampleData] have in
    common: a new feature object, a new unselected shape whose click
    handler carries it, and the shape put in the group [layerName]. *)
Definition adds_pair (layerName : string) (feature : Feature)
    (e e' : Editor) : Prop :=
  let i := fresh (dom (shapes e)) in
  let f := fresh (dom (features e)) in
  exists sh,
    shapes e' = <[ i := sh ]> (shapes e)
    /\ shape_style sh = Some (mkStyle 2 "#000" (colors !! layerName))
    /\ shape_click sh = Some (f, layerName)
    /\ shape_popup sh = Some (createPopupContent feature layerName)
    /\ features e' = <[ f := feature ]> (features e)
    /\ mapLayers e' = <[ layerName := group layerName e ∪ {[ i ]} ]> (mapLayers e)
    /\ map_shapes e'
       = (if bool_decide (layerName ∈ map_groups e)
          then map_shapes e ∪ {[ i ]} else map_shapes e)
    /\ map_groups e' = map_groups e
    /\ selectedFeature e' = selectedFeature e
    /\ pending_loads e' = pending_loads e
    /\ page e' = page e.

(** The feature a shape's click handler selects. *)
Definition feature_of_shape (i : sref) (e : Editor) : option Feature :=
  (shapes e !! i ≫= shape_click) ≫= (fun p => features e !! p.1).

Definition outline (w : Z) (c : string) (st : Style) : Style :=
  mkStyle w c (fillColor st).

Definition hl_is_sel (e : Editor) : Prop :=
  forall i, highlighted i e ->
    exists sel, selectedFeature e = Some sel /\ sel_layer sel = i.

Definition sel_in_group (e : Editor) : Prop :=
  forall sel, selectedFeature e = Some sel -> in_some_group (sel_layer sel) e.

Definition map_in_group (e : Editor) : Prop :=
  forall i, i ∈ map_shapes e -> in_some_group i e.

Definition drawn_on_map (e : Editor) : Prop := "drawn" ∈ map_groups e.

Definition groups_alloc (e : Editor) : Prop :=
  forall n i, i ∈ group n e -> i ∈ dom (shapes e).

Definition map_wf (e : Editor) : Prop :=
  map_in_group e /\ drawn_on_map e /\ groups_alloc e.

Definition wf (e : Editor) : Prop := map_wf e /\ sel_in_group e.

Definition pending_empty (e : Editor) : Prop :=
  forall n, n ∈ pending_loads e -> n <> "drawn" /\ group n e = ∅.

Definition click_of (i : sref) (e : Editor) : option (fref * string) :=
  shapes e !! i ≫= shape_click.

(** After the failed households load, a marker is placed while the
    current tool is [marker]. *)
Definition before_marker : Editor :=
  play [Loaded "households" (FetchStatus 500); ToolButton "marker" false].

(** The [id] of the feature a shape's click handler carries. *)
Definition feature_id (e : Editor) (i : sref) : option value :=
  feature_of_shape i e ≫= fun ft => properties ft !! "id".

Definition households_failed : Editor :=
  play [Loaded "households" (FetchStatus 500)].

Definition roads_failed : Editor :=
  play [Loaded "households" (FetchStatus 500); Loaded "roads" FetchParseError].

(** A sample household is selected, then a marker is drawn, then the
    household is clicked again and deleted. *)
Definition selection_tour : list Event :=
  [Loaded "households" (FetchStatus 500); ShapeClick 1;
   DrawCreated "marker" None (Point 125.3185 12.2392) 1700000000000;
   ShapeClick 1; DeleteButton true].

Definition after_tour (k : nat) : Editor :=
  play (take k selection_tour).

(** A marker drawn after the sample households were put on the map. *)
Definition marker_drawn : Editor :=
  play [Loaded "households" (FetchStatus 500);
        DrawCreated "marker" None (Point 125.3185 12.2392) 1700000000000].

(** A line is drawn and selected; later the toolkit moves its vertices. *)
Definition line_drawn : Editor :=
  play [DrawCreated "polyline"
          (Some (mkStyle 4 "#3388ff" None))
          (LineString [(125.318%Q, 12.239%Q); (125.319%Q, 12.240%Q)])
          1700000000000].

Definition line_moved : Editor :=
  play [DrawCreated "polyline"
          (Some (mkStyle 4 "#3388ff" None))
          (LineString [(125.318%Q, 12.239%Q); (125.319%Q, 12.240%Q)])
          1700000000000;
        DrawEdited
          [(0%nat,
            LineString [(125.318%Q, 12.239%Q); (125.320%Q, 12.241%Q)])]].

(** ** Further observations of the controller *)

(** The tool name, the current layer and the two mode flags. *)
Definition modes (e : Editor) : string * string * bool * bool :=
  (currentTool e, currentLayer e, isDrawing e, edit_enabled e).

(** The current tool, the drawing flag and whether the drawing toolbar is
    shown. *)
Definition drawing_state (e : Editor) : string * bool * bool :=
  (currentTool e, isDrawing e, draw_toolbar_shown (page e)).

(** What a shape put in the group [layerName] for [feature] looks like
    right after the load. *)
Definition loaded_as (layerName : string) (feature : Feature) (i : sref)
    (e : Editor) : Prop :=
  feature_of_shape i e = Some feature
  /\ style_of i e = Some (mkStyle 2 "#000" (colors !! layerName))
  /\ popup_of i e = Some (createPopupContent feature layerName)
  /\ snd <$> click_of i e = Some layerName.

(** The names under which [initializeLayers] registers a group. *)
Definition layerNames : list string :=
  ["households"; "facilities"; "roads"; "boundary"; "drawn"].

(** Every shape is in at most one group. *)
Definition groups_disjoint (e : Editor) : Prop :=
  forall n m i, i ∈ group n e -> i ∈ group m e -> n = m.

(** A shape is on the map exactly when a group that holds it is. *)
Definition visible_iff (e : Editor) : Prop :=
  forall i, i ∈ map_shapes e <-> exists n, n ∈ map_groups e /\ i ∈ group n e.

(** The click handler of a shape in a group names that group and carries
    a feature object. *)
Definition handlers_ok (e : Editor) : Prop :=
  forall n i, i ∈ group n e ->
    exists f, click_of i e = Some (f, n) /\ f ∈ dom (features e).

(** The selection is what the click handler of its shape would select. *)
Definition selection_ok (e : Editor) : Prop :=
  forall sel, selectedFeature e = Some sel ->
    sel_layer sel ∈ group (sel_layerName sel) e
    /\ click_of (sel_layer sel) e = Some (sel_feature sel, sel_layerName sel).

Definition structure_ok (e : Editor) : Prop :=
  groups_disjoint e /\ visible_iff e /\ handlers_ok e.

Definition consistent (e : Editor) : Prop :=
  groups_alloc e /\ structure_ok e /\ selection_ok e.

(** * The viewer pages ([static/js/main.js])

    The script of the read-only map page and of the household table page.
    It keeps its state in module-level variables ([map], [mapLayers]) and
    in the DOM.  The layers built by [L.geoJSON] are objects referred to by
    reference; the table is the list of its body rows. *)

Module Viewer.

(** ** Colour scheme ([COLORS]) *)

Definition households_normal : string := "#3388ff".
Definition households_vulnerable : string := "#ff4444".
Definition facilities_barangay : string := "#e74c3c".
Definition facilities_health : string := "#27ae60".
Definition facilities_education : string := "#f39c12".
Definition facilities_evacuation : string := "#9b59b6".
Definition facilities_community : string := "#3498db".
Definition facilities_religious : string := "#8e44ad".
Definition facilities_security : string := "#c0392b".

(** ** Style callbacks of [loadGeoJSONLayers] *)

(** The options object a callback returns; [radius] is given for circle
    markers only. *)
Record PathOptions := mkPathOptions {
  radius : option Z;
  fillColor : string;
  color : string;
  weight : Z;
  opacity : Q;
  fillOpacity : Q
}.

(** [props['senior/PWD'] === 'YES'] *)
Definition isVulnerable (props : Props) : bool :=
  match props !! "senior/PWD" with
  | Some (VStr s) => String.eqb s "YES"
  | _ => false
  end.

(** [pointToLayer] of the households layer: the options of the circle
    marker. *)
Definition households_pointToLayer (props : Props) : PathOptions :=
  mkPathOptions (Some 8)
    (if isVulnerable props then households_vulnerable else households_normal)
    "#000" 2 0.8%Q 0.7%Q.

(** [style] of the households layer, for features that are not points. *)
Definition households_style (props : Props) : PathOptions :=
  mkPathOptions None
    (if isVulnerable props then households_vulnerable else households_normal)
    "#000" 1 0.8%Q 0.7%Q.

(** The colour chosen by the [if]/[else if] chain of the facilities
    [style] callback. *)
Definition facilities_color (facilityName : string) : string :=
  if includes "School" facilityName then facilities_education
  else if includes "Chapel" facilityName then facilities_religious
  else if includes "Barangay" facilityName then facilities_barangay
  else if includes "Plaza" facilityName then facilities_community
  else if includes "Post" facilityName then facilities_security
  else facilities_community.

(** [style] of the facilities layer.  [props.Facility || ''] is the name
    when it is truthy; a truthy name that is not a string has no
    [includes] method, and the call raises a TypeError ([None]). *)
Definition facilities_style (props : Props) : option PathOptions :=
  match Js.or (props !! "Facility") (str EmptyString) with
  | Some (VStr facilityName) =>
      Some (mkPathOptions None (facilities_color facilityName) "#000" 2 1%Q
              0.8%Q)
  | _ => None
  end.

(** ** Statistics *)

(** The argument is [mapLayers.households]: [None] for [null], otherwise
    the features of the sub-layers of the group, in [eachLayer] order. *)
Definition getHouseholdCount (households : option (list Feature)) : nat :=
  match households with
  | Some layers => length layers
  | None => 0%nat
  end.

Definition getVulnerableHouseholdCount (households : option (list Feature))
    : nat :=
  match households with
  | Some layers =>
      fold_left (fun count layer =>
                   if isVulnerable (properties layer) then S count else count)
                layers 0%nat
  | None => 0%nat
  end.

(** ** The map page: overlay layers *)

Abbreviation lref := nat.

(** - [layers]: the [L.geoJSON] groups built so far, each with the
      features of its sub-layers;
    - [mapLayers]: the variable of that name, restricted to the four
      overlay keys; a missing key stands for [null];
    - [on_map]: the overlay groups currently added to the map;
    - [in_flight]: the layer names of the fetches that have not settled. *)
Record Page := mkPage {
  layers : gmap lref (list Feature);
  mapLayers : gmap string lref;
  on_map : gset lref;
  in_flight : list string
}.

(** The keys of [overlayLayers] in [setupLayerControls]. *)
Definition overlayLayers : list string :=
  ["households"; "facilities"; "roads"; "boundary"].

(** The state [initializeMap] leaves: the four fetches of
    [loadGeoJSONLayers] are under way. *)
Definition page_init : Page :=
  mkPage ∅ ∅ ∅ ["households"; "facilities"; "roads"; "boundary"].

(** What a fetch settles to: the [then] callback builds the group from
    the features of the response, or the request, the parse or the
    callback fails and the [catch] callback logs the error. *)
Inductive Outcome :=
| Built (features : list Feature)
| Failed.

(** [mapLayers[name] = L.geoJSON(data, ...).addTo(map)] *)
Definition built (name : string) (features : list Feature) (p : Page) : Page :=
  let l := fresh (dom (layers p)) in
  mkPage (<[ l := features ]> (layers p)) (<[ name := l ]> (mapLayers p))
         (on_map p ∪ {[ l ]}) (in_flight p).

(** The change handler of an overlay checkbox. *)
Definition overlay_changed (layerName : string) (checked : bool) (p : Page)
    : Page :=
  match mapLayers p !! layerName with
  | Some layer =>
      if checked
      then mkPage (layers p) (mapLayers p) (on_map p ∪ {[ layer ]}) (in_flight p)
      else mkPage (layers p) (mapLayers p) (on_map p ∖ {[ layer ]}) (in_flight p)
  | None => p
  end.

(** [refreshMapLayers()], up to the point where the fetch is issued. *)
Definition refreshMapLayers (p : Page) : Page :=
  let p :=
    match mapLayers p !! "households" with
    | Some layer =>
        mkPage (layers p) (delete "households" (mapLayers p))
               (on_map p ∖ {[ layer ]}) (in_flight p)
    | None => p
    end in
  mkPage (layers p) (mapLayers p) (on_map p) (in_flight p ++ ["households"])%list.

(** The first pending fetch of [name] settles: what stays pending. *)
Fixpoint settle (name : string) (pending : list string)
    : option (list string) :=
  match pending with
  | [] => None
  | x :: rest =>
      if String.eqb x name then Some rest
      else (fun rest' => x :: rest') <$> settle name rest
  end.

Inductive PageEvent :=
| Arrived (name : string) (o : Outcome)
| OverlayCheckbox (layerName : string) (checked : bool)
| Refresh.

Definition page_fire (ev : PageEvent) (p : Page) : option Page :=
  match ev with
  | Arrived name o =>
      match settle name (in_flight p) with
      | Some rest =>
          let p := mkPage (layers p) (mapLayers p) (on_map p) rest in
          Some match o with
               | Built features => built name features p
               | Failed => p
               end
      | None => None
      end
  | OverlayCheckbox layerName checked =>
      if bool_decide (layerName ∈ overlayLayers)
      then Some (overlay_changed layerName checked p) else None
  | Refresh => Some (refreshMapLayers p)
  end.

Fixpoint page_run (evs : list PageEvent) (p : Page) : option Page :=
  match evs with
  | [] => Some p
  | ev :: evs' =>
      match page_fire ev p with
      | Some p' => page_run evs' p'
      | None => None
      end
  end.

Inductive page_reachable : Page -> Prop :=
| page_reachable_init : page_reachable page_init
| page_reachable_fire p ev p' :
    page_reachable p -> page_fire ev p = Some p' -> page_reachable p'.

(** The group [mapLayers.households], as the statistics read it. *)
Definition households_layer (p : Page) : option (list Feature) :=
  mapLayers p !! "households" ≫= (fun l => layers p !! l).

(** An overlay group on the map that [mapLayers] does not refer to. *)
Definition orphan (l : lref) (p : Page) : Prop :=
  l ∈ on_map p /\ forall name, mapLayers p !! name <> Some l.

(** ** The household table page *)

(** A body row of [#households-table]: its text content, the text
    content of its cells, and [style.display]. *)
Record Row := mkRow {
  textContent : string;
  cells : list string;
  display : string
}.

(** The page: the values of [#search-input] and [#vulnerability-filter],
    the rows, and the text of [#search-results] if that element exists. *)
Record TablePage := mkTablePage {
  search_input : string;
  vulnerability_filter : string;
  rows : list Row;
  search_results : option string
}.

Definition set_display (d : string) (row : Row) : Row :=
  mkRow (textContent row) (cells row) d.

(** One iteration of the [forEach] of [searchHouseholds]: the rows
    handled so far and [visibleCount]. *)
Definition search_row (toLowerCase : string -> string) (searchTerm : string)
    (acc : list Row * nat) (row : Row) : list Row * nat :=
  let text := toLowerCase (textContent row) in
  if includes searchTerm text
  then ((acc.1 ++ [set_display EmptyString row])%list, S acc.2)
  else ((acc.1 ++ [set_display "none" row])%list, acc.2).

(** [searchHouseholds()]; [toLowerCase] is the string method of that
    name. *)
Definition searchHouseholds (toLowerCase : string -> string) (p : TablePage)
    : TablePage :=
  let searchTerm := toLowerCase (search_input p) in
  let '(rows', visibleCount) :=
    fold_left (search_row toLowerCase searchTerm) (rows p) ([], 0%nat) in
  mkTablePage (search_input p) (vulnerability_filter p) rows'
    ((fun _ => "Showing " +:+ pretty visibleCount +:+ " of "
               +:+ pretty (length (rows p)) +:+ " households")
       <$> search_results p).

(** The [input] listener of the search box, and the Escape shortcut. *)
Definition search_typed (toLowerCase : string -> string) (text : string)
    (p : TablePage) : TablePage :=
  searchHouseholds toLowerCase
    (mkTablePage text (vulnerability_filter p) (rows p) (search_results p)).

Definition escape_pressed (toLowerCase : string -> string) (p : TablePage)
    : TablePage :=
  searchHouseholds toLowerCase
    (mkTablePage EmptyString (vulnerability_filter p) (rows p)
       (search_results p)).

(** The body of the [forEach] of [filterHouseholdTable]: the display a
    row gets, from the text of its fifth cell. *)
Definition showRow (vulnerabilityValue : string) (cell : string) : bool :=
  let hasSeniorsPwd := includes "Yes" cell in
  if (String.eqb vulnerabilityValue "vulnerable" && negb hasSeniorsPwd)%bool
  then false
  else if (String.eqb vulnerabilityValue "non-vulnerable" && hasSeniorsPwd)%bool
  then false
  else true.

(** The [forEach] of [filterHouseholdTable].  A row with fewer than five
    cells has no [cells[4]]: reading its text raises a TypeError, which
    ends the loop with that row and the rows after it untouched (the
    flag is [false]). *)
Fixpoint filter_rows (vulnerabilityValue : string) (rs : list Row)
    : list Row * bool :=
  match rs with
  | [] => ([], true)
  | row :: rest =>
      match cells row !! 4%nat with
      | Some cell =>
          let '(rest', ok) := filter_rows vulnerabilityValue rest in
          (set_display (if showRow vulnerabilityValue cell
                        then EmptyString else "none") row :: rest', ok)
      | None => (row :: rest, false)
      end
  end.

(** [filterHouseholdTable()]: the page afterwards, and whether the call
    returned normally. *)
Definition filterHouseholdTable (p : TablePage) : TablePage * bool :=
  let '(rows', ok) := filter_rows (vulnerability_filter p) (rows p) in
  (mkTablePage (search_input p) (vulnerability_filter p) rows'
     (search_results p), ok).

(** The [change] listener of the filter. *)
Definition filter_changed (value : string) (p : TablePage) : TablePage * bool :=
  filterHouseholdTable
    (mkTablePage (search_input p) value (rows p) (search_results p)).

(** The rows that are displayed. *)
Definition displayed (rs : list Row) : list Row :=
  List.filter (fun r => negb (String.eqb (display r) "none")) rs.

(** [toLowerCase] on ASCII text. *)
Definition toLowerCase_ascii (c : ascii) : ascii :=
  let n := nat_of_ascii c in
  if (Nat.leb 65 n && Nat.leb n 90)%bool then ascii_of_nat (n + 32) else c.

Fixpoint toLowerCase (s : string) : string :=
  match s with
  | EmptyString => EmptyString
  | String c r => String (toLowerCase_ascii c) (toLowerCase r)
  end.

(** A table of three households. *)
Definition sample_rows : list Row :=
  [ mkRow "1 Juan Dela Cruz Dela Cruz 5 Yes"
          ["1"; "Juan Dela Cruz"; "Dela Cruz"; "5"; "Yes"] EmptyString;
    mkRow "2 Maria Santos Santos 3 No"
          ["2"; "Maria Santos"; "Santos"; "3"; "No"] EmptyString;
    mkRow "3 Pedro Reyes Reyes 4 No"
          ["3"; "Pedro Reyes"; "Reyes"; "4"; "No"] EmptyString ].

Definition sample_table : TablePage :=
  mkTablePage EmptyString "all" sample_rows (Some EmptyString).

(** A refresh requested before the first households response: both
    responses arrive afterwards. *)
Definition refreshed_early : Page :=
  default page_init
    (page_run [Refresh;
          Arrived "households"
            (Built [mkFeature {[ "id" := VNum 1 ]} (Point 125.3185 12.2392)]);
          Arrived "households"
            (Built [mkFeature {[ "id" := VNum 1;
                                 "senior/PWD" := VStr "YES" ]}
                      (Point 125.3185 12.2392)])]
         page_init).

End Viewer.

(** * Properties *)

Arguments createPopupContent : simpl never.
Arguments createAttributeForm : simpl never.
Arguments attributeForm : simpl never.
Arguments getDefaultProperties : simpl never.
Arguments capitalize : simpl never.
Arguments normal_color : simpl never.
Arguments String.append : simpl never.

(** Projection of a field out of a chain of field updates. *)
Ltac proj :=
  cbn [map_groups map_shapes mapLayers currentTool currentLayer
       selectedFeature isDrawing features shapes edit_enabled pending_loads
       page with_map_groups with_map_shapes with_mapLayers with_currentTool
       with_currentLayer with_selectedFeature with_isDrawing with_features
       with_shapes with_edit_enabled with_pending_loads with_page on_page
       draw_toolbar_shown attribute_editor selected_count current_tool_text
       current_layer_text map_banner notifications with_draw_toolbar_shown
       with_attribute_editor with_selected_count with_current_tool_text
       with_current_layer_text with_map_banner with_notifications
       sel_feature sel_layer sel_layerName fst snd] in *.

(** ** Popup text *)

Section PopupText.

Context `{browser : Browser}.

Example popup_sample :
  includes "Juan Cruz"
    (createPopupContent
       (mkFeature {[ "Owner" := VStr "Juan Cruz" ]} (Point 0 0)) "households")
  = true.
Proof. vm_compute. reflexivity. Qed.

End PopupText.

(** ** Default properties *)

Section DefaultProperties.

Context `{browser : Browser}.






End DefaultProperties.

(** ** What each method leaves alone *)

Section Frames.

Context `{browser : Browser}.

Lemma restorePrevious_only_shapes e :
  restorePrevious e = with_shapes (shapes (restorePrevious e)) e.
Proof.
  unfold restorePrevious, setStyle.
  repeat case_match; destruct e; reflexivity.
Qed.

Lemma highlight_only_shapes i e :
  highlight i e = with_shapes (shapes (highlight i e)) e.
Proof.
  unfold highlight, setStyle. case_match; destruct e; reflexivity.
Qed.

Lemma selectFeature_eq f i ln n e :
  selectFeature f i ln n e
  = on_page (fun d => with_selected_count "1"
                        (with_attribute_editor
                           (innerHTML
                              (createAttributeForm (props_of f e) ln n)) d))
      (with_shapes (shapes (selectFeature f i ln n e))
         (with_selectedFeature (Some (mkSelection f i ln)) e)).
Proof.
  unfold selectFeature, showSelection, showAttributeEditor, storeSelection.
  rewrite (highlight_only_shapes i), (restorePrevious_only_shapes e).
  proj. unfold props_of. proj. destruct e; reflexivity.
Qed.

Lemma deselectFeature_eq e :
  deselectFeature e
  = on_page (fun d => with_selected_count "0"
                        (with_attribute_editor NoSelectionPanel d))
      (with_shapes (shapes (restorePrevious e))
         (with_selectedFeature None e)).
Proof.
  unfold deselectFeature.
  rewrite innerHTML_no_selection, (restorePrevious_only_shapes e).
  proj. destruct e; reflexivity.
Qed.

Lemma enableTool_select c e :
  enableTool "select" c e = with_isDrawing false (hideDrawToolbar e).
Proof. reflexivity. Qed.

Lemma group_addLayer_eq name i e :
  group_addLayer name i e
  = with_map_shapes
      (if bool_decide (name ∈ map_groups e)
       then map_shapes e ∪ {[ i ]} else map_shapes e)
      (with_mapLayers (<[ name := group name e ∪ {[ i ]} ]> (mapLayers e)) e).
Proof.
  unfold group_addLayer. case_bool_decide; destruct e; reflexivity.
Qed.

Lemma group_removeLayer_eq name i e :
  group_removeLayer name i e
  = with_map_shapes
      (if (bool_decide (name ∈ map_groups e) && group_hasLayer name i e)%bool
       then map_shapes e ∖ {[ i ]} else map_shapes e)
      (with_mapLayers (<[ name := group name e ∖ {[ i ]} ]> (mapLayers e)) e).
Proof.
  unfold group_removeLayer.
  destruct (bool_decide (name ∈ map_groups e) && group_hasLayer name i e)%bool;
    destruct e; reflexivity.
Qed.

Lemma map_addGroup_eq name e :
  map_addGroup name e
  = with_map_shapes
      (if bool_decide (name ∈ map_groups e)
       then map_shapes e else map_shapes e ∪ group name e)
      (with_map_groups (map_groups e ∪ {[ name ]}) e).
Proof.
  unfold map_addGroup. case_bool_decide as H; [|destruct e; reflexivity].
  assert (map_groups e ∪ {[ name ]} = map_groups e) as -> by set_solver.
  destruct e; reflexivity.
Qed.

Lemma map_removeGroup_eq name e :
  map_removeGroup name e
  = with_map_shapes
      (if bool_decide (name ∈ map_groups e)
       then map_shapes e ∖ group name e else map_shapes e)
      (with_map_groups (map_groups e ∖ {[ name ]}) e).
Proof.
  unfold map_removeGroup. case_bool_decide as H; [destruct e; reflexivity|].
  assert (map_groups e ∖ {[ name ]} = map_groups e) as -> by set_solver.
  destruct e; reflexivity.
Qed.

Lemma group_insert name n v e :
  group n (with_mapLayers (<[ name := v ]> (mapLayers e)) e)
  = if decide (name = n) then v else group n e.
Proof.
  unfold group. proj. rewrite lookup_insert. case_decide; reflexivity.
Qed.

End Frames.

(** ** Drawing a shape *)

Section DrawingAShape.

Context `{browser : Browser}.

Lemma handleDrawCreated_eq layer layerType now e :
  let f := fresh (dom (features e)) in
  let newFeature :=
    mkFeature (own_properties (getDefaultProperties now (currentLayer e)))
              (toGeoJSON_geometry layer e) in
  let e' := handleDrawCreated layer layerType now e in
  features e' = <[ f := newFeature ]> (features e)
  /\ mapLayers e' = <[ "drawn" := group "drawn" e ∪ {[ layer ]} ]> (mapLayers e)
  /\ map_shapes e'
     = (if bool_decide ("drawn" ∈ map_groups e)
        then map_shapes e ∪ {[ layer ]} else map_shapes e)
  /\ map_groups e' = map_groups e
  /\ selectedFeature e' = Some (mkSelection f layer "drawn")
  /\ currentTool e' = "select"
  /\ currentLayer e' = currentLayer e
  /\ pending_loads e' = pending_loads e
  /\ attribute_editor (page e')
     = innerHTML (createAttributeForm (properties newFeature) "drawn" true).
Proof.
  unfold handleDrawCreated, new_feature, setActiveTool, showNotification.
  rewrite enableTool_select, selectFeature_eq. unfold hideDrawToolbar.
  unfold bindPopup, onClick. rewrite group_addLayer_eq. proj.
  unfold props_of. proj. rewrite lookup_insert_eq.
  repeat split; reflexivity.
Qed.




End DrawingAShape.

Section DrawingAShapeScenarios.

Local Existing Instance plain_browser.



End DrawingAShapeScenarios.

(** ** Layer visibility *)

Section LayerVisibility.

Context `{browser : Browser}.

Lemma toggleLayer_eq name visible e :
  toggleLayer name visible e
  = on_page (fun d => if (visible && negb (toggleLayer_raises name visible e))%bool
                      then with_current_layer_text (capitalize name) d else d)
      (with_currentLayer
         (if (visible && negb (toggleLayer_raises name visible e))%bool
          then name else currentLayer e)
         (with_map_shapes (map_shapes (toggleLayer name visible e))
            (with_map_groups (map_groups (toggleLayer name visible e)) e))).
Proof.
  unfold toggleLayer.
  destruct (toggleLayer_raises name visible e);
    [rewrite andb_false_r; destruct e as [? ? ? ? ? ? ? ? ? ? ? []]; reflexivity|].
  rewrite andb_true_r.
  case_bool_decide; destruct visible;
    rewrite ?map_addGroup_eq, ?map_removeGroup_eq; proj;
    destruct e as [? ? ? ? ? ? ? ? ? ? ? []]; reflexivity.
Qed.

Lemma toggleLayer_mapLayers name visible e :
  mapLayers (toggleLayer name visible e) = mapLayers e.
Proof. rewrite toggleLayer_eq. reflexivity. Qed.

Lemma toggleLayer_shapes name visible e :
  shapes (toggleLayer name visible e) = shapes e.
Proof. rewrite toggleLayer_eq. reflexivity. Qed.

Lemma toggleLayer_features name visible e :
  features (toggleLayer name visible e) = features e.
Proof. rewrite toggleLayer_eq. reflexivity. Qed.






End LayerVisibility.

Section LayerVisibilityScenarios.

Local Existing Instance plain_browser.


(** A group switched off is taken off the map; its shapes stay in it. *)
Example toggleLayer_off_keeps_group :
  let e := default init (run [Loaded "households" (FetchStatus 500)] init) in
  let e' := toggleLayer "households" false e in
  elements (group "households" e') = elements (group "households" e)
  /\ size (group "households" e') = 3%nat
  /\ map_shapes e' = ∅
  /\ map_shapes (toggleLayer "households" true e') = map_shapes e.
Proof. vm_compute. repeat split; reflexivity. Qed.

End LayerVisibilityScenarios.

(** ** Edited shapes *)

Section EditedShapes.

Context `{browser : Browser}.

(** C8.  [handleDrawEdited] only shows a notification: the feature
    objects, the shapes, the groups, the map and the selection are what
    they were.  When the toolkit reports edited shapes, the vertices it
    moved are in the shapes only; no feature's [geometry] (nor any other
    part of a feature) is brought in line with them. *)
Theorem handleDrawEdited_only_notifies (e : Editor) :
  let e' := handleDrawEdited e in
  features e' = features e
  /\ shapes e' = shapes e
  /\ mapLayers e' = mapLayers e
  /\ map_shapes e' = map_shapes e
  /\ map_groups e' = map_groups e
  /\ selectedFeature e' = selectedFeature e
  /\ e' = on_page
            (with_notifications
               (notifications (page e)
                ++ [("Features updated successfully", "success")])) e
  /\ (forall moved e1,
        fire (DrawEdited moved) e = Some e1 ->
        features e1 = features e
        /\ mapLayers e1 = mapLayers e
        /\ selectedFeature e1 = selectedFeature e).
Proof.
  repeat split; try reflexivity;
    injection H as <-; unfold handleDrawEdited, showNotification; proj;
    clear; revert e; induction moved as [|m moved IH]; intros e;
    try reflexivity; simpl; rewrite IH; unfold toolkit_move;
    case_match; reflexivity.
Qed.

End EditedShapes.

Section EditedShapesScenarios.

Local Existing Instance plain_browser.

Lemma line_moved_fire :
  fire (DrawEdited [(0%nat, LineString [(125.318%Q, 12.239%Q); (125.320%Q, 12.241%Q)])])
       line_drawn
  = Some line_moved.
Proof. vm_compute. reflexivity. Qed.

Lemma handleDrawEdited_only_notifies_witness :
  features line_moved = features line_drawn
  /\ selectedFeature line_moved = selectedFeature line_drawn
  /\ toGeoJSON_geometry 0 line_moved
     = LineString [(125.318%Q, 12.239%Q); (125.320%Q, 12.241%Q)]
  /\ geometry <$> feature_at 0 line_moved
     = Some (LineString [(125.318%Q, 12.239%Q); (125.319%Q, 12.240%Q)]).
Proof.
  destruct (handleDrawEdited_only_notifies line_drawn)
    as (_ & _ & _ & _ & _ & _ & _ & Hev).
  destruct (Hev _ _ line_moved_fire) as (Hf & _ & Hs).
  split; [exact Hf|]. split; [exact Hs|].
  split; vm_compute; reflexivity.
Defined.

End EditedShapesScenarios.

(** ** Deleting the selection *)

Section DeletingTheSelection.

Context `{browser : Browser}.

Lemma hasLayer_guard name i e :
  (bool_decide (is_Some (mapLayers e !! name)) && group_hasLayer name i e)%bool
  = group_hasLayer name i e.
Proof.
  unfold group_hasLayer, group.
  destruct (mapLayers e !! name) as [g|] eqn:Hg; simpl.
  - reflexivity.
  - symmetry. apply bool_decide_eq_false_2, not_elem_of_empty.
Qed.

Lemma difference_twice (X : gset sref) (i : sref) :
  X ∖ {[ i ]} ∖ {[ i ]} = X ∖ {[ i ]}.
Proof. set_solver. Qed.

Lemma drop_from_only name i e :
  drop_from name i e
  = with_map_shapes (map_shapes (drop_from name i e))
      (with_mapLayers (mapLayers (drop_from name i e)) e).
Proof.
  unfold drop_from. case_match; [rewrite group_removeLayer_eq|];
    destruct e; reflexivity.
Qed.

Lemma drop_from_group name i e n :
  group n (drop_from name i e)
  = if decide (name = n) then group n e ∖ {[ i ]} else group n e.
Proof.
  unfold drop_from. destruct (group_hasLayer name i e) eqn:Hh.
  - rewrite group_removeLayer_eq. unfold group at 1. proj.
    rewrite lookup_insert. case_decide; subst; reflexivity.
  - case_decide as Hn; [subst n|reflexivity].
    unfold group_hasLayer in Hh. apply bool_decide_eq_false in Hh. set_solver.
Qed.

Lemma drop_from_map_shapes name i e :
  i ∉ map_shapes e -> map_shapes (drop_from name i e) = map_shapes e.
Proof.
  intros Hi. unfold drop_from. case_match; [|reflexivity].
  rewrite group_removeLayer_eq. proj. case_match; [set_solver|reflexivity].
Qed.

Lemma map_removeLayer_if i e :
  (if map_hasLayer i e then map_removeLayer i e else e)
  = with_map_shapes (map_shapes e ∖ {[ i ]}) e.
Proof.
  unfold map_hasLayer, map_removeLayer. case_bool_decide as Hi; [reflexivity|].
  assert (map_shapes e ∖ {[ i ]} = map_shapes e) as -> by set_solver.
  destruct e; reflexivity.
Qed.

Lemma deleteSelectedFeature_none c e :
  selectedFeature e = None -> deleteSelectedFeature c e = e.
Proof. unfold deleteSelectedFeature. by intros ->. Qed.

Lemma deleteSelectedFeature_unconfirmed e : deleteSelectedFeature false e = e.
Proof. unfold deleteSelectedFeature. by case_match. Qed.

Lemma deleteSelectedFeature_confirmed e sel :
  selectedFeature e = Some sel ->
  let e' := deleteSelectedFeature true e in
  map_shapes e' = map_shapes e ∖ {[ sel_layer sel ]}
  /\ (forall n, group n e'
                = if decide (n = sel_layerName sel \/ n = "drawn")
                  then group n e ∖ {[ sel_layer sel ]} else group n e)
  /\ map_groups e' = map_groups e
  /\ selectedFeature e' = None
  /\ features e' = features e
  /\ shapes e' = shapes (restorePrevious e)
  /\ pending_loads e' = pending_loads e
  /\ attribute_editor (page e') = NoSelectionPanel.
Proof.
  intros Hsel. unfold deleteSelectedFeature. rewrite Hsel.
  cbn [negb]. cbv zeta.
  rewrite map_removeLayer_if, hasLayer_guard.
  fold (drop_from (sel_layerName sel) (sel_layer sel)
          (with_map_shapes (map_shapes e ∖ {[ sel_layer sel ]}) e)).
  set (e1 := with_map_shapes (map_shapes e ∖ {[ sel_layer sel ]}) e).
  set (e2 := drop_from (sel_layerName sel) (sel_layer sel) e1).
  fold (drop_from "drawn" (sel_layer sel) e2).
  set (e3 := drop_from "drawn" (sel_layer sel) e2).
  assert (map_shapes e2 = map_shapes e ∖ {[ sel_layer sel ]}) as Hm2.
  { unfold e2. rewrite drop_from_map_shapes; [reflexivity|].
    unfold e1. proj. set_solver. }
  assert (map_shapes e3 = map_shapes e ∖ {[ sel_layer sel ]}) as Hm3.
  { unfold e3. rewrite drop_from_map_shapes; [exact Hm2|].
    rewrite Hm2. set_solver. }
  assert (forall n, group n e3
                    = if decide (n = sel_layerName sel \/ n = "drawn")
                      then group n e ∖ {[ sel_layer sel ]} else group n e) as Hg.
  { intros n. unfold e3, e2. rewrite !drop_from_group.
    change (group n e1) with (group n e).
    destruct (decide ("drawn" = n)) as [Hd|Hd];
      destruct (decide (sel_layerName sel = n)) as [Hl|Hl].
    - rewrite decide_True by (right; done). subst n. apply difference_twice.
    - rewrite decide_True by (right; done). reflexivity.
    - rewrite decide_True by (left; done). reflexivity.
    - rewrite decide_False by (intros [?|?]; done). reflexivity. }
  assert (e3 = with_map_shapes (map_shapes e3)
                 (with_mapLayers (mapLayers e3) e)) as He3.
  { pose proof (drop_from_only "drawn" (sel_layer sel) e2) as H3.
    pose proof (drop_from_only (sel_layerName sel) (sel_layer sel) e1) as H2.
    fold e3 in H3. fold e2 in H2. rewrite H2 in H3. rewrite H3 at 1.
    reflexivity. }
  unfold showNotification. rewrite deselectFeature_eq. proj.
  split; [exact Hm3|]. split; [exact Hg|].
  rewrite He3. proj. rewrite (restorePrevious_only_shapes e).
  unfold restorePrevious. proj. rewrite Hsel.
  repeat split; try reflexivity.
  unfold has_setStyle, setStyle. proj. by case_match.
Qed.

(** C4.  With no selection [deleteSelectedFeature] does nothing.  With a
    selection and the confirmation refused, the state is unchanged (so the
    shape is still in its group).  With the confirmation given, the
    selected shape is no longer on the map, nor in the group of its layer,
    nor in the drawn-items group, and there is no selection. *)
Theorem delete_needs_confirmation (e : Editor) :
  match selectedFeature e with
  | None => forall confirmed, deleteSelectedFeature confirmed e = e
  | Some sel =>
      deleteSelectedFeature false e = e
      /\ let e' := deleteSelectedFeature true e in
         sel_layer sel ∉ map_shapes e'
         /\ sel_layer sel ∉ group (sel_layerName sel) e'
         /\ sel_layer sel ∉ group "drawn" e'
         /\ selectedFeature e' = None
  end.
Proof.
  destruct (selectedFeature e) as [sel|] eqn:Hsel.
  - split; [apply deleteSelectedFeature_unconfirmed|].
    destruct (deleteSelectedFeature_confirmed e sel Hsel)
      as (Hm & Hg & _ & Hs & _).
    cbv zeta. rewrite Hm, !Hg.
    rewrite !decide_True by tauto.
    repeat split; [set_solver..|exact Hs].
  - intros c. by apply deleteSelectedFeature_none.
Qed.

End DeletingTheSelection.

Section DeletingTheSelectionScenarios.

Local Existing Instance plain_browser.

(** The delete button on a sample household, refused and then confirmed. *)
Example deleteSelectedFeature_sample :
  let e := default init (run [Loaded "households" (FetchStatus 500);
                              ShapeClick 1] init) in
  selectedFeature e = Some (mkSelection 1 1 "households")
  /\ deleteSelectedFeature false e = e
  /\ elements (group "households" e) = [2; 1; 0]%nat
  /\ elements (group "households" (deleteSelectedFeature true e)) = [2; 0]%nat
  /\ elements (map_shapes (deleteSelectedFeature true e)) = [2; 0]%nat
  /\ selectedFeature (deleteSelectedFeature true e) = None.
Proof. vm_compute. repeat split; reflexivity. Qed.

End DeletingTheSelectionScenarios.

(** ** Saving the attribute form *)

Section SavingTheForm.

Context `{browser : Browser}.

Lemma fold_updated_other (inputs : list Input) (acc : Props) (k : string) :
  k ∉ field_of <$> inputs ->
  fold_left write_input inputs acc !! k = acc !! k.
Proof.
  revert acc. induction inputs as [|i inputs IH]; intros acc Hk; [done|].
  simpl. rewrite IH by set_solver.
  unfold write_input. case_match; [done|].
  apply lookup_insert_ne. set_solver.
Qed.

Lemma updatedProperties_other inputs k :
  k ∉ field_of <$> inputs -> updatedProperties inputs !! k = None.
Proof.
  intros Hk. unfold updatedProperties. by rewrite fold_updated_other.
Qed.

Lemma spread_lookup_other (a b : Props) k :
  b !! k = None -> spread a b !! k = a !! k.
Proof. intros Hb. unfold spread. by apply lookup_union_r. Qed.

Lemma spread_lookup_written (a b : Props) k v :
  b !! k = Some v -> spread a b !! k = Some v.
Proof. intros Hb. unfold spread. by apply lookup_union_Some_l. Qed.

Lemma saveAttributes_eq e sel :
  selectedFeature e = Some sel ->
  let updated := updatedProperties (panel_inputs (attribute_editor (page e))) in
  let features' :=
    alter (fun f => mkFeature (spread (properties f) updated) (geometry f))
          (sel_feature sel) (features e) in
  saveAttributes e
  = on_page (fun d => with_notifications
                        (notifications d
                         ++ [("✅ Feature saved successfully!", "success")]) d)
      (setPopupContent (sel_layer sel)
         (from_option (fun f => createPopupContent f (sel_layerName sel))
                      EmptyString (features' !! sel_feature sel))
         (with_features features' e)).
Proof. intros Hsel. unfold saveAttributes. rewrite Hsel. reflexivity. Qed.

Lemma saveAttributes_props e sel :
  selectedFeature e = Some sel ->
  is_Some (features e !! sel_feature sel) ->
  props_of (sel_feature sel) (saveAttributes e)
  = spread (props_of (sel_feature sel) e)
           (updatedProperties (panel_inputs (attribute_editor (page e)))).
Proof.
  intros Hsel [f Hf]. rewrite (saveAttributes_eq e sel Hsel).
  unfold props_of, setPopupContent. proj.
  rewrite lookup_alter_eq, Hf. reflexivity.
Qed.

Lemma saveAttributes_other_key e sel k :
  selectedFeature e = Some sel ->
  k ∉ written_keys e ->
  props_of (sel_feature sel) (saveAttributes e) !! k
  = props_of (sel_feature sel) e !! k.
Proof.
  intros Hsel Hk.
  destruct (features e !! sel_feature sel) as [f|] eqn:Hf.
  - rewrite (saveAttributes_props e sel Hsel) by eauto.
    apply spread_lookup_other, updatedProperties_other, Hk.
  - rewrite (saveAttributes_eq e sel Hsel).
    unfold props_of, setPopupContent. proj.
    rewrite lookup_alter_eq, Hf. reflexivity.
Qed.

Lemma saveAttributes_other_feature e f :
  (forall sel, selectedFeature e = Some sel -> sel_feature sel <> f) ->
  features (saveAttributes e) !! f = features e !! f.
Proof.
  intros Hf. destruct (selectedFeature e) as [sel|] eqn:Hsel.
  - rewrite (saveAttributes_eq e sel Hsel). unfold setPopupContent. proj.
    apply lookup_alter_ne. by apply Hf.
  - unfold saveAttributes. by rewrite Hsel.
Qed.

Lemma field_of_formIds i :
  input_id i ∈ formIds -> field_of i ∈ formKeys.
Proof.
  unfold field_of, formIds, formKeys. intros Hi.
  repeat (apply elem_of_cons in Hi as [->|Hi]; [vm_compute; set_solver|]).
  by apply elem_of_nil in Hi.
Qed.

Lemma written_keys_form e :
  form_ok (attribute_editor (page e)) ->
  forall k, k ∈ written_keys e -> k ∈ formKeys.
Proof.
  intros Hok k Hk. unfold written_keys in Hk.
  apply list_elem_of_fmap in Hk as (i & -> & Hi).
  by apply field_of_formIds, Hok.
Qed.

Lemma attributeForm_ok props layerName isNew :
  form_ok (attributeForm props layerName isNew).
Proof.
  unfold form_ok, attributeForm, formIds. intros i Hi. simpl in Hi.
  repeat case_match;
    repeat (apply elem_of_cons in Hi as [->|Hi]; [simpl; set_solver|]);
    by apply elem_of_nil in Hi.
Qed.

Lemma type_into_ok input text p : form_ok p -> form_ok (type_into input text p).
Proof.
  unfold form_ok. destruct p as [|h inputs n]; [done|]. simpl.
  intros Hok i Hi. apply list_elem_of_fmap in Hi as (j & -> & Hj).
  case_match; simpl; by apply Hok.
Qed.

End SavingTheForm.

(** ** Invariants of the reachable states *)

Section Invariants.

Context `{browser : Browser}.

Lemma fold_left_preserves {A} (P : Editor -> Prop) (f : Editor -> A -> Editor)
    (l : list A) (e : Editor) :
  (forall e x, P e -> P (f e x)) -> P e -> P (fold_left f l e).
Proof.
  intros Hf. revert e. induction l as [|x l IH]; intros e He; [done|].
  simpl. by apply IH, Hf.
Qed.

Lemma run_reachable evs e e' :
  reachable e -> run evs e = Some e' -> reachable e'.
Proof.
  revert e. induction evs as [|ev evs IH]; intros e He Hrun; simpl in Hrun.
  - by injection Hrun as <-.
  - destruct (fire ev e) as [e1|] eqn:Hfire; [|done].
    eapply IH; [|exact Hrun]. by eapply reachable_fire.
Qed.

Lemma deleteSelectedFeature_cases c e :
  deleteSelectedFeature c e = e
  \/ (c = true /\ exists sel, selectedFeature e = Some sel).
Proof.
  destruct (selectedFeature e) as [sel|] eqn:Hsel.
  - destruct c; [right; eauto|left; apply deleteSelectedFeature_unconfirmed].
  - left. by apply deleteSelectedFeature_none.
Qed.

Lemma setActiveTool_cases tool c e :
  let e0 := tool_prelude tool e in
  setActiveTool tool c e = e0
  \/ setActiveTool tool c e = with_edit_enabled true e0
  \/ setActiveTool tool c e = startDrawing tool e0
  \/ setActiveTool tool c e = deleteSelectedFeature c e0.
Proof.
  unfold setActiveTool, enableTool. cbv zeta. fold (tool_prelude tool e).
  repeat case_match; auto.
Qed.

(** When every input of the form on the page has one of the ids the form
    template gives its inputs, the save writes no key outside [id],
    [owner], [family], [residents], [facility] and [name]. *)
Lemma saveAttributes_rendered_key e sel k :
  form_rendered e -> selectedFeature e = Some sel -> k ∉ formKeys ->
  props_of (sel_feature sel) (saveAttributes e) !! k
  = props_of (sel_feature sel) e !! k.
Proof.
  intros Hr Hsel Hk. apply saveAttributes_other_key; [done|].
  intros Hw. apply Hk. by eapply written_keys_form.
Qed.

(** With the inputs of the template on the page the save never writes
    the capitalised keys the popup and the form are rendered from. *)
Lemma saveAttributes_never_writes_Owner e sel :
  form_rendered e -> selectedFeature e = Some sel ->
  props_of (sel_feature sel) (saveAttributes e) !! "Owner"
  = props_of (sel_feature sel) e !! "Owner".
Proof.
  intros Hr Hsel. apply saveAttributes_rendered_key; [done..|].
  unfold formKeys. set_solver.
Qed.


End Invariants.

Section InvariantsScenarios.

Local Existing Instance plain_browser.

Lemma editing_household_7_reachable : reachable editing_household_7.
Proof.
  apply (run_reachable
           [Loaded "households" (FetchOk [household_7]); ShapeClick 0;
            Typing "attr-owner" "X"] init); [apply reachable_init|].
  vm_compute. reflexivity.
Qed.

Lemma editing_household_7_rendered : form_rendered editing_household_7.
Proof.
  assert (panel editing_household_7
          = type_into "attr-owner" "X"
              (attributeForm (properties household_7) "households" false))
    as Hp by (vm_compute; reflexivity).
  unfold form_rendered. rewrite Hp. apply type_into_ok, attributeForm_ok.
Qed.


(** C1, evaluated on the first sample household.  The owner field of the
    form reads ["X"] when the save runs.  The save writes the key [owner];
    the key [Owner], which the popup and the form are rendered from, keeps
    the old name, and the regenerated popup shows the old name and no
    ["X"]. *)
Theorem saveAttributes_owner_key_mismatch :
  let e := editing_sample_101 in
  let e' := saveAttributes e in
  selectedFeature e = Some (mkSelection 0 0 "households")
  /\ (input_id <$> panel_inputs (panel e), input_value <$> panel_inputs (panel e))
     = (["attr-id"; "attr-owner"; "attr-family"; "attr-residents"],
        ["101"; "X"; "Cruz Family"; "4"])
  /\ props_of 0 e !! "Owner" = Some (VStr "Juan Cruz")
  /\ props_of 0 e' !! "Owner" = Some (VStr "Juan Cruz")
  /\ props_of 0 e' !! "owner" = Some (VStr "X")
  /\ popup_of 0 e' = Some (createPopupContent (mkFeature (props_of 0 e') (Point 125.3180 12.2390)) "households")
  /\ from_option (includes "Juan Cruz") false (popup_of 0 e') = true
  /\ from_option (includes "X") true (popup_of 0 e') = false.
Proof. vm_compute. repeat split; reflexivity. Qed.

End InvariantsScenarios.

(** ** Adding a feature with its shape to a group *)

Section AddingPairs.

Context `{browser : Browser}.

Lemma onEachFeature_adds_pair layerName e feature :
  adds_pair layerName feature e (onEachFeature layerName e feature).
Proof.
  unfold adds_pair, onEachFeature, new_feature, new_shape, bindPopup, onClick.
  rewrite group_addLayer_eq. proj.
  eexists. split.
  { rewrite !alter_insert_eq. reflexivity. }
  simpl. repeat split; reflexivity.
Qed.

Lemma addSample_adds_pair layerName e household :
  adds_pair layerName (sampleFeature household) e
            (addSample layerName e household).
Proof.
  unfold adds_pair, addSample, new_feature, new_shape, bindPopup, onClick.
  rewrite group_addLayer_eq. proj.
  eexists. split.
  { rewrite !alter_insert_eq. reflexivity. }
  simpl. repeat split; reflexivity.
Qed.

Lemma fresh_shape_None e : shapes e !! fresh (dom (shapes e)) = None.
Proof. apply not_elem_of_dom, is_fresh. Qed.

Lemma fresh_feature_None e : features e !! fresh (dom (features e)) = None.
Proof. apply not_elem_of_dom, is_fresh. Qed.

Lemma adds_pair_group ln feature e e' n :
  adds_pair ln feature e e' ->
  group n e' = if decide (ln = n)
               then group n e ∪ {[ fresh (dom (shapes e)) ]} else group n e.
Proof.
  intros (sh & _ & _ & _ & _ & _ & Hm & _). unfold group at 1. rewrite Hm.
  rewrite lookup_insert. case_decide; subst; reflexivity.
Qed.

Lemma adds_pair_new ln feature e e' :
  adds_pair ln feature e e' ->
  feature_of_shape (fresh (dom (shapes e))) e' = Some feature.
Proof.
  intros (sh & Hs & _ & Hc & _ & Hf & _). unfold feature_of_shape.
  rewrite Hs, lookup_insert_eq. simpl. rewrite Hc. simpl.
  rewrite Hf. apply lookup_insert_eq.
Qed.

Lemma adds_pair_old ln feature e e' i ft :
  adds_pair ln feature e e' ->
  feature_of_shape i e = Some ft -> feature_of_shape i e' = Some ft.
Proof.
  intros (sh & Hs & _ & _ & _ & Hf & _). unfold feature_of_shape.
  intros Hi. rewrite Hs, Hf.
  destruct (shapes e !! i) as [shi|] eqn:Hshi; [|done]. simpl in Hi.
  rewrite lookup_insert_ne
    by (intros <-; by rewrite fresh_shape_None in Hshi).
  rewrite Hshi. simpl.
  destruct (shape_click shi) as [[f l]|]; [|done]. simpl in *.
  rewrite lookup_insert_ne; [done|].
  intros <-. by rewrite fresh_feature_None in Hi.
Qed.

End AddingPairs.

(** ** Outline styles *)

Section OutlineStyles.

Context `{browser : Browser}.

Lemma setStyle_style j i w c e :
  style_of j (setStyle i w c e)
  = if decide (i = j) then outline w c <$> style_of j e else style_of j e.
Proof.
  unfold style_of, setStyle. proj. rewrite lookup_alter.
  case_decide; [subst j|reflexivity].
  destruct (shapes e !! i) as [sh|]; reflexivity.
Qed.

Lemma has_setStyle_false i e : has_setStyle i e = false -> style_of i e = None.
Proof.
  unfold has_setStyle, style_of. destruct (shapes e !! i) as [sh|]; [|done].
  simpl. intros H%bool_decide_eq_false.
  destruct (shape_style sh); [|done]. exfalso. apply H. by eexists.
Qed.

Lemma restorePrevious_style j e :
  style_of j (restorePrevious e)
  = match selectedFeature e with
    | Some sel =>
        if decide (sel_layer sel = j)
        then outline 2 (normal_color (sel_layerName sel)) <$> style_of j e
        else style_of j e
    | None => style_of j e
    end.
Proof.
  unfold restorePrevious. destruct (selectedFeature e) as [sel|]; [|done].
  destruct (has_setStyle (sel_layer sel) e) eqn:Hs.
  - apply setStyle_style.
  - case_decide; [subst j|reflexivity].
    by rewrite (has_setStyle_false _ _ Hs).
Qed.

Lemma highlight_style j i e :
  style_of j (highlight i e)
  = if decide (i = j) then outline 4 "#ff0000" <$> style_of j e
    else style_of j e.
Proof.
  unfold highlight. destruct (has_setStyle i e) eqn:Hs.
  - apply setStyle_style.
  - case_decide; [subst j|reflexivity].
    by rewrite (has_setStyle_false _ _ Hs).
Qed.

Lemma restorePrevious_dom e : dom (shapes (restorePrevious e)) = dom (shapes e).
Proof.
  unfold restorePrevious, setStyle. repeat case_match; try done.
  proj. apply dom_alter_L.
Qed.

Lemma highlight_dom i e : dom (shapes (highlight i e)) = dom (shapes e).
Proof.
  unfold highlight, setStyle. case_match; [|done]. proj. apply dom_alter_L.
Qed.

Lemma selectFeature_style j f i ln n e :
  style_of j (selectFeature f i ln n e)
  = if decide (i = j)
    then outline 4 "#ff0000" <$> style_of j (restorePrevious e)
    else style_of j (restorePrevious e).
Proof.
  change (style_of j (selectFeature f i ln n e))
    with (style_of j (highlight i (storeSelection f i ln (restorePrevious e)))).
  rewrite highlight_style. reflexivity.
Qed.

Lemma selectFeature_dom f i ln n e :
  dom (shapes (selectFeature f i ln n e)) = dom (shapes e).
Proof.
  change (shapes (selectFeature f i ln n e))
    with (shapes (highlight i (storeSelection f i ln (restorePrevious e)))).
  rewrite highlight_dom. apply restorePrevious_dom.
Qed.

Lemma normal_color_not_red ln : normal_color ln <> "#ff0000".
Proof.
  unfold normal_color, colors.
  destruct (decide (ln = "households")) as [->|?]; [done|].
  destruct (decide (ln = "facilities")) as [->|?]; [done|].
  destruct (decide (ln = "roads")) as [->|?]; [done|].
  destruct (decide (ln = "boundary")) as [->|?]; [done|].
  by rewrite !lookup_insert_ne, lookup_singleton_ne.
Qed.

End OutlineStyles.

(** *** Only the selected shape has the selection outline *)

Section SelectionOutline.

Context `{browser : Browser}.

Lemma hl_is_sel_ext e e' :
  shapes e' = shapes e -> selectedFeature e' = selectedFeature e ->
  hl_is_sel e -> hl_is_sel e'.
Proof.
  unfold hl_is_sel, highlighted, style_of. by intros -> ->.
Qed.

Lemma restorePrevious_clears e j :
  hl_is_sel e -> ~ highlighted j (restorePrevious e).
Proof.
  intros He (st & Hst & Hh). rewrite restorePrevious_style in Hst.
  destruct (selectedFeature e) as [sel|] eqn:Hsel.
  - case_decide as Hj.
    + destruct (style_of j e) as [st0|]; [|done].
      injection Hst as <-. unfold is_highlight in Hh. simpl in Hh. done.
    + destruct (He j) as (sel' & Hsel' & Hl); [by exists st|].
      congruence.
  - destruct (He j) as (sel' & Hsel' & _); [by exists st|]. congruence.
Qed.

Lemma selectFeature_hl f i ln n e :
  hl_is_sel e -> hl_is_sel (selectFeature f i ln n e).
Proof.
  intros He j (st & Hst & Hh). rewrite selectFeature_style in Hst.
  rewrite selectFeature_eq. proj. eexists. split; [reflexivity|]. proj.
  case_decide as Hj; [done|].
  exfalso. apply (restorePrevious_clears e j He). by exists st.
Qed.

Lemma deselectFeature_hl e j : hl_is_sel e -> ~ highlighted j (deselectFeature e).
Proof.
  intros He Hj. apply (restorePrevious_clears e j He).
  rewrite deselectFeature_eq in Hj. exact Hj.
Qed.

Lemma relabel_hl g i e :
  (forall sh, shape_style (g sh) = shape_style sh) ->
  hl_is_sel e -> hl_is_sel (with_shapes (alter g i (shapes e)) e).
Proof.
  intros Hg He j (st & Hst & Hh). apply (He j). exists st. split; [|done].
  unfold style_of in *. proj. rewrite lookup_alter in Hst.
  case_decide; [subst j|done].
  destruct (shapes e !! i) as [sh|]; [|done]. simpl in *. by rewrite <- Hg.
Qed.

Lemma insert_fresh_hl sh e :
  from_option (fun st => negb (is_highlight st)) true (shape_style sh) = true ->
  hl_is_sel e ->
  hl_is_sel (with_shapes (<[ fresh (dom (shapes e)) := sh ]> (shapes e)) e).
Proof.
  intros Hsh He j (st & Hst & Hh). apply (He j). exists st. split; [|done].
  unfold style_of in *. proj. rewrite lookup_insert in Hst.
  case_decide; [|done]. simpl in Hst. rewrite Hst in Hsh. simpl in Hsh.
  by rewrite Hh in Hsh.
Qed.

Lemma adds_pair_hl ln feature e e' :
  adds_pair ln feature e e' -> hl_is_sel e -> hl_is_sel e'.
Proof.
  intros (sh & Hs & Hst & _ & _ & _ & _ & _ & _ & Hsel & _) He.
  apply (hl_is_sel_ext
           (with_shapes (<[ fresh (dom (shapes e)) := sh ]> (shapes e)) e));
    [done..|].
  apply insert_fresh_hl; [|done]. by rewrite Hst.
Qed.

Lemma createSampleData_hl ln e :
  hl_is_sel e -> hl_is_sel (createSampleData ln e).
Proof.
  intros He. unfold createSampleData. case_match; [|done].
  apply (fold_left_preserves hl_is_sel); [|done].
  intros e1 x He1. eapply adds_pair_hl; [apply addSample_adds_pair|done].
Qed.

Lemma loadGeoJSONLayer_hl ln r e :
  hl_is_sel e -> hl_is_sel (loadGeoJSONLayer ln r e).
Proof.
  intros He. destruct r; simpl; try by apply createSampleData_hl.
  unfold addGeoJSONToMap. apply (fold_left_preserves hl_is_sel); [|done].
  intros e1 x He1. eapply adds_pair_hl; [apply onEachFeature_adds_pair|done].
Qed.

Lemma deleteSelectedFeature_hl c e :
  hl_is_sel e -> hl_is_sel (deleteSelectedFeature c e).
Proof.
  intros He.
  destruct (deleteSelectedFeature_cases c e) as [ -> | [ -> [sel Hsel] ] ];
    [done|].
  destruct (deleteSelectedFeature_confirmed e sel Hsel)
    as (_ & _ & _ & _ & _ & Hs & _).
  intros j (st & Hst & Hh). exfalso.
  apply (restorePrevious_clears e j He). exists st. split; [|done].
  unfold style_of in *. by rewrite <- Hs.
Qed.

Lemma setActiveTool_hl tool c e :
  hl_is_sel e -> hl_is_sel (setActiveTool tool c e).
Proof.
  intros He.
  destruct (setActiveTool_cases tool c e) as [ -> | [ -> | [ -> | -> ] ] ];
    try (by apply (hl_is_sel_ext e)).
  apply deleteSelectedFeature_hl. by apply (hl_is_sel_ext e).
Qed.

Lemma toggleLayer_selectedFeature name visible e :
  selectedFeature (toggleLayer name visible e) = selectedFeature e.
Proof. rewrite toggleLayer_eq. reflexivity. Qed.

Lemma saveAttributes_hl e : hl_is_sel e -> hl_is_sel (saveAttributes e).
Proof.
  intros He. destruct (selectedFeature e) as [sel|] eqn:Hsel.
  - rewrite (saveAttributes_eq e sel Hsel). cbv zeta.
    unfold setPopupContent.
    match goal with
    | |- hl_is_sel (on_page _ (with_shapes (alter ?g ?i _) (with_features ?v e))) =>
        apply (hl_is_sel_ext (with_shapes (alter g i (shapes e)) e));
          [reflexivity..|]
    end.
    by apply relabel_hl.
  - unfold saveAttributes. by rewrite Hsel.
Qed.

Lemma showNotification_shapes msg ty e :
  shapes (showNotification msg ty e) = shapes e.
Proof. reflexivity. Qed.

Lemma setActiveTool_select_core c e :
  shapes (setActiveTool "select" c e) = shapes e
  /\ selectedFeature (setActiveTool "select" c e) = selectedFeature e
  /\ mapLayers (setActiveTool "select" c e) = mapLayers e
  /\ map_shapes (setActiveTool "select" c e) = map_shapes e
  /\ map_groups (setActiveTool "select" c e) = map_groups e
  /\ pending_loads (setActiveTool "select" c e) = pending_loads e
  /\ features (setActiveTool "select" c e) = features e.
Proof. unfold setActiveTool. rewrite enableTool_select. done. Qed.

Lemma draw_chain_hl f layer p msg e :
  hl_is_sel e ->
  hl_is_sel
    (setActiveTool "select" false
       (showNotification msg "success"
          (selectFeature f layer "drawn" true
             (bindPopup layer p (onClick layer f "drawn" e))))).
Proof.
  intros He.
  eapply hl_is_sel_ext;
    [apply setActiveTool_select_core..|].
  eapply (hl_is_sel_ext (selectFeature _ _ _ _ _)); [reflexivity..|].
  apply selectFeature_hl. unfold bindPopup.
  apply (relabel_hl _ _ (onClick layer f "drawn" e)); [done|].
  unfold onClick. by apply relabel_hl.
Qed.

Lemma handleDrawCreated_hl layer layerType now e :
  hl_is_sel e -> hl_is_sel (handleDrawCreated layer layerType now e).
Proof.
  intros He. unfold handleDrawCreated, new_feature. cbv zeta.
  apply draw_chain_hl.
  apply (hl_is_sel_ext e); [rewrite group_addLayer_eq; reflexivity..|done].
Qed.

Lemma toolkit_move_hl moved e :
  hl_is_sel e -> hl_is_sel (fold_left toolkit_move moved e).
Proof.
  intros He. apply (fold_left_preserves hl_is_sel); [|done].
  intros e1 m He1. unfold toolkit_move. case_match; [|done].
  by apply relabel_hl.
Qed.

Lemma toolkit_remove_shapes removed e :
  shapes (fold_left toolkit_remove removed e) = shapes e
  /\ selectedFeature (fold_left toolkit_remove removed e) = selectedFeature e
  /\ pending_loads (fold_left toolkit_remove removed e) = pending_loads e
  /\ map_groups (fold_left toolkit_remove removed e) = map_groups e.
Proof.
  apply (fold_left_preserves
           (fun e1 => shapes e1 = shapes e
                      /\ selectedFeature e1 = selectedFeature e
                      /\ pending_loads e1 = pending_loads e
                      /\ map_groups e1 = map_groups e)); [|done].
  intros e1 i (<- & <- & <- & <-). unfold toolkit_remove.
  rewrite group_removeLayer_eq. done.
Qed.

Lemma fire_hl ev e e' : hl_is_sel e -> fire ev e = Some e' -> hl_is_sel e'.
Proof.
  intros He Hfire. destruct ev; simpl in Hfire.
  - case_bool_decide; [|done]. injection Hfire as <-.
    apply loadGeoJSONLayer_hl. by apply (hl_is_sel_ext e).
  - case_bool_decide; [|done]. injection Hfire as <-.
    by apply setActiveTool_hl.
  - case_bool_decide; [|done]. injection Hfire as <-.
    apply (hl_is_sel_ext e);
      [apply toggleLayer_shapes|apply toggleLayer_selectedFeature|done].
  - repeat case_match; try done. injection Hfire as <-.
    by apply selectFeature_hl.
  - injection Hfire as <-. intros j Hj. by apply deselectFeature_hl in Hj.
  - injection Hfire as <-. by apply (hl_is_sel_ext e).
  - case_match; [|done]. injection Hfire as <-. by apply saveAttributes_hl.
  - case_match; [|done]. injection Hfire as <-.
    by apply deleteSelectedFeature_hl.
  - destruct (style_ok style) eqn:Hok; [|done].
    unfold new_shape in Hfire. injection Hfire as <-.
    apply handleDrawCreated_hl, insert_fresh_hl; [|done].
    simpl. by destruct style.
  - injection Hfire as <-. unfold handleDrawEdited.
    apply (hl_is_sel_ext (fold_left toolkit_move moved e)); [reflexivity..|].
    by apply toolkit_move_hl.
  - injection Hfire as <-. unfold handleDrawDeleted.
    intros j Hj. exfalso.
    apply (deselectFeature_hl (fold_left toolkit_remove removed e) j);
      [|exact Hj].
    destruct (toolkit_remove_shapes removed e) as (Hs & Hsel & _).
    by apply (hl_is_sel_ext e).
Qed.

Lemma reachable_hl e : reachable e -> hl_is_sel e.
Proof.
  induction 1 as [|e ev e' _ IH Hfire].
  - intros i (st & Hst & _). done.
  - by eapply fire_hl.
Qed.

Lemma hl_is_sel_at_most_one e : hl_is_sel e -> at_most_one_highlight e.
Proof.
  intros He i j Hi Hj.
  destruct (He i Hi) as (sel & Hsel & <-).
  destruct (He j Hj) as (sel' & Hsel' & <-). congruence.
Qed.

End SelectionOutline.

(** *** The selection and the map refer to shapes held in groups *)

Section ShapesInGroups.

Context `{browser : Browser}.

Lemma map_wf_ext e e' :
  mapLayers e' = mapLayers e -> map_shapes e' = map_shapes e ->
  map_groups e' = map_groups e -> dom (shapes e') = dom (shapes e) ->
  map_wf e -> map_wf e'.
Proof.
  unfold map_wf, map_in_group, drawn_on_map, groups_alloc, in_some_group, group.
  by intros -> -> -> ->.
Qed.

Lemma sel_in_group_ext e e' :
  mapLayers e' = mapLayers e -> selectedFeature e' = selectedFeature e ->
  sel_in_group e -> sel_in_group e'.
Proof. unfold sel_in_group, in_some_group, group. by intros -> ->. Qed.

Lemma adds_pair_group_mono ln feature e e' n j :
  adds_pair ln feature e e' -> j ∈ group n e -> j ∈ group n e'.
Proof.
  intros Ha Hj. rewrite (adds_pair_group ln feature e e' n Ha).
  case_decide; [by apply elem_of_union_l|done].
Qed.

Lemma adds_pair_map_wf ln feature e e' :
  adds_pair ln feature e e' -> map_wf e -> map_wf e'.
Proof.
  intros Ha (Hm & Hd & Hg).
  pose proof (fun n => adds_pair_group ln feature e e' n Ha) as Hgr.
  pose proof (fun n j => adds_pair_group_mono ln feature e e' n j Ha) as Hmono.
  destruct Ha as (sh & Hs & _ & _ & _ & _ & _ & Hms & Hmg & _).
  assert (fresh (dom (shapes e)) ∈ group ln e') as Hnew.
  { rewrite Hgr, decide_True by done.
    by apply elem_of_union_r, elem_of_singleton. }
  split; [|split].
  - intros j Hj. rewrite Hms in Hj.
    assert (j ∈ map_shapes e \/ j = fresh (dom (shapes e))) as [Hj'| ->].
    { destruct (bool_decide (ln ∈ map_groups e)); [|by left].
      apply elem_of_union in Hj as [Hj|Hj%elem_of_singleton]; auto. }
    + destruct (Hm j Hj') as [n Hn]. exists n. by apply Hmono.
    + by exists ln.
  - unfold drawn_on_map. by rewrite Hmg.
  - intros n j Hj. rewrite Hgr in Hj.
    rewrite Hs, dom_insert_L.
    case_decide; [|by (apply elem_of_union_r, (Hg n))].
    apply elem_of_union in Hj as [Hj|Hj]; [|by apply elem_of_union_l].
    by apply elem_of_union_r, (Hg n).
Qed.

Lemma adds_pair_sel ln feature e e' :
  adds_pair ln feature e e' -> sel_in_group e -> sel_in_group e'.
Proof.
  intros Ha He sel Hsel.
  pose proof (fun n j => adds_pair_group_mono ln feature e e' n j Ha) as Hmono.
  destruct Ha as (sh & _ & _ & _ & _ & _ & _ & _ & _ & Hs & _).
  rewrite Hs in Hsel. destruct (He sel Hsel) as [n Hn]. exists n.
  by apply Hmono.
Qed.

Lemma createSampleData_preserves (P : Editor -> Prop) ln e :
  (forall ft e1 e2, adds_pair ln ft e1 e2 -> P e1 -> P e2) ->
  P e -> P (createSampleData ln e).
Proof.
  intros HP He. unfold createSampleData. case_match; [|done].
  apply (fold_left_preserves P); [|done].
  intros e1 x He1. eapply HP; [apply addSample_adds_pair|done].
Qed.

Lemma loadGeoJSONLayer_preserves (P : Editor -> Prop) ln r e :
  (forall ft e1 e2, adds_pair ln ft e1 e2 -> P e1 -> P e2) ->
  (forall msg ty e1, P e1 -> P (showNotification msg ty e1)) ->
  P e -> P (loadGeoJSONLayer ln r e).
Proof.
  intros HP Hn He.
  destruct r; simpl; try by apply createSampleData_preserves, Hn.
  unfold addGeoJSONToMap. apply (fold_left_preserves P); [|done].
  intros e1 x He1. eapply HP; [apply onEachFeature_adds_pair|done].
Qed.

Lemma deleteSelectedFeature_map_wf c e :
  map_wf e -> map_wf (deleteSelectedFeature c e).
Proof.
  intros (Hm & Hd & Hg).
  destruct (deleteSelectedFeature_cases c e) as [ -> | [ -> [sel Hsel] ] ];
    [done|].
  destruct (deleteSelectedFeature_confirmed e sel Hsel)
    as (Hms & Hgr & Hmg & _ & _ & Hs & _).
  split; [|split].
  - intros j Hj. rewrite Hms in Hj.
    apply elem_of_difference in Hj as [Hj Hne].
    destruct (Hm j Hj) as [n Hn]. exists n. rewrite Hgr.
    case_decide; [by apply elem_of_difference|done].
  - unfold drawn_on_map. by rewrite Hmg.
  - intros n j Hj. rewrite Hgr in Hj. rewrite Hs, restorePrevious_dom.
    apply (Hg n). case_decide; [by apply elem_of_difference in Hj as [? _]|done].
Qed.

Lemma deleteSelectedFeature_sel c e :
  sel_in_group e -> sel_in_group (deleteSelectedFeature c e).
Proof.
  intros He.
  destruct (deleteSelectedFeature_cases c e) as [ -> | [ -> [sel Hsel] ] ];
    [done|].
  destruct (deleteSelectedFeature_confirmed e sel Hsel)
    as (_ & _ & _ & Hnone & _).
  intros sel'. by rewrite Hnone.
Qed.

Lemma setActiveTool_preserves (P : Editor -> Prop) tool c e :
  (forall e1, mapLayers e1 = mapLayers e -> map_shapes e1 = map_shapes e ->
              map_groups e1 = map_groups e -> shapes e1 = shapes e ->
              selectedFeature e1 = selectedFeature e ->
              pending_loads e1 = pending_loads e -> P e1) ->
  (forall e1, P e1 -> P (deleteSelectedFeature c e1)) ->
  P (setActiveTool tool c e).
Proof.
  intros Hext Hdel.
  destruct (setActiveTool_cases tool c e) as [ -> | [ -> | [ -> | -> ] ] ];
    try (by apply Hext).
  by apply Hdel, Hext.
Qed.

Lemma toggleLayer_map name visible e :
  map_shapes (toggleLayer name visible e) ⊆ map_shapes e ∪ group name e
  /\ map_groups e ∖ {[ name ]} ⊆ map_groups (toggleLayer name visible e).
Proof.
  unfold toggleLayer.
  destruct (toggleLayer_raises name visible e); [set_solver|].
  case_bool_decide; destruct visible;
    rewrite ?map_addGroup_eq, ?map_removeGroup_eq; proj;
    generalize (group name e) (map_shapes e) (map_groups e); intros g ms mg;
    clear; repeat case_bool_decide; set_solver.
Qed.

Lemma toggleLayer_map_wf name visible e :
  name <> "drawn" -> map_wf e -> map_wf (toggleLayer name visible e).
Proof.
  intros Hn (Hm & Hd & Hg).
  destruct (toggleLayer_map name visible e) as [Hms Hmg].
  split; [|split].
  - intros j Hj. apply Hms in Hj.
    apply elem_of_union in Hj as [Hj|Hj].
    + destruct (Hm j Hj) as [n Hjn]. exists n.
      unfold group. by rewrite toggleLayer_mapLayers.
    + exists name. unfold group in *. by rewrite toggleLayer_mapLayers.
  - apply Hmg. unfold drawn_on_map in Hd.
    apply elem_of_difference. split; [done|]. by intros ?%elem_of_singleton.
  - intros n j. unfold group. rewrite toggleLayer_mapLayers, toggleLayer_shapes.
    apply (Hg n).
Qed.

Lemma selectFeature_core f i ln n e :
  mapLayers (selectFeature f i ln n e) = mapLayers e
  /\ map_shapes (selectFeature f i ln n e) = map_shapes e
  /\ map_groups (selectFeature f i ln n e) = map_groups e
  /\ pending_loads (selectFeature f i ln n e) = pending_loads e
  /\ features (selectFeature f i ln n e) = features e
  /\ selectedFeature (selectFeature f i ln n e) = Some (mkSelection f i ln).
Proof. rewrite selectFeature_eq. done. Qed.

Lemma deselectFeature_core e :
  mapLayers (deselectFeature e) = mapLayers e
  /\ map_shapes (deselectFeature e) = map_shapes e
  /\ map_groups (deselectFeature e) = map_groups e
  /\ pending_loads (deselectFeature e) = pending_loads e
  /\ features (deselectFeature e) = features e
  /\ selectedFeature (deselectFeature e) = None
  /\ dom (shapes (deselectFeature e)) = dom (shapes e).
Proof.
  rewrite deselectFeature_eq. proj. rewrite restorePrevious_dom. done.
Qed.

Lemma saveAttributes_core e :
  mapLayers (saveAttributes e) = mapLayers e
  /\ map_shapes (saveAttributes e) = map_shapes e
  /\ map_groups (saveAttributes e) = map_groups e
  /\ pending_loads (saveAttributes e) = pending_loads e
  /\ selectedFeature (saveAttributes e) = selectedFeature e
  /\ dom (shapes (saveAttributes e)) = dom (shapes e).
Proof.
  destruct (selectedFeature e) as [sel|] eqn:Hsel.
  - rewrite (saveAttributes_eq e sel Hsel). unfold setPopupContent. proj.
    rewrite dom_alter_L. done.
  - unfold saveAttributes. rewrite Hsel. done.
Qed.

Lemma selectFeature_map_wf f i ln n e :
  map_wf e -> map_wf (selectFeature f i ln n e).
Proof.
  destruct (selectFeature_core f i ln n e) as (? & ? & ? & _).
  apply map_wf_ext; try done. apply selectFeature_dom.
Qed.

Lemma selectFeature_sel f i ln n e :
  in_some_group i e -> sel_in_group (selectFeature f i ln n e).
Proof.
  destruct (selectFeature_core f i ln n e) as (Hm & _ & _ & _ & _ & Hs).
  intros [g Hg] sel. rewrite Hs. intros [= <-]. exists g.
  unfold group in *. by rewrite Hm.
Qed.

Lemma deselectFeature_map_wf e : map_wf e -> map_wf (deselectFeature e).
Proof.
  destruct (deselectFeature_core e) as (? & ? & ? & _ & _ & _ & ?).
  by apply map_wf_ext.
Qed.

Lemma deselectFeature_sel e : sel_in_group (deselectFeature e).
Proof.
  destruct (deselectFeature_core e) as (_ & _ & _ & _ & _ & Hs & _).
  intros sel. by rewrite Hs.
Qed.

Lemma draw_chain_dom f layer p msg e :
  dom (shapes
         (setActiveTool "select" false
            (showNotification msg "success"
               (selectFeature f layer "drawn" true
                  (bindPopup layer p (onClick layer f "drawn" e))))))
  = dom (shapes e).
Proof.
  destruct (setActiveTool_select_core false
              (showNotification msg "success"
                 (selectFeature f layer "drawn" true
                    (bindPopup layer p (onClick layer f "drawn" e)))))
    as (-> & _).
  rewrite showNotification_shapes, selectFeature_dom. unfold bindPopup, onClick. proj.
  by rewrite !dom_alter_L.
Qed.

Lemma handleDrawCreated_dom layer layerType now e :
  dom (shapes (handleDrawCreated layer layerType now e)) = dom (shapes e).
Proof.
  unfold handleDrawCreated, new_feature. cbv zeta.
  rewrite draw_chain_dom. rewrite group_addLayer_eq. reflexivity.
Qed.

Lemma handleDrawCreated_group layer layerType now e n :
  group n (handleDrawCreated layer layerType now e)
  = if decide ("drawn" = n) then group n e ∪ {[ layer ]} else group n e.
Proof.
  destruct (handleDrawCreated_eq layer layerType now e) as (_ & Hml & _).
  unfold group at 1. rewrite Hml, lookup_insert.
  destruct (decide ("drawn" = n)) as [<-|]; reflexivity.
Qed.

Lemma handleDrawCreated_map_wf layer layerType now e :
  layer ∈ dom (shapes e) ->
  map_wf e -> map_wf (handleDrawCreated layer layerType now e).
Proof.
  intros Hl (Hm & Hd & Hg).
  destruct (handleDrawCreated_eq layer layerType now e)
    as (_ & _ & Hms & Hmg & _).
  assert (forall n j, j ∈ group n e ->
                      j ∈ group n (handleDrawCreated layer layerType now e))
    as Hmono.
  { intros n j Hj. rewrite handleDrawCreated_group.
    destruct (decide ("drawn" = n)); [by apply elem_of_union_l|done]. }
  split; [|split].
  - intros j Hj. rewrite Hms in Hj.
    rewrite bool_decide_eq_true_2 in Hj by done.
    apply elem_of_union in Hj as [Hj|Hj%elem_of_singleton].
    + destruct (Hm j Hj) as [n Hn]. exists n. by apply Hmono.
    + subst j. exists "drawn". rewrite handleDrawCreated_group.
      rewrite decide_True by done.
      by apply elem_of_union_r, elem_of_singleton.
  - unfold drawn_on_map. by rewrite Hmg.
  - intros n j Hj. rewrite handleDrawCreated_dom.
    rewrite handleDrawCreated_group in Hj.
    destruct (decide ("drawn" = n)); [|by apply (Hg n)].
    apply elem_of_union in Hj as [Hj|Hj%elem_of_singleton];
      [by apply (Hg n)|by subst j].
Qed.

Lemma handleDrawCreated_sel layer layerType now e :
  sel_in_group (handleDrawCreated layer layerType now e).
Proof.
  destruct (handleDrawCreated_eq layer layerType now e)
    as (_ & _ & _ & _ & Hs & _).
  intros sel. rewrite Hs. intros [= <-]. exists "drawn".
  rewrite handleDrawCreated_group, decide_True by done.
  by apply elem_of_union_r, elem_of_singleton.
Qed.

Lemma new_shape_map_wf sh e : map_wf e -> map_wf (new_shape sh e).2.
Proof.
  intros (Hm & Hd & Hg). unfold new_shape. proj.
  split; [|split]; [exact Hm|exact Hd|].
  intros n j Hj. proj. rewrite dom_insert_L.
  by apply elem_of_union_r, (Hg n).
Qed.

Lemma toolkit_move_core moved e :
  mapLayers (fold_left toolkit_move moved e) = mapLayers e
  /\ map_shapes (fold_left toolkit_move moved e) = map_shapes e
  /\ map_groups (fold_left toolkit_move moved e) = map_groups e
  /\ pending_loads (fold_left toolkit_move moved e) = pending_loads e
  /\ selectedFeature (fold_left toolkit_move moved e) = selectedFeature e
  /\ features (fold_left toolkit_move moved e) = features e
  /\ dom (shapes (fold_left toolkit_move moved e)) = dom (shapes e).
Proof.
  apply (fold_left_preserves
           (fun e1 => mapLayers e1 = mapLayers e
                      /\ map_shapes e1 = map_shapes e
                      /\ map_groups e1 = map_groups e
                      /\ pending_loads e1 = pending_loads e
                      /\ selectedFeature e1 = selectedFeature e
                      /\ features e1 = features e
                      /\ dom (shapes e1) = dom (shapes e))); [|done].
  intros e1 m (<- & <- & <- & <- & <- & <- & <-). unfold toolkit_move.
  case_match; [|done]. proj. rewrite dom_alter_L. done.
Qed.

Lemma toolkit_remove_map_wf e i : map_wf e -> map_wf (toolkit_remove e i).
Proof.
  intros (Hm & Hd & Hg). unfold toolkit_remove.
  rewrite group_removeLayer_eq.
  assert (forall n j, j <> i -> j ∈ group n e ->
            j ∈ group n (with_mapLayers
                           (<[ "drawn" := group "drawn" e ∖ {[ i ]} ]>
                              (mapLayers e)) e)) as Hkeep.
  { intros n j Hne Hj. rewrite group_insert.
    destruct (decide ("drawn" = n)) as [<-|]; [|done].
    apply elem_of_difference. split; [done|].
    by intros ?%elem_of_singleton. }
  split; [|split].
  - intros j Hj. proj.
    unfold drawn_on_map in Hd. rewrite (bool_decide_eq_true_2 _ Hd) in Hj.
    cbn [andb] in Hj.
    destruct (decide (j = i)) as [->|Hne].
    + destruct (group_hasLayer "drawn" i e) eqn:Hh.
      * apply elem_of_difference in Hj as [_ Hj].
        exfalso. by apply Hj, elem_of_singleton.
      * destruct (Hm i Hj) as [n Hn]. exists n.
        change (i ∈ group n (with_mapLayers
                               (<[ "drawn" := group "drawn" e ∖ {[ i ]} ]>
                                  (mapLayers e)) e)).
        rewrite group_insert. destruct (decide ("drawn" = n)) as [<-|]; [|done].
        unfold group_hasLayer in Hh. by apply bool_decide_eq_false in Hh.
    + assert (j ∈ map_shapes e) as Hj'.
      { destruct (group_hasLayer "drawn" i e); [|done].
        by apply elem_of_difference in Hj as [? _]. }
      destruct (Hm j Hj') as [n Hn]. exists n. by apply Hkeep.
  - exact Hd.
  - intros n j Hj. proj.
    change (j ∈ group n (with_mapLayers
                           (<[ "drawn" := group "drawn" e ∖ {[ i ]} ]>
                              (mapLayers e)) e)) in Hj.
    rewrite group_insert in Hj. apply (Hg n).
    destruct (decide ("drawn" = n)) as [<-|]; [|done].
    by apply elem_of_difference in Hj as [? _].
Qed.

Lemma fire_wf ev e e' : wf e -> fire ev e = Some e' -> wf e'.
Proof.
  intros [Hm Hs] Hfire. destruct ev; simpl in Hfire.
  - case_bool_decide; [|done]. injection Hfire as <-.
    apply (loadGeoJSONLayer_preserves wf).
    + intros ft e1 e2 Ha [Hm1 Hs1]. split;
        [by eapply adds_pair_map_wf|by eapply adds_pair_sel].
    + intros msg ty e1 [Hm1 Hs1]. split;
        [by apply (map_wf_ext e1)|by apply (sel_in_group_ext e1)].
    + split; [by apply (map_wf_ext e)|by apply (sel_in_group_ext e)].
  - case_bool_decide; [|done]. injection Hfire as <-.
    apply (setActiveTool_preserves wf).
    + intros e1 H1 H2 H3 H4 H5 _. split.
      * apply (map_wf_ext e); try done. by rewrite H4.
      * by apply (sel_in_group_ext e).
    + intros e1 [Hm1 Hs1]. split;
        [by apply deleteSelectedFeature_map_wf
        |by apply deleteSelectedFeature_sel].
  - case_bool_decide as Hn; [|done]. injection Hfire as <-. split.
    + apply toggleLayer_map_wf; [|done]. intros ->.
      unfold checkboxLayers in Hn. set_solver.
    + apply (sel_in_group_ext e);
        [apply toggleLayer_mapLayers|apply toggleLayer_selectedFeature|done].
  - destruct (map_hasLayer layer e) eqn:Hon; [|done].
    repeat case_match; try done. injection Hfire as <-. split.
    + by apply selectFeature_map_wf.
    + apply selectFeature_sel. destruct Hm as (Hmap & _).
      apply Hmap. unfold map_hasLayer in Hon.
      by apply bool_decide_eq_true in Hon.
  - injection Hfire as <-. split;
      [by apply deselectFeature_map_wf|apply deselectFeature_sel].
  - injection Hfire as <-. split;
      [by apply (map_wf_ext e)|by apply (sel_in_group_ext e)].
  - case_match; [|done]. injection Hfire as <-.
    destruct (saveAttributes_core e) as (? & ? & ? & _ & ? & ?). split;
      [by apply (map_wf_ext e)|by apply (sel_in_group_ext e)].
  - case_match; [|done]. injection Hfire as <-. split;
      [by apply deleteSelectedFeature_map_wf
      |by apply deleteSelectedFeature_sel].
  - case_match; [|done].
    destruct (new_shape (mkShape style None None latlngs false) e)
      as [layer e1] eqn:Hnew.
    injection Hfire as <-.
    pose proof (new_shape_map_wf (mkShape style None None latlngs false) e Hm)
      as Hm1.
    rewrite Hnew in Hm1. unfold new_shape in Hnew. injection Hnew as <- <-.
    split; [|apply handleDrawCreated_sel].
    apply handleDrawCreated_map_wf; [|exact Hm1].
    proj. rewrite dom_insert_L. by apply elem_of_union_l, elem_of_singleton.
  - injection Hfire as <-.
    destruct (toolkit_move_core moved e) as (? & ? & ? & _ & ? & _ & ?).
    split; [by apply (map_wf_ext e)|by apply (sel_in_group_ext e)].
  - injection Hfire as <-. unfold handleDrawDeleted.
    assert (map_wf (fold_left toolkit_remove removed e)) as Hm1.
    { apply (fold_left_preserves map_wf); [|done].
      intros e1 i. apply toolkit_remove_map_wf. }
    split.
    + apply (map_wf_ext (deselectFeature (fold_left toolkit_remove removed e)));
        [reflexivity..|].
      by apply deselectFeature_map_wf.
    + apply (sel_in_group_ext
               (deselectFeature (fold_left toolkit_remove removed e)));
        [reflexivity..|]. apply deselectFeature_sel.
Qed.

Lemma init_wf : wf init.
Proof.
  split; [split; [|split]|].
  - intros i Hi. by apply not_elem_of_empty in Hi.
  - unfold drawn_on_map. vm_compute. set_solver.
  - intros n i Hi. exfalso. revert Hi. unfold group, init. proj.
    destruct (_ !! n) as [g|] eqn:Hg; simpl; [|apply not_elem_of_empty].
    assert (g = ∅) as ->; [|apply not_elem_of_empty].
    revert Hg. rewrite !lookup_insert, lookup_singleton.
    repeat case_decide; congruence.
  - intros sel Hsel. done.
Qed.

Lemma reachable_wf e : reachable e -> wf e.
Proof.
  induction 1 as [|e ev e' _ IH Hfire]; [apply init_wf|by eapply fire_wf].
Qed.

End ShapesInGroups.

(** *** A layer whose fetch has not settled has an empty group *)

Section PendingLoads.

Context `{browser : Browser}.

Lemma pending_empty_shrink e e' :
  pending_loads e' ⊆ pending_loads e ->
  (forall n, n ∈ pending_loads e' -> n <> "drawn" -> group n e' ⊆ group n e) ->
  pending_empty e -> pending_empty e'.
Proof.
  intros Hp Hg He n Hn. destruct (He n (Hp n Hn)) as [Hd Hempty].
  split; [done|]. apply leibniz_equiv, equiv_empty.
  rewrite <- Hempty. by apply Hg.
Qed.

Lemma deleteSelectedFeature_pending c e :
  pending_empty e -> pending_empty (deleteSelectedFeature c e).
Proof.
  destruct (deleteSelectedFeature_cases c e) as [ -> | [ -> [sel Hsel] ] ];
    [done|].
  destruct (deleteSelectedFeature_confirmed e sel Hsel)
    as (_ & Hgr & _ & _ & _ & _ & Hp & _).
  intros He. apply (pending_empty_shrink e); [by rewrite Hp| |done].
  intros n _ _. rewrite Hgr. case_decide; [|done].
  apply subseteq_difference_l. done.
Qed.

Lemma toolkit_remove_group removed e n :
  n <> "drawn" -> group n (fold_left toolkit_remove removed e) = group n e.
Proof.
  intros Hn.
  apply (fold_left_preserves (fun e1 => group n e1 = group n e)); [|done].
  intros e1 i <-. unfold toolkit_remove. rewrite group_removeLayer_eq.
  change (group n (with_mapLayers
                     (<[ "drawn" := group "drawn" e1 ∖ {[ i ]} ]> (mapLayers e1))
                     e1) = group n e1).
  rewrite group_insert. by rewrite decide_False.
Qed.

Lemma fire_pending ev e e' :
  pending_empty e -> fire ev e = Some e' -> pending_empty e'.
Proof.
  intros He Hfire. destruct ev; simpl in Hfire.
  - case_bool_decide; [|done]. injection Hfire as <-.
    set (P := fun e1 : Editor =>
                pending_loads e1 = pending_loads e ∖ {[ layerName ]}
                /\ forall n, n ∈ pending_loads e1 -> group n e1 = ∅).
    assert (P (loadGeoJSONLayer layerName r
                 (with_pending_loads (pending_loads e ∖ {[ layerName ]}) e)))
      as [Hp Hg].
    { apply (loadGeoJSONLayer_preserves P).
      - intros ft e1 e2 Ha [Hp1 Hg1].
        pose proof (fun n => adds_pair_group layerName ft e1 e2 n Ha) as Hgr.
        destruct Ha as (_ & _ & _ & _ & _ & _ & _ & _ & _ & _ & Hp2 & _).
        split; [by rewrite Hp2|].
        intros n Hn. rewrite Hp2 in Hn. rewrite Hgr.
        rewrite decide_False; [by apply Hg1|].
        intros <-. rewrite Hp1 in Hn.
        apply elem_of_difference in Hn as [_ Hn].
        by apply Hn, elem_of_singleton.
      - intros msg ty e1 [Hp1 Hg1]. split; [exact Hp1|exact Hg1].
      - split; [reflexivity|]. intros n Hn. proj.
        apply elem_of_difference in Hn as [Hn _].
        by destruct (He n Hn). }
    intros n Hn. split; [|by apply Hg].
    rewrite Hp in Hn. apply elem_of_difference in Hn as [Hn _].
    by destruct (He n Hn).
  - case_bool_decide; [|done]. injection Hfire as <-.
    apply (setActiveTool_preserves pending_empty).
    + intros e1 H1 _ _ _ _ H6.
      apply (pending_empty_shrink e); [by rewrite H6| |done].
      intros k _ _. unfold group. by rewrite H1.
    + intros e1. apply deleteSelectedFeature_pending.
  - case_bool_decide; [|done]. injection Hfire as <-.
    apply (pending_empty_shrink e); [by rewrite toggleLayer_eq| |done].
    intros k _ _. unfold group. by rewrite toggleLayer_mapLayers.
  - repeat case_match; try done. injection Hfire as <-.
    match goal with
    | |- pending_empty (selectFeature ?f ?i ?ln ?n e) =>
        destruct (selectFeature_core f i ln n e) as (Hm & _ & _ & Hp & _)
    end.
    apply (pending_empty_shrink e); [by rewrite Hp| |done].
    intros k _ _. unfold group. by rewrite Hm.
  - injection Hfire as <-.
    destruct (deselectFeature_core e) as (Hm & _ & _ & Hp & _).
    apply (pending_empty_shrink e); [by rewrite Hp| |done].
    intros k _ _. unfold group. by rewrite Hm.
  - injection Hfire as <-. by apply (pending_empty_shrink e).
  - case_match; [|done]. injection Hfire as <-.
    destruct (saveAttributes_core e) as (Hm & _ & _ & Hp & _).
    apply (pending_empty_shrink e); [by rewrite Hp| |done].
    intros k _ _. unfold group. by rewrite Hm.
  - case_match; [|done]. injection Hfire as <-.
    by apply deleteSelectedFeature_pending.
  - case_match; [|done]. unfold new_shape in Hfire. injection Hfire as <-.
    edestruct handleDrawCreated_eq as (_ & _ & _ & _ & _ & _ & _ & Hp & _).
    apply (pending_empty_shrink e); [rewrite Hp; reflexivity| |done].
    intros k _ Hn. rewrite handleDrawCreated_group.
    by rewrite decide_False.
  - injection Hfire as <-.
    destruct (toolkit_move_core moved e) as (Hm & _ & _ & Hp & _).
    apply (pending_empty_shrink e); [by rewrite <- Hp| |done].
    intros k _ _. unfold group. by rewrite <- Hm.
  - injection Hfire as <-.
    destruct (toolkit_remove_shapes removed e) as (_ & _ & Hp & _).
    unfold handleDrawDeleted.
    apply (pending_empty_shrink e).
    + change (pending_loads (deselectFeature (fold_left toolkit_remove removed e))
              ⊆ pending_loads e).
      destruct (deselectFeature_core (fold_left toolkit_remove removed e))
        as (_ & _ & _ & -> & _). by rewrite Hp.
    + intros k _ Hn.
      change (group k (deselectFeature (fold_left toolkit_remove removed e))
              ⊆ group k e).
      destruct (deselectFeature_core (fold_left toolkit_remove removed e))
        as (Hm & _). unfold group at 1. rewrite Hm.
      fold (group k (fold_left toolkit_remove removed e)).
      by rewrite toolkit_remove_group.
    + done.
Qed.

Lemma reachable_pending e : reachable e -> pending_empty e.
Proof.
  induction 1 as [|e ev e' _ IH Hfire]; [|by eapply fire_pending].
  intros n Hn. unfold init in Hn. proj. unfold geojsonFiles in Hn.
  rewrite !dom_insert_L, dom_singleton_L in Hn.
  assert (n ∈ ["households"; "facilities"; "roads"; "boundary"]) as Hin
    by set_solver.
  clear Hn.
  repeat (apply elem_of_cons in Hin as [->|Hin];
          [split; [done|vm_compute; reflexivity]|]).
  by apply elem_of_nil in Hin.
Qed.

End PendingLoads.

(** ** Filling a group *)

Section FillingAGroup.

Context `{browser : Browser}.

Section Filling.

Context {A : Type} (op : Editor -> A -> Editor) (feat : A -> Feature)
        (layerName : string).
Hypothesis op_adds : forall e x, adds_pair layerName (feat x) e (op e x).

Lemma fold_keeps_feature xs e i ft :
  feature_of_shape i e = Some ft ->
  feature_of_shape i (fold_left op xs e) = Some ft.
Proof.
  intros Hi.
  apply (fold_left_preserves (fun e1 => feature_of_shape i e1 = Some ft));
    [|done].
  intros e1 x He1. by eapply adds_pair_old.
Qed.

Lemma op_dom e x :
  dom (shapes (op e x)) = {[ fresh (dom (shapes e)) ]} ∪ dom (shapes e).
Proof.
  destruct (op_adds e x) as (sh & -> & _). apply dom_insert_L.
Qed.

(** One new shape per element, in order, each carrying its feature; the
    other groups are left alone. *)
Lemma fold_adds xs : forall e,
  exists refs : list sref,
    length refs = length xs
    /\ NoDup refs
    /\ (forall i, i ∈ refs -> i ∉ dom (shapes e))
    /\ group layerName (fold_left op xs e)
       = group layerName e ∪ list_to_set refs
    /\ (forall n, n <> layerName -> group n (fold_left op xs e) = group n e)
    /\ Forall2 (fun i x => feature_of_shape i (fold_left op xs e)
                           = Some (feat x)) refs xs
    /\ dom (shapes e) ⊆ dom (shapes (fold_left op xs e)).
Proof.
  induction xs as [|x xs IH]; intros e.
  - exists []. simpl. repeat split; try done.
    + constructor.
    + intros i Hi. by apply elem_of_nil in Hi.
    + by rewrite (right_id_L ∅ (∪)).
  - destruct (IH (op e x)) as (refs & Hlen & Hnd & Hfresh & Hg & Ho & Hf & Hd).
    pose proof (op_dom e x) as Hdom.
    set (i := fresh (dom (shapes e))) in *.
    assert (i ∈ dom (shapes (op e x))) as Hi
      by (rewrite Hdom; by apply elem_of_union_l, elem_of_singleton).
    exists (i :: refs). simpl. split; [by rewrite Hlen|].
    split; [constructor; [|done]; intros Hin; by apply (Hfresh i)|].
    split.
    { intros j [->|Hj]%elem_of_cons; [apply is_fresh|].
      intros Hje. apply (Hfresh j Hj). rewrite Hdom.
      by apply elem_of_union_r. }
    split.
    { rewrite Hg, (adds_pair_group _ _ _ _ _ (op_adds e x)).
      rewrite decide_True by done. fold i. by rewrite (assoc_L (∪)). }
    split.
    { intros n Hn. rewrite (Ho n Hn).
      rewrite (adds_pair_group _ _ _ _ _ (op_adds e x)).
      by rewrite decide_False. }
    split.
    { constructor; [|done]. apply fold_keeps_feature.
      by apply (adds_pair_new _ _ _ _ (op_adds e x)). }
    etrans; [|exact Hd]. rewrite Hdom. apply union_subseteq_r.
Qed.

End Filling.

Lemma createSampleData_households e :
  exists refs : list sref,
    length refs = 3%nat
    /\ NoDup refs
    /\ (forall i, i ∈ refs -> i ∉ dom (shapes e))
    /\ group "households" (createSampleData "households" e)
       = group "households" e ∪ list_to_set refs
    /\ (forall n, n <> "households" ->
          group n (createSampleData "households" e) = group n e)
    /\ Forall2 (fun i x => feature_of_shape i
                             (createSampleData "households" e)
                           = Some (sampleFeature x)) refs sampleHouseholds.
Proof.
  destruct (fold_adds (addSample "households") sampleFeature "households"
              (addSample_adds_pair "households") sampleHouseholds e)
    as (refs & Hl & Hnd & Hf & Hg & Ho & HF & _).
  exists refs. repeat split; done.
Qed.

Lemma createSampleData_other layerName e :
  layerName <> "households" -> createSampleData layerName e = e.
Proof.
  intros Hn. unfold createSampleData.
  destruct (String.eqb_spec layerName "households"); [done|reflexivity].
Qed.

(** After a successful load the group has gained one shape per feature of
    the response, each carrying its feature. *)
Lemma addGeoJSONToMap_one_shape_each data layerName e :
  exists refs : list sref,
    length refs = length data
    /\ NoDup refs
    /\ (forall i, i ∈ refs -> i ∉ dom (shapes e))
    /\ group layerName (addGeoJSONToMap data layerName e)
       = group layerName e ∪ list_to_set refs
    /\ Forall2 (fun i ft => feature_of_shape i
                              (addGeoJSONToMap data layerName e)
                            = Some ft) refs data.
Proof.
  destruct (fold_adds (onEachFeature layerName) (fun ft => ft) layerName
              (onEachFeature_adds_pair layerName) data e)
    as (refs & Hl & Hnd & Hf & Hg & Ho & HF & _).
  exists refs. repeat split; done.
Qed.

End FillingAGroup.

(** ** Click handlers *)

Section ClickHandlers.

Context `{browser : Browser}.

Lemma setStyle_click j i w c e : click_of j (setStyle i w c e) = click_of j e.
Proof.
  unfold click_of, setStyle. proj. rewrite lookup_alter.
  case_decide; [subst j|reflexivity].
  destruct (shapes e !! i) as [sh|]; reflexivity.
Qed.

Lemma restorePrevious_click j e : click_of j (restorePrevious e) = click_of j e.
Proof.
  unfold restorePrevious. repeat case_match; try done. apply setStyle_click.
Qed.

Lemma highlight_click j i e : click_of j (highlight i e) = click_of j e.
Proof. unfold highlight. case_match; [apply setStyle_click|done]. Qed.

Lemma selectFeature_click j f i ln n e :
  click_of j (selectFeature f i ln n e) = click_of j e.
Proof.
  change (click_of j (selectFeature f i ln n e))
    with (click_of j (highlight i (storeSelection f i ln (restorePrevious e)))).
  rewrite highlight_click.
  change (click_of j (storeSelection f i ln (restorePrevious e)))
    with (click_of j (restorePrevious e)).
  apply restorePrevious_click.
Qed.

Lemma draw_chain_click f layer p msg e :
  layer ∈ dom (shapes e) ->
  click_of layer
    (setActiveTool "select" false
       (showNotification msg "success"
          (selectFeature f layer "drawn" true
             (bindPopup layer p (onClick layer f "drawn" e)))))
  = Some (f, "drawn").
Proof.
  intros [sh Hsh]%elem_of_dom. unfold click_of at 1.
  destruct (setActiveTool_select_core false
              (showNotification msg "success"
                 (selectFeature f layer "drawn" true
                    (bindPopup layer p (onClick layer f "drawn" e)))))
    as (-> & _).
  rewrite showNotification_shapes.
  pose proof (selectFeature_click layer f layer "drawn" true
                (bindPopup layer p (onClick layer f "drawn" e))) as Hc.
  unfold click_of at 1 in Hc. rewrite Hc. unfold click_of, bindPopup, onClick. proj.
  rewrite !lookup_alter_eq, Hsh. reflexivity.
Qed.

Lemma handleDrawCreated_click layer layerType now e :
  layer ∈ dom (shapes e) ->
  click_of layer (handleDrawCreated layer layerType now e)
  = Some (fresh (dom (features e)), "drawn").
Proof.
  intros Hl. unfold handleDrawCreated, new_feature. cbv zeta.
  rewrite draw_chain_click; [rewrite group_addLayer_eq; reflexivity|].
  by rewrite group_addLayer_eq.
Qed.

Lemma feature_of_shape_click i e :
  feature_of_shape i e = click_of i e ≫= (fun p => features e !! p.1).
Proof. reflexivity. Qed.

Lemma deleteSelectedFeature_modes c e :
  modes (deleteSelectedFeature c e) = modes e
  /\ draw_toolbar_shown (page (deleteSelectedFeature c e))
     = draw_toolbar_shown (page e)
  /\ current_tool_text (page (deleteSelectedFeature c e))
     = current_tool_text (page e).
Proof.
  destruct (selectedFeature e) as [sel|] eqn:Hsel;
    [|by rewrite deleteSelectedFeature_none].
  destruct c; [|by rewrite deleteSelectedFeature_unconfirmed].
  unfold deleteSelectedFeature. rewrite Hsel. cbn [negb]. cbv zeta.
  rewrite map_removeLayer_if, hasLayer_guard.
  fold (drop_from (sel_layerName sel) (sel_layer sel)
          (with_map_shapes (map_shapes e ∖ {[ sel_layer sel ]}) e)).
  set (e1 := with_map_shapes (map_shapes e ∖ {[ sel_layer sel ]}) e).
  set (e2 := drop_from (sel_layerName sel) (sel_layer sel) e1).
  fold (drop_from "drawn" (sel_layer sel) e2).
  set (e3 := drop_from "drawn" (sel_layer sel) e2).
  assert (modes e3 = modes e
          /\ draw_toolbar_shown (page e3) = draw_toolbar_shown (page e)
          /\ current_tool_text (page e3) = current_tool_text (page e)) as He3.
  { pose proof (drop_from_only "drawn" (sel_layer sel) e2) as H3.
    pose proof (drop_from_only (sel_layerName sel) (sel_layer sel) e1) as H2.
    fold e3 in H3. fold e2 in H2. rewrite H3, H2. done. }
  unfold showNotification. rewrite deselectFeature_eq. exact He3.
Qed.

Lemma onEachFeature_modes ln e ft : modes (onEachFeature ln e ft) = modes e.
Proof.
  unfold onEachFeature, new_feature, new_shape, bindPopup, onClick.
  rewrite group_addLayer_eq. reflexivity.
Qed.

Lemma addSample_modes ln e h : modes (addSample ln e h) = modes e.
Proof.
  unfold addSample, new_feature, new_shape, bindPopup, onClick.
  rewrite group_addLayer_eq. reflexivity.
Qed.

Lemma loadGeoJSONLayer_modes ln r e : modes (loadGeoJSONLayer ln r e) = modes e.
Proof.
  assert (forall e0, modes (createSampleData ln e0) = modes e0) as Hs.
  { intros e0. unfold createSampleData. case_match; [|done].
    apply (fold_left_preserves (fun e1 => modes e1 = modes e0)); [|done].
    intros e1 x <-. apply addSample_modes. }
  destruct r; simpl; rewrite ?Hs; try reflexivity.
  unfold addGeoJSONToMap.
  apply (fold_left_preserves (fun e1 => modes e1 = modes e)); [|done].
  intros e1 x <-. apply onEachFeature_modes.
Qed.

Lemma toolkit_move_modes moved e :
  modes (fold_left toolkit_move moved e) = modes e.
Proof.
  apply (fold_left_preserves (fun e1 => modes e1 = modes e)); [|done].
  intros e1 m <-. unfold toolkit_move. by case_match.
Qed.

Lemma toolkit_remove_modes removed e :
  modes (fold_left toolkit_remove removed e) = modes e.
Proof.
  apply (fold_left_preserves (fun e1 => modes e1 = modes e)); [|done].
  intros e1 m <-. unfold toolkit_remove. by rewrite group_removeLayer_eq.
Qed.





End ClickHandlers.

Section ClickHandlersScenarios.

Local Existing Instance plain_browser.

Lemma before_marker_reachable : reachable before_marker.
Proof.
  apply (run_reachable
           [Loaded "households" (FetchStatus 500); ToolButton "marker" false]
           init); [apply reachable_init|].
  vm_compute. reflexivity.
Qed.


End ClickHandlersScenarios.

(** ** A load that fails *)

Section FailedLoad.

Context `{browser : Browser}.

Lemma loadGeoJSONLayer_failed layerName r e :
  fetch_failed r = true ->
  loadGeoJSONLayer layerName r e
  = createSampleData layerName
      (showNotification ("Error loading " +:+ layerName +:+ " data") "error" e).
Proof. by destruct r. Qed.

Lemma three_refs (i1 i2 i3 : sref) :
  (∅ : gset sref) ∪ list_to_set [i1; i2; i3] = {[ i1; i2; i3 ]}.
Proof. set_solver. Qed.

(** C2.  A fetch that settles as a failure (a response that is not ok, a
    body that does not parse, or a rejected request) in a reachable state:
    for households the group ends up with exactly three shapes, which
    carry the three sample features, ids 101, 102 and 103; for any other
    layer name the group is empty, and groups, shapes and features are as
    they were. *)
Theorem failed_load_fallback (e e' : Editor) (layerName : string)
    (r : FetchResult) :
  reachable e -> fetch_failed r = true ->
  fire (Loaded layerName r) e = Some e' ->
  (layerName = "households" ->
   exists i1 i2 i3,
     NoDup [i1; i2; i3]
     /\ group "households" e' = {[ i1; i2; i3 ]}
     /\ size (group "households" e') = 3%nat
     /\ feature_of_shape i1 e' ::
        feature_of_shape i2 e' :: feature_of_shape i3 e' :: []
        = Some <$> (sampleFeature <$> sampleHouseholds)
     /\ feature_id e' <$> [i1; i2; i3]
        = [Some (VNum 101); Some (VNum 102); Some (VNum 103)])
  /\ (layerName <> "households" ->
      group layerName e' = ∅
      /\ mapLayers e' = mapLayers e
      /\ shapes e' = shapes e
      /\ features e' = features e).
Proof.
  intros Hr Hfail Hfire. simpl in Hfire.
  case_bool_decide as Hpend; [|done]. injection Hfire as <-.
  destruct (reachable_pending e Hr layerName Hpend) as [_ Hempty].
  rewrite (loadGeoJSONLayer_failed _ _ _ Hfail).
  split.
  - intros ->.
    match goal with
    | |- context [createSampleData _ ?e0] =>
        destruct (createSampleData_households e0)
          as (refs & Hlen & Hnd & _ & Hg & _ & HF);
        change (group "households" e0) with (group "households" e) in Hg
    end.
    rewrite Hempty in Hg.
    destruct refs as [|i1 [|i2 [|i3 [|? ?]]]]; try done.
    exists i1, i2, i3. split; [exact Hnd|].
    rewrite three_refs in Hg. split; [exact Hg|].
    split.
    { rewrite Hg, <- three_refs, (left_id_L ∅ (∪)).
      by rewrite size_list_to_set. }
    apply Forall2_cons_1 in HF as [H1 HF].
    apply Forall2_cons_1 in HF as [H2 HF].
    apply Forall2_cons_1 in HF as [H3 _].
    split.
    + rewrite H1, H2, H3. reflexivity.
    + unfold feature_id. cbn [fmap list_fmap]. rewrite H1, H2, H3.
      vm_compute. reflexivity.
  - intros Hn. rewrite (createSampleData_other _ _ Hn).
    repeat split; try reflexivity. exact Hempty.
Qed.

End FailedLoad.

Section FailedLoadScenarios.

Local Existing Instance plain_browser.

Lemma households_failed_fire :
  fire (Loaded "households" (FetchStatus 500)) init = Some households_failed.
Proof. vm_compute. reflexivity. Qed.

Lemma roads_failed_fire :
  fire (Loaded "roads" FetchParseError) households_failed = Some roads_failed.
Proof. vm_compute. reflexivity. Qed.

Lemma failed_load_fallback_witness :
  size (group "households" households_failed) = 3%nat
  /\ group "roads" roads_failed = ∅
  /\ mapLayers roads_failed = mapLayers households_failed.
Proof.
  destruct (failed_load_fallback init households_failed "households"
              (FetchStatus 500) reachable_init eq_refl households_failed_fire)
    as [Hh _].
  destruct (Hh eq_refl) as (i1 & i2 & i3 & _ & _ & Hsz & _).
  split; [exact Hsz|].
  assert (reachable households_failed) as Hr
    by (eapply reachable_fire;
        [apply reachable_init|exact households_failed_fire]).
  destruct (failed_load_fallback households_failed roads_failed "roads"
              FetchParseError Hr eq_refl roads_failed_fire) as [_ Ho].
  assert ("roads" <> "households") as Hne by done.
  destruct (Ho Hne) as (Hg & Hm & _).
  split; [exact Hg|exact Hm].
Defined.

End FailedLoadScenarios.

(** ** The selection *)

Section TheSelection.

Context `{browser : Browser}.

(** C7.  The selection is an optional triple, so there is never more than
    one.  In every reachable state the selected shape is in some group.
    Each operation keeps it so: [selectFeature] on a shape that is in a
    group (its click handler only fires for a shape on the map, and a
    newly drawn shape has just been put in the drawn-items group),
    [deselectFeature] and a draw-deleted event, which leave no selection,
    [deleteSelectedFeature], and a draw-created event. *)
Theorem selection_in_some_group :
  (forall e sel sel',
     selectedFeature e = Some sel -> selectedFeature e = Some sel' -> sel = sel')
  /\ (forall e, reachable e -> sel_in_group e)
  /\ (forall e ev e', wf e -> fire ev e = Some e' -> wf e')
  /\ (forall e f i ln isNew,
        in_some_group i e -> sel_in_group (selectFeature f i ln isNew e))
  /\ (forall e layer e',
        map_in_group e -> fire (ShapeClick layer) e = Some e' -> sel_in_group e')
  /\ (forall e, sel_in_group (deselectFeature e)
                /\ selectedFeature (deselectFeature e) = None)
  /\ (forall e confirmed,
        sel_in_group e -> sel_in_group (deleteSelectedFeature confirmed e))
  /\ (forall e layerType style latlngs now e',
        fire (DrawCreated layerType style latlngs now) e = Some e' ->
        sel_in_group e')
  /\ (forall e removed e',
        fire (DrawDeleted removed) e = Some e' ->
        sel_in_group e' /\ selectedFeature e' = None).
Proof.
  split; [intros e sel sel' -> [= ->]; reflexivity|].
  split; [intros e Hr; by destruct (reachable_wf e Hr)|].
  split; [intros e ev e'; apply fire_wf|].
  split; [intros e f i ln isNew; apply selectFeature_sel|].
  split.
  { intros e layer e' Hm Hfire. simpl in Hfire.
    destruct (map_hasLayer layer e) eqn:Hon; [|done].
    repeat case_match; try done. injection Hfire as <-.
    apply selectFeature_sel, Hm.
    unfold map_hasLayer in Hon. by apply bool_decide_eq_true in Hon. }
  split.
  { intros e. split; [apply deselectFeature_sel|].
    by destruct (deselectFeature_core e) as (_ & _ & _ & _ & _ & -> & _). }
  split; [intros e c; apply deleteSelectedFeature_sel|].
  split.
  { intros e layerType style latlngs now e' Hfire. simpl in Hfire.
    case_match; [|done]. unfold new_shape in Hfire. injection Hfire as <-.
    apply handleDrawCreated_sel. }
  intros e removed e' Hfire. simpl in Hfire. injection Hfire as <-.
  unfold handleDrawDeleted.
  destruct (deselectFeature_core (fold_left toolkit_remove removed e))
    as (_ & _ & _ & _ & _ & Hs & _).
  split; [|exact Hs].
  intros sel Hsel. change (selectedFeature (showNotification ?m ?t ?e1))
                     with (selectedFeature e1) in Hsel.
  by rewrite Hs in Hsel.
Qed.

End TheSelection.

Section TheSelectionScenarios.

Local Existing Instance plain_browser.

Lemma after_tour_reachable k : reachable (after_tour k).
Proof.
  unfold after_tour, play.
  destruct (run (take k selection_tour) init) as [e|] eqn:Hrun;
    [|apply reachable_init].
  by apply (run_reachable (take k selection_tour) init e reachable_init).
Qed.

Lemma selection_in_some_group_witness :
  selectedFeature (after_tour 2) = Some (mkSelection 1 1 "households")
  /\ in_some_group 1 (after_tour 2)
  /\ selectedFeature (after_tour 3) = Some (mkSelection 3 3 "drawn")
  /\ in_some_group 3 (after_tour 3)
  /\ selectedFeature (after_tour 5) = None.
Proof.
  destruct selection_in_some_group as (_ & Hreach & _).
  split; [vm_compute; reflexivity|].
  split; [apply (Hreach (after_tour 2) (after_tour_reachable 2)
                   (mkSelection 1 1 "households")); vm_compute; reflexivity|].
  split; [vm_compute; reflexivity|].
  split; [apply (Hreach (after_tour 3) (after_tour_reachable 3)
                   (mkSelection 3 3 "drawn")); vm_compute; reflexivity|].
  vm_compute. reflexivity.
Defined.

End TheSelectionScenarios.

(** ** Selecting one feature after another *)

Section SelectingInTurn.

Context `{browser : Browser}.

Lemma none_highlighted_at_most_one e :
  (forall j, ~ highlighted j e) -> at_most_one_highlight e.
Proof. intros Hn i j Hi. by destruct (Hn i). Qed.

Lemma only_highlighted_at_most_one e b :
  (forall j, highlighted j e -> j = b) -> at_most_one_highlight e.
Proof. intros Hb i j Hi Hj. by rewrite (Hb i Hi), (Hb j Hj). Qed.

Lemma restorePrevious_fill e j st :
  style_of j e = Some st ->
  exists st', style_of j (restorePrevious e) = Some st'
              /\ fillColor st' = fillColor st.
Proof.
  intros Hst. rewrite restorePrevious_style.
  destruct (selectedFeature e) as [sel|]; [|by exists st].
  case_decide; [|by exists st]. rewrite Hst. by eexists.
Qed.

Lemma restorePrevious_None e j :
  style_of j e = None -> style_of j (restorePrevious e) = None.
Proof.
  intros Hst. rewrite restorePrevious_style.
  destruct (selectedFeature e) as [sel|]; [|done].
  case_decide; [|done]. by rewrite Hst.
Qed.

(** C3, as the code has it.  [selectFeature] on A and then on a different
    shape B, from a reachable state.  The second call first puts A back to
    the unselected outline of its layer (weight 2, the layer's colour, or
    ['#3388ff'] for a layer without one), at which point no shape has the
    selection outline; only then does B get it (weight 4, ['#ff0000']).
    This holds for shapes that can be styled; a shape without [setStyle]
    (a marker placed with the drawing toolkit) is never restyled.  In
    every state the controller goes through, at most one shape has the
    selection outline. *)
Theorem select_A_then_B (e : Editor) (fa : fref) (a : sref) (la : string)
    (na : bool) (fb : fref) (b : sref) (lb : string) (nb : bool) :
  reachable e -> a <> b ->
  let eA := selectFeature fa a la na e in
  let r := restorePrevious eA in
  let s := storeSelection fb b lb r in
  let h := highlight b s in
  let eB := showSelection fb lb nb h in
  selectFeature fb b lb nb eA = eB
  /\ (forall st, style_of a e = Some st ->
        style_of a eA = Some (mkStyle 4 "#ff0000" (fillColor st))
        /\ style_of a r = Some (mkStyle 2 (normal_color la) (fillColor st))
        /\ style_of a eB = Some (mkStyle 2 (normal_color la) (fillColor st)))
  /\ (style_of a e = None -> style_of a eA = None /\ style_of a eB = None)
  /\ (forall j, ~ highlighted j r)
  /\ (forall j, ~ highlighted j s)
  /\ (forall st, style_of b e = Some st ->
        style_of b h = Some (mkStyle 4 "#ff0000" (fillColor st))
        /\ highlighted b eB)
  /\ (style_of b e = None -> style_of b eB = None)
  /\ selectedFeature eB = Some (mkSelection fb b lb)
  /\ Forall at_most_one_highlight [eA; r; s; h; eB].
Proof.
  intros Hr Hab eA r s h eB.
  assert (hl_is_sel eA) as HA by apply selectFeature_hl, reachable_hl, Hr.
  assert (forall j, ~ highlighted j r) as Hnone
    by (intros j; by apply restorePrevious_clears).
  assert (selectedFeature eA = Some (mkSelection fa a la)) as HselA
    by apply selectFeature_core.
  assert (forall j, style_of j r
                    = if decide (a = j)
                      then outline 2 (normal_color la) <$> style_of j eA
                      else style_of j eA) as Hr_style.
  { intros j. unfold r. rewrite restorePrevious_style, HselA. reflexivity. }
  assert (forall j, style_of j h
                    = if decide (b = j) then outline 4 "#ff0000" <$> style_of j r
                      else style_of j r) as Hh_style.
  { intros j. unfold h. rewrite highlight_style. reflexivity. }
  assert (forall j, style_of j eA
                    = if decide (a = j)
                      then outline 4 "#ff0000" <$> style_of j (restorePrevious e)
                      else style_of j (restorePrevious e)) as HA_style.
  { intros j. unfold eA. apply selectFeature_style. }
  split; [reflexivity|].
  split.
  { intros st Hst.
    destruct (restorePrevious_fill e a st Hst) as (st' & Hst' & Hfill).
    assert (style_of a eA = Some (mkStyle 4 "#ff0000" (fillColor st))) as H1.
    { rewrite HA_style, decide_True, Hst' by done. simpl.
      unfold outline. by rewrite Hfill. }
    assert (style_of a r = Some (mkStyle 2 (normal_color la) (fillColor st)))
      as H2.
    { rewrite Hr_style, decide_True, H1 by done. reflexivity. }
    split; [exact H1|]. split; [exact H2|].
    change (style_of a eB) with (style_of a h).
    rewrite Hh_style, decide_False by done. exact H2. }
  split.
  { intros Hst. pose proof (restorePrevious_None e a Hst) as Hst'.
    assert (style_of a eA = None) as H1
      by (rewrite HA_style, decide_True, Hst' by done; reflexivity).
    split; [exact H1|].
    change (style_of a eB) with (style_of a h).
    rewrite Hh_style, decide_False, Hr_style, decide_True, H1 by done.
    reflexivity. }
  split; [exact Hnone|].
  split; [exact Hnone|].
  assert (style_of b r = style_of b (restorePrevious e)) as Hb_r.
  { rewrite Hr_style, decide_False, HA_style, decide_False by done.
    reflexivity. }
  split.
  { intros st Hst.
    destruct (restorePrevious_fill e b st Hst) as (st' & Hst' & Hfill).
    assert (style_of b h = Some (mkStyle 4 "#ff0000" (fillColor st))) as H1.
    { rewrite Hh_style, decide_True, Hb_r, Hst' by done. simpl.
      unfold outline. by rewrite Hfill. }
    split; [exact H1|]. eexists. split; [exact H1|reflexivity]. }
  split.
  { intros Hst. change (style_of b eB) with (style_of b h).
    rewrite Hh_style, decide_True, Hb_r by done.
    by rewrite (restorePrevious_None e b Hst). }
  split; [change eB with (selectFeature fb b lb nb eA);
          apply selectFeature_core|].
  assert (forall j, highlighted j h -> j = b) as Honly.
  { intros j (st & Hst & Hh). rewrite Hh_style in Hst.
    case_decide; [done|]. exfalso. apply (Hnone j). by exists st. }
  repeat constructor.
  - by apply hl_is_sel_at_most_one.
  - by apply none_highlighted_at_most_one.
  - by apply none_highlighted_at_most_one.
  - by apply (only_highlighted_at_most_one h b).
  - by apply (only_highlighted_at_most_one eB b).
Qed.

End SelectingInTurn.

Section SelectingInTurnScenarios.

Local Existing Instance plain_browser.

Lemma households_failed_reachable : reachable households_failed.
Proof.
  eapply reachable_fire; [apply reachable_init|exact households_failed_fire].
Qed.

Lemma select_A_then_B_witness :
  let eA := selectFeature 0 0 "households" false households_failed in
  let eB := selectFeature 1 1 "households" false eA in
  style_of 0 households_failed = Some (mkStyle 2 "#000" (Some "#3388ff"))
  /\ style_of 0 eA = Some (mkStyle 4 "#ff0000" (Some "#3388ff"))
  /\ style_of 0 eB = Some (mkStyle 2 (normal_color "households") (Some "#3388ff"))
  /\ highlighted 1 eB
  /\ at_most_one_highlight eB.
Proof.
  assert (style_of 0 households_failed
          = Some (mkStyle 2 "#000" (Some "#3388ff"))) as H0
    by (vm_compute; reflexivity).
  assert (style_of 1 households_failed
          = Some (mkStyle 2 "#000" (Some "#3388ff"))) as H1
    by (vm_compute; reflexivity).
  assert (0%nat <> 1%nat) as Hne by done.
  destruct (select_A_then_B households_failed 0 0 "households" false
              1 1 "households" false households_failed_reachable Hne)
    as (Heq & Ha & _ & _ & _ & Hb & _ & _ & Hall).
  destruct (Ha _ H0) as (HA & _ & HB). destruct (Hb _ H1) as (_ & Hhl).
  cbv zeta. rewrite Heq.
  split; [exact H0|]. split; [exact HA|]. split; [exact HB|].
  split; [exact Hhl|].
  apply Forall_cons_1 in Hall as [_ Hall].
  apply Forall_cons_1 in Hall as [_ Hall].
  apply Forall_cons_1 in Hall as [_ Hall].
  apply Forall_cons_1 in Hall as [_ Hall].
  by apply Forall_cons_1 in Hall as [Hall _].
Defined.

(** The sample household 101 (shape 0) is selected and then the drawn
    marker (shape 3): the marker is the selection, the household is back
    to its unselected outline, and the marker has no outline at all, so
    the selection outline was never applied to it. *)
Lemma select_marker_not_highlighted :
  let eA := selectFeature 0 0 "households" false marker_drawn in
  let eB := selectFeature 3 3 "drawn" false eA in
  run [Loaded "households" (FetchStatus 500);
       DrawCreated "marker" None (Point 125.3185 12.2392) 1700000000000;
       ShapeClick 0; ShapeClick 3] init = Some eB
  /\ selectedFeature eB = Some (mkSelection 3 3 "drawn")
  /\ style_of 0 eB = Some (mkStyle 2 "#3388ff" (Some "#3388ff"))
  /\ style_of 3 eB = None
  /\ ~ highlighted 3 eB.
Proof.
  cbv zeta.
  split; [vm_compute; reflexivity|]. split; [vm_compute; reflexivity|].
  split; [vm_compute; reflexivity|].
  assert (style_of 3 (selectFeature 3 3 "drawn" false
                        (selectFeature 0 0 "households" false marker_drawn))
          = None) as Hnone by (vm_compute; reflexivity).
  split; [exact Hnone|].
  intros (st & Hst & _). rewrite Hnone in Hst. discriminate.
Qed.

End SelectingInTurnScenarios.

(** * Further properties of the editor *)

(** ** A load that succeeds *)

Section SuccessfulLoad.

Context `{browser : Browser}.

Lemma adds_pair_loaded_new ln feature e e' :
  adds_pair ln feature e e' -> loaded_as ln feature (fresh (dom (shapes e))) e'.
Proof.
  intros Ha. split; [by eapply adds_pair_new|].
  destruct Ha as (sh & Hs & Hst & Hc & Hp & _).
  unfold style_of, popup_of, click_of. rewrite Hs, lookup_insert_eq. simpl.
  rewrite Hst, Hp, Hc. done.
Qed.

Lemma adds_pair_loaded_old ln feature e e' ln0 ft0 i :
  adds_pair ln feature e e' -> loaded_as ln0 ft0 i e -> loaded_as ln0 ft0 i e'.
Proof.
  intros Ha (Hf & Hst & Hp & Hc).
  split; [by eapply adds_pair_old|].
  destruct Ha as (sh & Hs & _).
  assert (shapes e' !! i = shapes e !! i) as Hi.
  { rewrite Hs. apply lookup_insert_ne. intros <-.
    unfold style_of in Hst. by rewrite fresh_shape_None in Hst. }
  unfold style_of, popup_of, click_of in *. by rewrite Hi.
Qed.

Section Loading.

Context {A : Type} (op : Editor -> A -> Editor) (feat : A -> Feature)
        (layerName : string).
Hypothesis op_adds : forall e x, adds_pair layerName (feat x) e (op e x).

Lemma fold_keeps_loaded xs e ln0 ft0 i :
  loaded_as ln0 ft0 i e -> loaded_as ln0 ft0 i (fold_left op xs e).
Proof.
  intros Hi. apply (fold_left_preserves (loaded_as ln0 ft0 i)); [|done].
  intros e1 x He1. by eapply adds_pair_loaded_old.
Qed.

Lemma fold_map_mono xs e :
  map_groups (fold_left op xs e) = map_groups e
  /\ map_shapes e ⊆ map_shapes (fold_left op xs e)
  /\ selectedFeature (fold_left op xs e) = selectedFeature e.
Proof.
  apply (fold_left_preserves
           (fun e1 => map_groups e1 = map_groups e
                      /\ map_shapes e ⊆ map_shapes e1
                      /\ selectedFeature e1 = selectedFeature e)); [|done].
  intros e1 x (Hg & Hm & Hs).
  destruct (op_adds e1 x) as (_ & _ & _ & _ & _ & _ & _ & Hms & Hmg & Hsel & _).
  split; [by rewrite Hmg|]. split; [|by rewrite Hsel].
  rewrite Hms. case_bool_decide; [|done].
  etrans; [exact Hm|]. apply union_subseteq_l.
Qed.

(** One new shape per element, in order, each as [loaded_as] describes
    and, when the group is on the map, on the map. *)
Lemma fold_adds_loaded xs : forall e,
  exists refs : list sref,
    length refs = length xs
    /\ NoDup refs
    /\ group layerName (fold_left op xs e)
       = group layerName e ∪ list_to_set refs
    /\ Forall2 (fun i x => loaded_as layerName (feat x) i (fold_left op xs e))
               refs xs
    /\ (layerName ∈ map_groups e ->
        forall i, i ∈ refs -> i ∈ map_shapes (fold_left op xs e))
    /\ (forall i, i ∈ refs -> i ∉ dom (shapes e)).
Proof.
  induction xs as [|x xs IH]; intros e.
  - exists []. simpl. repeat split; try done.
    + constructor.
    + by rewrite (right_id_L ∅ (∪)).
    + intros _ i Hi. by apply elem_of_nil in Hi.
    + intros i Hi. by apply elem_of_nil in Hi.
  - destruct (IH (op e x)) as (refs & Hlen & Hnd & Hg & Hf & Hmap & Hfresh).
    pose proof (op_dom op feat layerName op_adds e x) as Hdom.
    pose proof (op_adds e x) as Ha.
    set (i := fresh (dom (shapes e))) in *.
    assert (i ∈ dom (shapes (op e x))) as Hi
      by (rewrite Hdom; by apply elem_of_union_l, elem_of_singleton).
    exists (i :: refs). simpl. split; [by rewrite Hlen|].
    split; [constructor; [|done]; intros Hin; by apply (Hfresh i)|].
    split.
    { rewrite Hg, (adds_pair_group _ _ _ _ _ Ha).
      rewrite decide_True by done. fold i. by rewrite (assoc_L (∪)). }
    split.
    { constructor; [|done]. apply fold_keeps_loaded.
      by apply adds_pair_loaded_new. }
    split.
    { intros Hon j [->|Hj]%elem_of_cons.
      - destruct (fold_map_mono xs (op e x)) as (_ & Hsub & _).
        apply Hsub.
        destruct Ha as (_ & _ & _ & _ & _ & _ & _ & Hms & _).
        rewrite Hms, bool_decide_eq_true_2 by done.
        by apply elem_of_union_r, elem_of_singleton.
      - apply Hmap; [|done].
        destruct Ha as (_ & _ & _ & _ & _ & _ & _ & _ & Hmg & _).
        by rewrite Hmg. }
    intros j [->|Hj]%elem_of_cons; [apply is_fresh|].
    intros Hje. apply (Hfresh j Hj). rewrite Hdom. by apply elem_of_union_r.
Qed.

End Loading.

(** X1.  A fetch that settles with a feature collection, in a reachable
    state: the layer's group ends up with exactly one new shape per
    feature of the response, in the order of the response; each carries
    its feature, has the unselected outline of a loaded shape ([weight] 2,
    ['#000'], filled with the layer's colour), a popup rendered for its
    feature, and a click handler that selects under the layer's name; when
    the group is shown, the shapes are on the map.  The other groups and
    the selection are as they were. *)
Theorem successful_load_fills_group (e e' : Editor) (layerName : string)
    (data : list Feature) :
  reachable e ->
  fire (Loaded layerName (FetchOk data)) e = Some e' ->
  exists refs : list sref,
    length refs = length data
    /\ NoDup refs
    /\ group layerName e' = list_to_set refs
    /\ size (group layerName e') = length data
    /\ Forall2 (fun i ft => loaded_as layerName ft i e') refs data
    /\ (layerName ∈ map_groups e -> forall i, i ∈ refs -> i ∈ map_shapes e')
    /\ (forall n, n <> layerName -> group n e' = group n e)
    /\ selectedFeature e' = selectedFeature e.
Proof.
  intros Hr Hfire. simpl in Hfire.
  case_bool_decide as Hpend; [|done]. injection Hfire as <-.
  destruct (reachable_pending e Hr layerName Hpend) as [_ Hempty].
  unfold addGeoJSONToMap.
  set (e0 := with_pending_loads (pending_loads e ∖ {[ layerName ]}) e).
  destruct (fold_adds_loaded (onEachFeature layerName) (fun ft => ft) layerName
              (onEachFeature_adds_pair layerName) data e0)
    as (refs & Hlen & Hnd & Hg & Hf & Hmap & _).
  destruct (fold_adds (onEachFeature layerName) (fun ft => ft) layerName
              (onEachFeature_adds_pair layerName) data e0)
    as (_ & _ & _ & _ & _ & Ho & _).
  destruct (fold_map_mono (onEachFeature layerName) (fun ft => ft) layerName
              (onEachFeature_adds_pair layerName) data e0) as (_ & _ & Hsel).
  change (group layerName e0) with (group layerName e) in Hg.
  rewrite Hempty, (left_id_L ∅ (∪)) in Hg.
  exists refs. split; [exact Hlen|]. split; [exact Hnd|].
  split; [exact Hg|].
  split; [rewrite Hg, size_list_to_set by done; exact Hlen|].
  split; [exact Hf|]. split; [exact Hmap|].
  split; [intros n Hn; by rewrite (Ho n Hn)|exact Hsel].
Qed.

End SuccessfulLoad.

Section SuccessfulLoadScenarios.

Local Existing Instance plain_browser.

Lemma successful_load_fills_group_witness :
  exists e' refs,
    fire (Loaded "households" (FetchOk [household_7])) init = Some e'
    /\ length refs = 1%nat
    /\ group "households" e' = list_to_set refs
    /\ Forall2 (fun i ft => loaded_as "households" ft i e') refs [household_7].
Proof.
  assert (fire (Loaded "households" (FetchOk [household_7])) init
          = Some (default init
                    (run [Loaded "households" (FetchOk [household_7])] init)))
    as Hfire by (vm_compute; reflexivity).
  destruct (successful_load_fills_group init _ "households" [household_7]
              reachable_init Hfire)
    as (refs & Hlen & _ & Hg & _ & Hf & _).
  eexists _, refs. split; [exact Hfire|]. split; [exact Hlen|].
  split; [exact Hg|exact Hf].
Defined.

End SuccessfulLoadScenarios.

(** ** Selecting and deselecting *)

Section SelectingAndDeselecting.

Context `{browser : Browser}.

Lemma normal_color_not_black ln : normal_color ln <> "#000".
Proof.
  unfold normal_color, colors.
  destruct (decide (ln = "households")) as [->|?]; [done|].
  destruct (decide (ln = "facilities")) as [->|?]; [done|].
  destruct (decide (ln = "roads")) as [->|?]; [done|].
  destruct (decide (ln = "boundary")) as [->|?]; [done|].
  by rewrite !lookup_insert_ne, lookup_singleton_ne.
Qed.

Lemma deselectFeature_style j e :
  style_of j (deselectFeature e) = style_of j (restorePrevious e).
Proof. rewrite deselectFeature_eq. reflexivity. Qed.

(** X2.  Selecting a shape that can be styled and deselecting it again
    does not give back the outline it had: it ends with [weight] 2 and the
    colour of the layer it was selected under (['#3388ff'] when the layer
    has none), keeping only its fill.  That colour is never the black
    outline a loaded or sample shape is created with. *)
Theorem select_deselect_outline (e : Editor) (f : fref) (i : sref)
    (ln : string) (isNew : bool) (st : Style) :
  style_of i e = Some st ->
  style_of i (deselectFeature (selectFeature f i ln isNew e))
  = Some (mkStyle 2 (normal_color ln) (fillColor st))
  /\ normal_color ln <> "#000"
  /\ selectedFeature (deselectFeature (selectFeature f i ln isNew e)) = None.
Proof.
  intros Hst. split; [|split; [apply normal_color_not_black|]].
  - rewrite deselectFeature_style, restorePrevious_style.
    destruct (selectFeature_core f i ln isNew e) as (_ & _ & _ & _ & _ & ->).
    cbn [sel_layer sel_layerName]. rewrite decide_True by done.
    rewrite selectFeature_style, decide_True by done.
    destruct (restorePrevious_fill e i st Hst) as (st' & -> & Hfill).
    simpl. unfold outline. simpl. by rewrite Hfill.
  - by destruct (deselectFeature_core (selectFeature f i ln isNew e))
      as (_ & _ & _ & _ & _ & -> & _).
Qed.

Lemma restorePrevious_no_selection e :
  selectedFeature e = None -> restorePrevious e = e.
Proof. unfold restorePrevious. by intros ->. Qed.

(** X3.  [deselectFeature] is idempotent: a second click on the
    background changes nothing. *)
Theorem deselectFeature_idempotent (e : Editor) :
  deselectFeature (deselectFeature e) = deselectFeature e.
Proof.
  assert (selectedFeature (deselectFeature e) = None) as Hnone
    by apply deselectFeature_core.
  rewrite (deselectFeature_eq (deselectFeature e)).
  rewrite (restorePrevious_no_selection _ Hnone).
  rewrite (deselectFeature_eq e). proj.
  destruct e as [? ? ? ? ? ? ? ? ? ? ? []]. reflexivity.
Qed.

End SelectingAndDeselecting.

Section SelectingAndDeselectingScenarios.

Local Existing Instance plain_browser.

Lemma select_deselect_outline_witness :
  style_of 0 households_failed = Some (mkStyle 2 "#000" (Some "#3388ff"))
  /\ style_of 0 (deselectFeature
                   (selectFeature 0 0 "households" false households_failed))
     = Some (mkStyle 2 (normal_color "households") (Some "#3388ff"))
  /\ normal_color "households" = "#3388ff".
Proof.
  assert (style_of 0 households_failed
          = Some (mkStyle 2 "#000" (Some "#3388ff"))) as H0
    by (vm_compute; reflexivity).
  split; [exact H0|]. split; [|reflexivity].
  apply (select_deselect_outline households_failed 0 0 "households" false _ H0).
Defined.

End SelectingAndDeselectingScenarios.

(** ** Saving *)

Section Saving.

Context `{browser : Browser}.

Lemma spread_twice (p u : Props) : spread (spread p u) u = spread p u.
Proof.
  unfold spread. rewrite (assoc_L (∪)). by rewrite (idemp_L (∪)).
Qed.

Lemma saveAttributes_panel e : panel (saveAttributes e) = panel e.
Proof. unfold saveAttributes. by case_match. Qed.

(** X4.  Saving a second time without touching the form changes neither
    the feature objects nor the shapes: the second merge writes the values
    the first one wrote, and the popup is regenerated to the same text.
    Only a second notification is shown. *)
Theorem saveAttributes_twice (e : Editor) :
  features (saveAttributes (saveAttributes e)) = features (saveAttributes e)
  /\ shapes (saveAttributes (saveAttributes e)) = shapes (saveAttributes e)
  /\ selectedFeature (saveAttributes (saveAttributes e)) = selectedFeature e
  /\ mapLayers (saveAttributes (saveAttributes e)) = mapLayers e
  /\ map_shapes (saveAttributes (saveAttributes e)) = map_shapes e.
Proof.
  destruct (selectedFeature e) as [sel|] eqn:Hsel.
  - assert (selectedFeature (saveAttributes e) = Some sel) as Hsel1.
    { destruct (saveAttributes_core e) as (_ & _ & _ & _ & -> & _). done. }
    pose proof (saveAttributes_panel e) as Hp. unfold panel in Hp.
    rewrite (saveAttributes_eq (saveAttributes e) sel Hsel1). cbv zeta.
    rewrite Hp.
    rewrite (saveAttributes_eq e sel Hsel). cbv zeta.
    unfold setPopupContent. proj.
    set (u := updatedProperties (panel_inputs (attribute_editor (page e)))).
    assert (forall m : gmap fref Feature,
              alter (fun f => mkFeature (spread (properties f) u) (geometry f))
                    (sel_feature sel)
                    (alter (fun f => mkFeature (spread (properties f) u)
                                               (geometry f))
                           (sel_feature sel) m)
              = alter (fun f => mkFeature (spread (properties f) u) (geometry f))
                      (sel_feature sel) m) as Halt.
    { intros m. rewrite alter_alter_eq. apply alter_ext.
      intros ft _. cbn [compose properties geometry].
      by rewrite spread_twice. }
    rewrite Halt. split; [reflexivity|].
    split; [|done].
    rewrite alter_alter_eq. apply alter_ext. by intros [? [p|] ? ? ?] _.
  - unfold saveAttributes. rewrite Hsel. by rewrite Hsel.
Qed.

Lemma createPopupContent_ext ft ft' ln :
  (forall k, k ∈ ["Owner"; "Family nm"; "Residents"; "Facility"] ->
             properties ft' !! k = properties ft !! k) ->
  createPopupContent ft' ln = createPopupContent ft ln.
Proof.
  intros Hk. unfold createPopupContent. cbv zeta.
  rewrite !Hk by set_solver. reflexivity.
Qed.

Lemma popup_of_setPopupContent i c e :
  popup_of i (setPopupContent i c e) = (fun _ => c) <$> popup_of i e.
Proof.
  unfold popup_of, setPopupContent. proj. rewrite lookup_alter_eq.
  destruct (shapes e !! i) as [[? [p|] ? ? ?]|]; reflexivity.
Qed.

(** X5.  When the inputs of the form on the page are those of the form
    template, then whatever has been typed into them, the popup text
    [saveAttributes] regenerates is the text generated from the feature as
    it was before the save: the keys the popup is rendered from ([Owner],
    ['Family nm'], [Residents], [Facility]) are none of the keys such an
    input writes. *)
Theorem saveAttributes_popup_text (e : Editor) (sel : Selection) (ft : Feature) :
  form_rendered e -> selectedFeature e = Some sel ->
  features e !! sel_feature sel = Some ft ->
  exists ft',
    features (saveAttributes e) !! sel_feature sel = Some ft'
    /\ (forall ln, createPopupContent ft' ln = createPopupContent ft ln)
    /\ popup_of (sel_layer sel) (saveAttributes e)
       = (fun _ => createPopupContent ft (sel_layerName sel))
           <$> popup_of (sel_layer sel) e.
Proof.
  intros Hr Hsel Hft.
  set (u := updatedProperties (panel_inputs (attribute_editor (page e)))).
  exists (mkFeature (spread (properties ft) u) (geometry ft)).
  assert (forall ln,
            createPopupContent (mkFeature (spread (properties ft) u)
                                          (geometry ft)) ln
            = createPopupContent ft ln) as Hsame.
  { intros ln. apply createPopupContent_ext. intros k Hk.
    cbn [properties]. apply spread_lookup_other, updatedProperties_other.
    intros Hw. apply (written_keys_form e) in Hw; [|exact Hr].
    unfold formKeys in Hw.
    repeat (apply elem_of_cons in Hk as [->|Hk]; [set_solver|]).
    by apply elem_of_nil in Hk. }
  rewrite (saveAttributes_eq e sel Hsel). cbv zeta. fold u.
  split; [|split; [exact Hsame|]].
  - unfold setPopupContent. proj. by rewrite lookup_alter_eq, Hft.
  - change (popup_of (sel_layer sel) (on_page ?g ?e1))
      with (popup_of (sel_layer sel) e1).
    rewrite popup_of_setPopupContent, lookup_alter_eq, Hft.
    cbn [fmap option_fmap option_map from_option]. by rewrite Hsame.
Qed.

Lemma spread_insert (p u : Props) k v :
  spread p (<[ k := v ]> u) = <[ k := v ]> (spread p u).
Proof. unfold spread. by rewrite insert_union_l. Qed.

Lemma spread_empty (p : Props) : spread p ∅ = p.
Proof. unfold spread. by rewrite (left_id_L ∅ (∪)). Qed.

(** What the save reads from the household form as the template lists
    it. *)
Lemma attributeForm_household_inputs (p : Props) (ln : string) (isNew : bool) :
  ln = "households" \/ ln = "drawn" ->
  updatedProperties (panel_inputs (attributeForm p ln isNew))
  = <[ "residents" :=
         VStr (number_value
                 (to_string (Js.or (p !! "Residents") (str EmptyString)))) ]>
      (<[ "family" := VStr (to_string (Js.or (p !! "Family nm") (str EmptyString))) ]>
         (<[ "owner" := VStr (to_string (Js.or (p !! "Owner") (str EmptyString))) ]>
            (<[ "id" := VStr (to_string (Js.or (Js.or (p !! "id") (p !! "ID"))
                                               (str EmptyString))) ]> ∅))).
Proof.
  intros Hln.
  assert (panel_inputs (attributeForm p ln isNew)
          = [ mkInput "attr-id" "text"
                (to_string (Js.or (Js.or (p !! "id") (p !! "ID"))
                                  (str EmptyString))) (negb isNew);
              mkInput "attr-owner" "text"
                (to_string (Js.or (p !! "Owner") (str EmptyString))) false;
              mkInput "attr-family" "text"
                (to_string (Js.or (p !! "Family nm") (str EmptyString))) false;
              mkInput "attr-residents" "number"
                (number_value
                   (to_string (Js.or (p !! "Residents") (str EmptyString))))
                false ])
    as ->.
  { unfold attributeForm. by destruct Hln as [-> | ->]. }
  reflexivity.
Qed.

(** X6.  Selecting a feature under [households] or [drawn] and saving the
    form at once stores every value the form shows as a string under the
    lower-case field name, provided the browser reads the generated markup
    as the template lists it (the values hold nothing the parser treats as
    markup): [id] is replaced by its text (a numeric id becomes the string
    JavaScript prints for it, its decimal digits below 2^53), and [owner],
    [family] and [residents] are added beside [Owner], ['Family nm'] and
    [Residents], which keep their values.  The stored [residents] is what
    the number input makes of the text: the text when it is a number, the
    empty string otherwise. *)
Theorem select_then_save_household (e : Editor) (f : fref) (i : sref)
    (ln : string) (isNew : bool) (ft : Feature) :
  features e !! f = Some ft ->
  ln = "households" \/ ln = "drawn" ->
  innerHTML (createAttributeForm (properties ft) ln isNew)
  = attributeForm (properties ft) ln isNew ->
  let p := properties ft in
  let after := props_of f (saveAttributes (selectFeature f i ln isNew e)) in
  after
  = <[ "residents" :=
         VStr (number_value
                 (to_string (Js.or (p !! "Residents") (str EmptyString)))) ]>
      (<[ "family" := VStr (to_string (Js.or (p !! "Family nm") (str EmptyString))) ]>
         (<[ "owner" := VStr (to_string (Js.or (p !! "Owner") (str EmptyString))) ]>
            (<[ "id" := VStr (to_string (Js.or (Js.or (p !! "id") (p !! "ID"))
                                               (str EmptyString))) ]> p)))
  /\ (forall n, p !! "id" = Some (VNum n) -> n <> 0 ->
        after !! "id" = Some (VStr (number_to_string n))
        /\ (Z.abs n < 2 ^ 53 -> after !! "id" = Some (VStr (pretty n))))
  /\ after !! "Owner" = p !! "Owner"
  /\ after !! "Family nm" = p !! "Family nm"
  /\ after !! "Residents" = p !! "Residents".
Proof.
  intros Hft Hln Hread p after.
  destruct (selectFeature_core f i ln isNew e) as (_ & _ & _ & _ & Hfe & Hsel).
  assert (attribute_editor (page (selectFeature f i ln isNew e))
          = attributeForm p ln isNew) as Hpanel.
  { rewrite selectFeature_eq. proj. unfold props_of. rewrite Hft.
    exact Hread. }
  assert (after
          = <[ "residents" :=
                 VStr (number_value
                         (to_string (Js.or (p !! "Residents") (str EmptyString)))) ]>
              (<[ "family" := VStr (to_string (Js.or (p !! "Family nm") (str EmptyString))) ]>
                 (<[ "owner" := VStr (to_string (Js.or (p !! "Owner") (str EmptyString))) ]>
                    (<[ "id" := VStr (to_string (Js.or (Js.or (p !! "id") (p !! "ID"))
                                                       (str EmptyString))) ]> p))))
    as Hafter.
  { unfold after.
    pose proof (saveAttributes_props _ _ Hsel) as Hsave.
    cbn [sel_feature] in Hsave. rewrite Hsave by (rewrite Hfe; eauto).
    unfold props_of at 1. rewrite Hfe, Hft.
    cbn [from_option]. fold p. rewrite Hpanel.
    rewrite (attributeForm_household_inputs p ln isNew Hln).
    by rewrite !spread_insert, spread_empty. }
  split; [exact Hafter|]. rewrite Hafter.
  split.
  { intros n Hn Hn0.
    assert (forall b, Js.or (Some (VNum n)) b = Some (VNum n)) as Hor.
    { intros b. unfold Js.or, truthy.
      destruct (Z.eqb_spec n 0); [done|reflexivity]. }
    assert ((<[ "residents" :=
                  VStr (number_value
                          (to_string (Js.or (p !! "Residents") (str EmptyString)))) ]>
               (<[ "family" := VStr (to_string (Js.or (p !! "Family nm") (str EmptyString))) ]>
                  (<[ "owner" := VStr (to_string (Js.or (p !! "Owner") (str EmptyString))) ]>
                     (<[ "id" := VStr (to_string (Js.or (Js.or (p !! "id") (p !! "ID"))
                                                        (str EmptyString))) ]> p))))
              !! "id" = Some (VStr (number_to_string n))) as Hid.
    { rewrite !lookup_insert_ne, lookup_insert_eq by done.
      rewrite Hn. by rewrite !Hor. }
    split; [exact Hid|]. intros Hsmall. rewrite Hid.
    unfold number_to_string.
    by rewrite (proj2 (Z.ltb_lt (Z.abs n) (2 ^ 53)) Hsmall). }
  repeat split; by rewrite !lookup_insert_ne.
Qed.

End Saving.

Section SavingScenarios.

Local Existing Instance plain_browser.

Lemma saveAttributes_popup_text_witness :
  form_rendered editing_household_7
  /\ popup_of 0 (saveAttributes editing_household_7)
     = popup_of 0 editing_household_7
  /\ from_option (includes "Ana Dela Cruz") false
       (popup_of 0 (saveAttributes editing_household_7)) = true.
Proof.
  assert (selectedFeature editing_household_7
          = Some (mkSelection 0 0 "households")) as Hsel
    by (vm_compute; reflexivity).
  assert (features editing_household_7 !! 0%nat = Some household_7) as Hft
    by (vm_compute; reflexivity).
  destruct (saveAttributes_popup_text editing_household_7 _ household_7
              editing_household_7_rendered Hsel Hft) as (ft' & _ & _ & Hp).
  split; [exact editing_household_7_rendered|].
  cbn [sel_layer sel_layerName] in Hp. rewrite Hp.
  split; vm_compute; reflexivity.
Defined.

Lemma select_then_save_household_witness :
  features households_failed !! 0%nat
  = Some (sampleFeature (mkSample 12.2390 125.3180 101 "Cruz Family" "Juan Cruz" 4))
  /\ props_of 0 (saveAttributes
                   (selectFeature 0 0 "households" false households_failed))
       !! "id" = Some (VStr "101")
  /\ props_of 0 households_failed !! "id" = Some (VNum 101).
Proof.
  assert (features households_failed !! 0%nat
          = Some (sampleFeature
                    (mkSample 12.2390 125.3180 101 "Cruz Family" "Juan Cruz" 4)))
    as Hft by (vm_compute; reflexivity).
  split; [exact Hft|]. split; [|vm_compute; reflexivity].
  assert (innerHTML
            (createAttributeForm
               (properties
                  (sampleFeature
                     (mkSample 12.2390 125.3180 101 "Cruz Family" "Juan Cruz" 4)))
               "households" false)
          = attributeForm
              (properties
                 (sampleFeature
                    (mkSample 12.2390 125.3180 101 "Cruz Family" "Juan Cruz" 4)))
              "households" false) as Hread
    by (vm_compute; reflexivity).
  destruct (select_then_save_household households_failed 0 0 "households"
              false _ Hft (or_introl eq_refl) Hread) as (_ & Hid & _).
  destruct (Hid 101) as [_ Hsmall]; [reflexivity|done|].
  rewrite Hsmall; [reflexivity|]. vm_compute. reflexivity.
Defined.

End SavingScenarios.

(** ** Popup text and form *)

Section PopupTextAndForm.

Context `{browser : Browser}.

Lemma append_cons c r y : String c r +:+ y = String c (r +:+ y).
Proof. reflexivity. Qed.

Lemma prefix_append p x y :
  String.prefix p x = true -> String.prefix p (x +:+ y) = true.
Proof.
  revert x. induction p as [|c p IH]; intros x Hp;
    [by destruct (x +:+ y)|].
  destruct x as [|d x]; [done|]. rewrite append_cons. simpl in *.
  destruct (Ascii.ascii_dec c d); [by apply IH|done].
Qed.

Lemma prefix_self p y : String.prefix p (p +:+ y) = true.
Proof.
  induction p as [|c p IH]; [by destruct (EmptyString +:+ y)|].
  rewrite append_cons. simpl.
  by destruct (Ascii.ascii_dec c c).
Qed.

Lemma includes_unfold pat s :
  includes pat s
  = (String.prefix pat s
     || match s with
        | EmptyString => false
        | String _ r => includes pat r
        end)%bool.
Proof. by destruct s. Qed.

Lemma includes_append_l pat x y :
  includes pat x = true -> includes pat (x +:+ y) = true.
Proof.
  induction x as [|c x IH]; intros Hx.
  - rewrite includes_unfold in Hx. rewrite orb_false_r in Hx.
    rewrite includes_unfold. by rewrite (prefix_append _ _ _ Hx).
  - rewrite includes_unfold in Hx. rewrite append_cons, includes_unfold.
    apply orb_true_iff in Hx as [Hx|Hx].
    + pose proof (prefix_append _ _ y Hx) as Hp. rewrite append_cons in Hp.
      by rewrite Hp.
    + rewrite (IH Hx). apply orb_true_r.
Qed.

Lemma includes_append_r pat x y :
  includes pat y = true -> includes pat (x +:+ y) = true.
Proof.
  intros Hy. induction x as [|c x IH]; [done|].
  rewrite append_cons, includes_unfold, IH. apply orb_true_r.
Qed.

Lemma includes_here pat y : includes pat (pat +:+ y) = true.
Proof. rewrite includes_unfold. by rewrite prefix_self. Qed.

End PopupTextAndForm.

(** Search for a piece of text at the head of a concatenation. *)
Ltac find_piece :=
  repeat first [ apply includes_here | apply includes_append_r ].

Section PopupTextAndForm2.

Context `{browser : Browser}.

(** X7.  The popup of a households shape shows the owner, the family name
    and the number of residents as they are, without escaping: whatever
    non-empty string [Owner] holds occurs in the text, a number of
    residents other than zero occurs as JavaScript prints it (its decimal
    digits below 2^53), and ['N/A'] stands in when [Owner] is missing or
    empty.  For a layer other than households and facilities ([roads],
    [boundary], [drawn]) the text does not depend on the feature at
    all. *)
Theorem createPopupContent_shows_owner (ft : Feature) :
  (forall s, properties ft !! "Owner" = Some (VStr s) -> s <> EmptyString ->
             includes s (createPopupContent ft "households") = true)
  /\ (forall s, properties ft !! "Family nm" = Some (VStr s) ->
                s <> EmptyString ->
                includes s (createPopupContent ft "households") = true)
  /\ (forall n, properties ft !! "Residents" = Some (VNum n) -> n <> 0 ->
                includes (number_to_string n)
                         (createPopupContent ft "households") = true
                /\ (Z.abs n < 2 ^ 53 ->
                    includes (pretty n)
                             (createPopupContent ft "households") = true))
  /\ (truthy (properties ft !! "Owner") = false ->
      includes "<strong>Owner:</strong> N/A"
               (createPopupContent ft "households") = true)
  /\ (forall ln ft', ln <> "households" -> ln <> "facilities" ->
        createPopupContent ft' ln = createPopupContent ft ln).
Proof.
  assert (forall s, s <> EmptyString ->
            Js.or (Some (VStr s)) (str "N/A") = Some (VStr s)) as Hstr.
  { intros s Hs. unfold Js.or, truthy.
    destruct (String.eqb_spec s EmptyString); [done|reflexivity]. }
  split; [|split; [|split; [|split]]].
  - intros s Hs Hne. unfold createPopupContent. cbv zeta.
    change (String.eqb "households" "households") with true. cbv iota.
    rewrite Hs, (Hstr s Hne). cbn [to_string].
    apply includes_append_l. find_piece.
  - intros s Hs Hne. unfold createPopupContent. cbv zeta.
    change (String.eqb "households" "households") with true. cbv iota.
    rewrite Hs, (Hstr s Hne). cbn [to_string].
    apply includes_append_l. find_piece.
  - intros n Hn Hne.
    assert (includes (number_to_string n)
                     (createPopupContent ft "households") = true) as Hshown.
    { unfold createPopupContent. cbv zeta.
      change (String.eqb "households" "households") with true. cbv iota.
      rewrite Hn.
      assert (Js.or (Some (VNum n)) (str "0") = Some (VNum n)) as ->.
      { unfold Js.or, truthy. destruct (Z.eqb_spec n 0); [done|reflexivity]. }
      cbn [to_string]. apply includes_append_l. find_piece. }
    split; [exact Hshown|]. intros Hsmall.
    unfold number_to_string in Hshown.
    by rewrite (proj2 (Z.ltb_lt (Z.abs n) (2 ^ 53)) Hsmall) in Hshown.
  - intros Hf. unfold createPopupContent. cbv zeta.
    change (String.eqb "households" "households") with true. cbv iota.
    unfold Js.or at 1. rewrite Hf. cbn [to_string str].
    apply includes_append_l.
    repeat lazymatch goal with
           | |- includes _ (_ +:+ ("N/A" +:+ _)) = true => fail
           | _ => apply includes_append_r
           end.
    match goal with
    | |- includes _ (_ +:+ ("N/A" +:+ ?r)) = true =>
        change (includes "<strong>Owner:</strong> N/A"
                  ("<br>" +:+ ("<strong>Owner:</strong> N/A" +:+ r)) = true)
    end.
    find_piece.
  - intros ln ft' H1 H2. unfold createPopupContent. cbv zeta.
    destruct (String.eqb_spec ln "households"); [done|].
    destruct (String.eqb_spec ln "facilities"); [done|]. reflexivity.
Qed.


End PopupTextAndForm2.

Section PopupTextAndFormScenarios.

Local Existing Instance plain_browser.

Lemma createPopupContent_shows_owner_witness :
  includes "Ana Dela Cruz" (createPopupContent household_7 "households") = true
  /\ createPopupContent household_7 "drawn"
     = createPopupContent (sampleFeature
                             (mkSample 12.2390 125.3180 101 "Cruz Family"
                                       "Juan Cruz" 4)) "drawn".
Proof.
  destruct (createPopupContent_shows_owner household_7) as (Ho & _ & _ & _ & Hl).
  split.
  - apply Ho; [vm_compute; reflexivity|done].
  - symmetry. by apply Hl.
Defined.


End PopupTextAndFormScenarios.

(** ** Tools *)

Section Tools.

Context `{browser : Browser}.

Lemma setActiveTool_unfold tool c e :
  setActiveTool tool c e
  = let e0 := tool_prelude tool e in
    if String.eqb tool "edit" then
      if bool_decide (group "drawn" e ≠ ∅) then with_edit_enabled true e0
      else e0
    else if bool_decide (tool ∈ drawTools) then startDrawing tool e0
    else if String.eqb tool "delete" then
      match selectedFeature e with
      | Some _ => deleteSelectedFeature c e0
      | None => e0
      end
    else e0.
Proof. reflexivity. Qed.

(** What a tool switch does to the tool name, the drawing flag and the
    tool indicators. *)
Lemma setActiveTool_flags (tool : string) (confirmed : bool)
    (e : Editor) :
  let e' := setActiveTool tool confirmed e in
  isDrawing e' = bool_decide (tool ∈ drawTools)
  /\ draw_toolbar_shown (page e') = bool_decide (tool ∈ drawTools)
  /\ currentTool e' = tool
  /\ currentLayer e' = currentLayer e
  /\ current_tool_text (page e') = capitalize tool.
Proof.
  rewrite setActiveTool_unfold. cbv zeta.
  destruct (String.eqb_spec tool "edit") as [->|Hedit].
  - rewrite (bool_decide_eq_false_2 ("edit" ∈ drawTools))
      by (unfold drawTools; set_solver).
    case_bool_decide; done.
  - case_bool_decide as Hdraw; [done|].
    destruct (String.eqb tool "delete"); [|done].
    destruct (selectedFeature e) as [sel0|] eqn:Hsel0; [|done].
    destruct (deleteSelectedFeature_modes confirmed (tool_prelude tool e))
      as (Hm & Ht & Hx).
    unfold modes in Hm. injection Hm as -> -> -> _.
    rewrite Ht, Hx. done.
Qed.

(** X10.  A tool switch touches the data only through the delete tool:
    for any tool other than [delete], and for [delete] when nothing is
    selected (no confirmation is asked then), the feature objects, the
    shapes, the groups, what is on the map, the selection and the
    attribute panel are unchanged. *)
Theorem setActiveTool_keeps_data (tool : string) (confirmed : bool)
    (e : Editor) :
  tool <> "delete" \/ selectedFeature e = None ->
  let e' := setActiveTool tool confirmed e in
  features e' = features e
  /\ shapes e' = shapes e
  /\ mapLayers e' = mapLayers e
  /\ map_shapes e' = map_shapes e
  /\ map_groups e' = map_groups e
  /\ selectedFeature e' = selectedFeature e
  /\ attribute_editor (page e') = attribute_editor (page e)
  /\ notifications (page e') = notifications (page e).
Proof.
  intros Hcase. rewrite setActiveTool_unfold. cbv zeta.
  destruct (String.eqb_spec tool "edit"); [by case_bool_decide|].
  case_bool_decide; [done|].
  destruct (String.eqb_spec tool "delete") as [->|]; [|done].
  destruct Hcase as [?|Hnone]; [done|]. rewrite Hnone.
  repeat split; try reflexivity. exact Hnone.
Qed.

(** X11.  The edit tool switches the toolkit's edit mode on exactly when
    the drawn-items group is not empty; with nothing drawn it only updates
    the tool indicators. *)
Theorem edit_tool_needs_drawn_items (confirmed : bool) (e : Editor) :
  edit_enabled (setActiveTool "edit" confirmed e)
  = (edit_enabled e || bool_decide (group "drawn" e ≠ ∅))%bool
  /\ (group "drawn" e = ∅ ->
      setActiveTool "edit" confirmed e = tool_prelude "edit" e).
Proof.
  rewrite setActiveTool_unfold. cbv zeta.
  change (String.eqb "edit" "edit") with true. cbv iota.
  case_bool_decide as Hd.
  - split; [cbn [edit_enabled with_edit_enabled]; by rewrite orb_true_r|].
    intros Hempty. by rewrite Hempty in Hd.
  - split; [|done]. unfold tool_prelude. proj. by rewrite orb_false_r.
Qed.

Lemma handleDrawCreated_edit layer layerType now e :
  edit_enabled (handleDrawCreated layer layerType now e) = edit_enabled e
  /\ isDrawing (handleDrawCreated layer layerType now e) = false
  /\ draw_toolbar_shown (page (handleDrawCreated layer layerType now e)) = false.
Proof.
  unfold handleDrawCreated, new_feature, setActiveTool, showNotification.
  rewrite enableTool_select, selectFeature_eq. unfold hideDrawToolbar.
  unfold bindPopup, onClick. rewrite group_addLayer_eq. done.
Qed.

Lemma modes_edit e e' : modes e' = modes e -> edit_enabled e' = edit_enabled e.
Proof. unfold modes. by intros [= _ _ _ ->]. Qed.

(** X12.  Nothing switches the edit mode off again: once the edit tool
    has enabled it, it stays enabled through every later event, tool
    switches included. *)
Theorem edit_mode_never_disabled (ev : Event) (e e' : Editor) :
  fire ev e = Some e' -> edit_enabled e = true -> edit_enabled e' = true.
Proof.
  intros Hfire He. destruct ev; simpl in Hfire.
  - case_bool_decide; [|done]. injection Hfire as <-.
    by rewrite (modes_edit _ _ (loadGeoJSONLayer_modes _ _ _)).
  - case_bool_decide; [|done]. injection Hfire as <-.
    destruct (setActiveTool_cases tool confirmed e)
      as [ -> | [ -> | [ -> | -> ] ] ]; try done.
    by rewrite (modes_edit _ _ (proj1 (deleteSelectedFeature_modes _ _))).
  - case_bool_decide; [|done]. injection Hfire as <-.
    by rewrite toggleLayer_eq.
  - repeat case_match; try done. injection Hfire as <-.
    by rewrite selectFeature_eq.
  - injection Hfire as <-. by rewrite deselectFeature_eq.
  - by injection Hfire as <-.
  - case_match; [|done]. injection Hfire as <-.
    unfold saveAttributes. by case_match.
  - case_match; [|done]. injection Hfire as <-.
    by rewrite (modes_edit _ _ (proj1 (deleteSelectedFeature_modes _ _))).
  - case_match; [|done]. unfold new_shape in Hfire. injection Hfire as <-.
    by rewrite (proj1 (handleDrawCreated_edit _ _ _ _)).
  - injection Hfire as <-.
    change (edit_enabled (fold_left toolkit_move moved e) = true).
    by rewrite (modes_edit _ _ (toolkit_move_modes _ _)).
  - injection Hfire as <-. unfold handleDrawDeleted, showNotification.
    rewrite deselectFeature_eq. proj.
    by rewrite (modes_edit _ _ (toolkit_remove_modes _ _)).
Qed.

End Tools.

Section ToolsScenarios.

Local Existing Instance plain_browser.

Lemma setActiveTool_keeps_data_witness :
  selectedFeature households_failed = None
  /\ mapLayers (setActiveTool "delete" true households_failed)
     = mapLayers households_failed
  /\ features (setActiveTool "polygon" true households_failed)
     = features households_failed.
Proof.
  assert (selectedFeature households_failed = None) as Hnone
    by (vm_compute; reflexivity).
  split; [exact Hnone|]. split.
  - apply (setActiveTool_keeps_data "delete" true households_failed).
    by right.
  - apply (setActiveTool_keeps_data "polygon" true households_failed).
    by left.
Defined.

Lemma edit_tool_needs_drawn_items_witness :
  group "drawn" households_failed = ∅
  /\ setActiveTool "edit" false households_failed
     = tool_prelude "edit" households_failed
  /\ edit_enabled (setActiveTool "edit" false households_failed) = false
  /\ edit_enabled (setActiveTool "edit" false line_drawn) = true.
Proof.
  assert (group "drawn" households_failed = ∅) as Hempty
    by (vm_compute; reflexivity).
  destruct (edit_tool_needs_drawn_items false households_failed) as [H1 H2].
  destruct (edit_tool_needs_drawn_items false line_drawn) as [H3 _].
  split; [exact Hempty|]. split; [by apply H2|].
  split; [rewrite H1|rewrite H3]; vm_compute; reflexivity.
Defined.

Lemma edit_mode_never_disabled_witness :
  edit_enabled (setActiveTool "edit" false line_drawn) = true
  /\ (edit_enabled <$> fire (ToolButton "select" false)
                         (setActiveTool "edit" false line_drawn)) = Some true.
Proof.
  assert (edit_enabled (setActiveTool "edit" false line_drawn) = true) as H1
    by (vm_compute; reflexivity).
  split; [exact H1|].
  assert (fire (ToolButton "select" false)
               (setActiveTool "edit" false line_drawn)
          = Some (setActiveTool "select" false
                    (setActiveTool "edit" false line_drawn))) as Hfire
    by reflexivity.
  rewrite Hfire. cbn [fmap option_fmap option_map].
  rewrite (edit_mode_never_disabled _ _ _ Hfire H1). reflexivity.
Defined.

End ToolsScenarios.

(** ** Groups, map and handlers *)

(** *** Every event keeps the tables consistent *)

Section Consistency.

Context `{browser : Browser}.

Lemma structure_ok_ext e e' :
  mapLayers e' = mapLayers e -> map_shapes e' = map_shapes e ->
  map_groups e' = map_groups e ->
  (forall i, click_of i e' = click_of i e) ->
  dom (features e) ⊆ dom (features e') ->
  structure_ok e -> structure_ok e'.
Proof.
  intros Hm Hs Hg Hc Hf (Hd & Hv & Hh).
  split; [|split].
  - intros n m i. unfold group. rewrite Hm. apply Hd.
  - intros i. unfold group. rewrite Hs, Hg, Hm. apply Hv.
  - intros n i. unfold group. rewrite Hm, Hc. intros Hi.
    destruct (Hh n i Hi) as (f & Hcl & Hfd). exists f. split; [done|].
    by apply Hf.
Qed.

Lemma selection_ok_ext e e' :
  mapLayers e' = mapLayers e -> selectedFeature e' = selectedFeature e ->
  (forall i, click_of i e' = click_of i e) ->
  selection_ok e -> selection_ok e'.
Proof.
  intros Hm Hs Hc He sel. unfold group. rewrite Hs, Hm, Hc. apply He.
Qed.

Lemma groups_alloc_ext e e' :
  mapLayers e' = mapLayers e -> dom (shapes e) ⊆ dom (shapes e') ->
  groups_alloc e -> groups_alloc e'.
Proof.
  intros Hm Hd He n i. unfold group. rewrite Hm. intros Hi.
  by apply Hd, (He n).
Qed.

Lemma consistent_ext e e' :
  mapLayers e' = mapLayers e -> map_shapes e' = map_shapes e ->
  map_groups e' = map_groups e -> selectedFeature e' = selectedFeature e ->
  (forall i, click_of i e' = click_of i e) ->
  dom (features e) ⊆ dom (features e') ->
  dom (shapes e) ⊆ dom (shapes e') ->
  consistent e -> consistent e'.
Proof.
  intros Hm Hs Hg Hsel Hc Hf Hd (Ha & Hst & Hse).
  split; [by apply (groups_alloc_ext e)|].
  split; [by apply (structure_ok_ext e)|by apply (selection_ok_ext e)].
Qed.

Lemma fresh_not_grouped e n :
  groups_alloc e -> fresh (dom (shapes e)) ∉ group n e.
Proof. intros Ha Hi. apply (is_fresh (dom (shapes e))). by apply (Ha n). Qed.

Lemma adds_pair_click_old ln ft e e' j :
  adds_pair ln ft e e' -> j ∈ dom (shapes e) -> click_of j e' = click_of j e.
Proof.
  intros (sh & Hs & _) Hj. unfold click_of. rewrite Hs.
  rewrite lookup_insert_ne; [done|]. intros <-.
  by apply (is_fresh (dom (shapes e))).
Qed.

Lemma adds_pair_consistent ln ft e e' :
  adds_pair ln ft e e' -> consistent e -> consistent e'.
Proof.
  intros Ha (Halloc & (Hd & Hv & Hh) & Hsel).
  pose proof (fun n => adds_pair_group ln ft e e' n Ha) as Hgr.
  pose proof (fun n j => adds_pair_group_mono ln ft e e' n j Ha) as Hmono.
  pose proof (fun j => adds_pair_click_old ln ft e e' j Ha) as Hclick.
  pose proof (fun n => fresh_not_grouped e n Halloc) as Hfresh.
  destruct Ha as (sh & Hs & _ & Hc & _ & Hf & _ & Hms & Hmg & Hse & _).
  set (i := fresh (dom (shapes e))) in *.
  assert (forall n j, j ∈ group n e' -> j ∈ group n e \/ (j = i /\ n = ln))
    as Hinv.
  { intros n j Hj. rewrite Hgr in Hj.
    destruct (decide (ln = n)) as [<-|]; [|by left].
    apply elem_of_union in Hj as [Hj|Hj%elem_of_singleton]; auto. }
  assert (i ∈ group ln e') as Hnew.
  { rewrite Hgr, decide_True by done.
    by apply elem_of_union_r, elem_of_singleton. }
  assert (click_of i e' = Some (fresh (dom (features e)), ln)) as Hci.
  { unfold click_of. rewrite Hs, lookup_insert_eq. exact Hc. }
  assert (dom (features e') = {[ fresh (dom (features e)) ]} ∪ dom (features e))
    as Hfd by (rewrite Hf; apply dom_insert_L).
  split; [|split; [split; [|split]|]].
  - intros n j Hj. rewrite Hs, dom_insert_L.
    destruct (Hinv n j Hj) as [Hj'|[-> _]].
    + by apply elem_of_union_r, (Halloc n).
    + by apply elem_of_union_l, elem_of_singleton.
  - intros n m j Hn Hm.
    destruct (Hinv n j Hn) as [Hn'|[Hj1 Hn1]];
      destruct (Hinv m j Hm) as [Hm'|[Hj2 Hm2]].
    + by apply (Hd n m j).
    + subst j. by destruct (Hfresh n).
    + subst j. by destruct (Hfresh m).
    + congruence.
  - intros j. rewrite Hms, Hmg. split.
    + intros Hj.
      assert (j ∈ map_shapes e \/ (j = i /\ ln ∈ map_groups e)) as [Hj'|[-> Hon]].
      { case_bool_decide; [|by left].
        apply elem_of_union in Hj as [Hj|Hj%elem_of_singleton]; auto. }
      * apply Hv in Hj' as (n & Hn & Hjn). exists n. split; [done|].
        by apply Hmono.
      * by exists ln.
    + intros (n & Hn & Hj).
      destruct (Hinv n j Hj) as [Hj'|[-> ->]].
      * assert (j ∈ map_shapes e) as Hjm by (apply Hv; by exists n).
        case_bool_decide; [by apply elem_of_union_l|done].
      * rewrite bool_decide_eq_true_2 by done.
        by apply elem_of_union_r, elem_of_singleton.
  - intros n j Hj. destruct (Hinv n j Hj) as [Hj'|[-> ->]].
    + destruct (Hh n j Hj') as (f & Hcl & Hfdom). exists f.
      rewrite Hclick by (by apply (Halloc n)). split; [done|].
      rewrite Hfd. by apply elem_of_union_r.
    + exists (fresh (dom (features e))). split; [done|].
      rewrite Hfd. by apply elem_of_union_l, elem_of_singleton.
  - intros sel Hsl. rewrite Hse in Hsl. destruct (Hsel sel Hsl) as [Hg Hcl].
    split; [by apply Hmono|].
    rewrite Hclick; [done|]. by apply (Halloc (sel_layerName sel)).
Qed.

Lemma deselectFeature_click j e :
  click_of j (deselectFeature e) = click_of j e.
Proof.
  rewrite deselectFeature_eq.
  change (click_of j (restorePrevious e) = click_of j e).
  apply restorePrevious_click.
Qed.

Lemma deleteSelectedFeature_consistent c e :
  consistent e -> consistent (deleteSelectedFeature c e).
Proof.
  intros He.
  destruct (deleteSelectedFeature_cases c e) as [ -> | [ -> [sel Hsel] ] ];
    [done|].
  destruct He as (Halloc & (Hd & Hv & Hh) & Hse).
  destruct (Hse sel Hsel) as [Hin _].
  destruct (deleteSelectedFeature_confirmed e sel Hsel)
    as (Hms & Hgr & Hmg & Hnone & Hf & Hs & _).
  assert (forall n j, j ∈ group n (deleteSelectedFeature true e) ->
                      j ∈ group n e /\ j <> sel_layer sel) as Hsub.
  { intros n j. rewrite Hgr. case_decide as Hn.
    - intros [Hj Hne]%elem_of_difference. split; [done|].
      intros ->. by apply Hne, elem_of_singleton.
    - intros Hj. split; [done|]. intros ->. apply Hn. left.
      by apply (Hd n (sel_layerName sel) (sel_layer sel)). }
  assert (forall n j, j ∈ group n e -> j <> sel_layer sel ->
                      j ∈ group n (deleteSelectedFeature true e)) as Hkeep.
  { intros n j Hj Hne. rewrite Hgr. case_decide; [|done].
    apply elem_of_difference. split; [done|]. by intros ?%elem_of_singleton. }
  assert (forall j, click_of j (deleteSelectedFeature true e) = click_of j e)
    as Hclick.
  { intros j. unfold click_of at 1. rewrite Hs.
    apply restorePrevious_click. }
  split; [|split; [split; [|split]|]].
  - intros n j Hj. rewrite Hs, restorePrevious_dom.
    apply (Halloc n). by apply Hsub.
  - intros n m j Hn Hm. apply (Hd n m j); by apply Hsub.
  - intros j. rewrite Hms, Hmg. split.
    + intros [Hj Hne]%elem_of_difference.
      apply Hv in Hj as (n & Hn & Hjn). exists n. split; [done|].
      apply Hkeep; [done|]. by intros ->; apply Hne, elem_of_singleton.
    + intros (n & Hn & Hj). destruct (Hsub n j Hj) as [Hj' Hne].
      apply elem_of_difference. split; [|by intros ?%elem_of_singleton].
      apply Hv. by exists n.
  - intros n j Hj. destruct (Hsub n j Hj) as [Hj' _].
    rewrite Hclick, Hf. by apply Hh.
  - intros sel'. by rewrite Hnone.
Qed.

Lemma toggleLayer_maps name visible e :
  (map_groups (toggleLayer name visible e) = map_groups e
   /\ map_shapes (toggleLayer name visible e) = map_shapes e
   /\ (visible = true -> name ∈ map_groups e \/ mapLayers e !! name = None)
   /\ (visible = false -> name ∉ map_groups e \/ mapLayers e !! name = None))
  \/ (visible = true /\ name ∉ map_groups e
      /\ map_groups (toggleLayer name visible e) = map_groups e ∪ {[ name ]}
      /\ map_shapes (toggleLayer name visible e) = map_shapes e ∪ group name e)
  \/ (visible = false /\ name ∈ map_groups e
      /\ map_groups (toggleLayer name visible e) = map_groups e ∖ {[ name ]}
      /\ map_shapes (toggleLayer name visible e) = map_shapes e ∖ group name e).
Proof.
  unfold toggleLayer.
  destruct (toggleLayer_raises name visible e) eqn:Hraise.
  { left. unfold toggleLayer_raises in Hraise.
    apply andb_prop in Hraise as [Hraise _].
    apply andb_prop in Hraise as [-> Hnone].
    apply bool_decide_eq_true_1 in Hnone.
    repeat split; try done; by right. }
  destruct (mapLayers e !! name) as [g|] eqn:Hg.
  - rewrite bool_decide_eq_true_2 by eauto. destruct visible.
    + rewrite map_addGroup_eq. proj. case_bool_decide as Hon.
      * left. split; [clear -Hon; set_solver|]. split; [done|].
        split; [by left|done].
      * right. left. done.
    + rewrite map_removeGroup_eq. proj. case_bool_decide as Hon.
      * right. right. done.
      * left. split; [clear -Hon; set_solver|]. split; [done|].
        split; [done|by left].
  - rewrite bool_decide_eq_false_2 by (by intros [? ?]).
    left. destruct visible; proj; repeat split; try done; by right.
Qed.

Lemma toggleLayer_click j name visible e :
  click_of j (toggleLayer name visible e) = click_of j e.
Proof. unfold click_of. by rewrite toggleLayer_shapes. Qed.

Lemma toggleLayer_group n name visible e :
  group n (toggleLayer name visible e) = group n e.
Proof. unfold group. by rewrite toggleLayer_mapLayers. Qed.

Lemma toggleLayer_consistent name visible e :
  consistent e -> consistent (toggleLayer name visible e).
Proof.
  intros (Halloc & (Hd & Hv & Hh) & Hse).
  split; [|split; [split; [|split]|]].
  - intros n j. rewrite toggleLayer_group, toggleLayer_shapes. apply Halloc.
  - intros n m j. rewrite !toggleLayer_group. apply Hd.
  - intros j. setoid_rewrite toggleLayer_group.
    destruct (toggleLayer_maps name visible e)
      as [(-> & -> & _)|[(_ & Hoff & -> & ->)|(_ & Hon & -> & ->)]].
    + apply Hv.
    + split.
      * intros [Hj|Hj]%elem_of_union.
        -- apply Hv in Hj as (n & Hn & Hjn). exists n.
           split; [by apply elem_of_union_l|done].
        -- exists name. split; [by apply elem_of_union_r, elem_of_singleton|done].
      * intros (n & [Hn|Hn%elem_of_singleton]%elem_of_union & Hj).
        -- apply elem_of_union_l, Hv. by exists n.
        -- subst n. by apply elem_of_union_r.
    + split.
      * intros [Hj Hnot]%elem_of_difference.
        apply Hv in Hj as (n & Hn & Hjn). exists n. split; [|done].
        apply elem_of_difference. split; [done|].
        intros ->%elem_of_singleton. by apply Hnot.
      * intros (n & [Hn Hne]%elem_of_difference & Hj).
        apply elem_of_difference. split; [apply Hv; by exists n|].
        intros Hjn. apply Hne, elem_of_singleton. by apply (Hd n name j).
  - intros n j. rewrite toggleLayer_group, toggleLayer_click, toggleLayer_features.
    apply Hh.
  - intros sel.
    rewrite toggleLayer_selectedFeature, toggleLayer_group, toggleLayer_click.
    apply Hse.
Qed.

Lemma selectFeature_consistent f i ln isNew e :
  i ∈ group ln e -> click_of i e = Some (f, ln) ->
  consistent e -> consistent (selectFeature f i ln isNew e).
Proof.
  intros Hi Hc (Halloc & Hst & Hse).
  destruct (selectFeature_core f i ln isNew e) as (Hm & Hms & Hmg & _ & Hf & Hs).
  split; [|split].
  - apply (groups_alloc_ext e); [done| |done]. by rewrite selectFeature_dom.
  - apply (structure_ok_ext e); try done.
    + intros j. apply selectFeature_click.
    + by rewrite Hf.
  - intros sel. rewrite Hs. intros [= <-]. cbn [sel_layer sel_layerName sel_feature].
    unfold group. rewrite Hm. split; [exact Hi|].
    by rewrite selectFeature_click.
Qed.

Lemma deselectFeature_consistent e :
  groups_alloc e -> structure_ok e -> consistent (deselectFeature e).
Proof.
  intros Halloc Hst.
  destruct (deselectFeature_core e) as (Hm & Hms & Hmg & _ & Hf & Hs & Hd).
  split; [|split].
  - apply (groups_alloc_ext e); [done| |done]. by rewrite Hd.
  - apply (structure_ok_ext e); try done.
    + intros j. apply deselectFeature_click.
    + by rewrite Hf.
  - intros sel. by rewrite Hs.
Qed.

Lemma saveAttributes_click j e : click_of j (saveAttributes e) = click_of j e.
Proof.
  destruct (selectedFeature e) as [sel|] eqn:Hsel.
  - rewrite (saveAttributes_eq e sel Hsel). unfold click_of, setPopupContent.
    proj. rewrite lookup_alter. case_decide; [subst j|done].
    by destruct (shapes e !! sel_layer sel).
  - unfold saveAttributes. by rewrite Hsel.
Qed.

Lemma saveAttributes_features_dom e :
  dom (features (saveAttributes e)) = dom (features e).
Proof.
  destruct (selectedFeature e) as [sel|] eqn:Hsel.
  - rewrite (saveAttributes_eq e sel Hsel). unfold setPopupContent. proj.
    apply dom_alter_L.
  - unfold saveAttributes. by rewrite Hsel.
Qed.

Lemma saveAttributes_consistent e : consistent e -> consistent (saveAttributes e).
Proof.
  destruct (saveAttributes_core e) as (Hm & Hms & Hmg & _ & Hs & Hd).
  apply consistent_ext; try done.
  - intros j. apply saveAttributes_click.
  - by rewrite saveAttributes_features_dom.
  - by rewrite Hd.
Qed.

Lemma draw_chain_click_other j f layer p msg e :
  j <> layer ->
  click_of j
    (setActiveTool "select" false
       (showNotification msg "success"
          (selectFeature f layer "drawn" true
             (bindPopup layer p (onClick layer f "drawn" e)))))
  = click_of j e.
Proof.
  intros Hj. unfold click_of at 1.
  destruct (setActiveTool_select_core false
              (showNotification msg "success"
                 (selectFeature f layer "drawn" true
                    (bindPopup layer p (onClick layer f "drawn" e)))))
    as (-> & _).
  rewrite showNotification_shapes.
  pose proof (selectFeature_click j f layer "drawn" true
                (bindPopup layer p (onClick layer f "drawn" e))) as Hc.
  unfold click_of at 1 in Hc. rewrite Hc.
  unfold click_of, bindPopup, onClick. proj.
  by rewrite !lookup_alter_ne.
Qed.

Lemma handleDrawCreated_click_other j layer layerType now e :
  j <> layer ->
  click_of j (handleDrawCreated layer layerType now e) = click_of j e.
Proof.
  intros Hj. unfold handleDrawCreated, new_feature. cbv zeta.
  rewrite draw_chain_click_other by done. by rewrite group_addLayer_eq.
Qed.

Lemma handleDrawCreated_consistent layer layerType now e :
  layer ∈ dom (shapes e) -> (forall n, layer ∉ group n e) ->
  consistent e -> consistent (handleDrawCreated layer layerType now e).
Proof.
  intros Hl Hnew (Halloc & (Hd & Hv & Hh) & Hse).
  destruct (handleDrawCreated_eq layer layerType now e)
    as (Hf & _ & Hms & Hmg & Hs & _).
  pose proof (handleDrawCreated_group layer layerType now e) as Hgr.
  pose proof (handleDrawCreated_click layer layerType now e Hl) as Hcl.
  pose proof (fun j => handleDrawCreated_click_other j layer layerType now e)
    as Hco.
  set (e' := handleDrawCreated layer layerType now e) in *.
  assert (forall n j, j ∈ group n e' ->
                      j ∈ group n e \/ (j = layer /\ n = "drawn")) as Hinv.
  { intros n j. rewrite Hgr. destruct (decide ("drawn" = n)) as [<-|]; [|by left].
    intros [Hj|Hj%elem_of_singleton]%elem_of_union; auto. }
  assert (forall n j, j ∈ group n e -> j ∈ group n e') as Hmono.
  { intros n j Hj. rewrite Hgr.
    destruct (decide ("drawn" = n)); [by apply elem_of_union_l|done]. }
  assert (layer ∈ group "drawn" e') as Hin.
  { rewrite Hgr, decide_True by done.
    by apply elem_of_union_r, elem_of_singleton. }
  assert (dom (features e') = {[ fresh (dom (features e)) ]} ∪ dom (features e))
    as Hfd by (rewrite Hf; apply dom_insert_L).
  assert (forall n j, j ∈ group n e -> j <> layer) as Hne
    by (intros n j Hj ->; by apply (Hnew n)).
  split; [|split; [split; [|split]|]].
  - intros n j Hj. unfold e'. rewrite handleDrawCreated_dom.
    destruct (Hinv n j Hj) as [Hj'|[-> _]]; [by apply (Halloc n)|done].
  - intros n m j Hn Hm.
    destruct (Hinv n j Hn) as [Hn'|[Hj1 Hn1]];
      destruct (Hinv m j Hm) as [Hm'|[Hj2 Hm2]].
    + by apply (Hd n m j).
    + subst j. by destruct (Hnew n).
    + subst j. by destruct (Hnew m).
    + congruence.
  - intros j. rewrite Hms, Hmg. split.
    + intros Hj.
      assert (j ∈ map_shapes e \/ (j = layer /\ "drawn" ∈ map_groups e))
        as [Hj'|[-> Hon]].
      { case_bool_decide; [|by left].
        apply elem_of_union in Hj as [Hj|Hj%elem_of_singleton]; auto. }
      * apply Hv in Hj' as (n & Hn & Hjn). exists n. split; [done|].
        by apply Hmono.
      * by exists "drawn".
    + intros (n & Hn & Hj).
      destruct (Hinv n j Hj) as [Hj'|[-> ->]].
      * assert (j ∈ map_shapes e) as Hjm by (apply Hv; by exists n).
        case_bool_decide; [by apply elem_of_union_l|done].
      * rewrite bool_decide_eq_true_2 by done.
        by apply elem_of_union_r, elem_of_singleton.
  - intros n j Hj. destruct (Hinv n j Hj) as [Hj'|[-> ->]].
    + destruct (Hh n j Hj') as (f & Hc & Hfdom). exists f.
      rewrite Hco by (by apply (Hne n)). split; [done|].
      rewrite Hfd. by apply elem_of_union_r.
    + exists (fresh (dom (features e))). split; [done|].
      rewrite Hfd. by apply elem_of_union_l, elem_of_singleton.
  - intros sel. rewrite Hs. intros [= <-].
    cbn [sel_layer sel_layerName sel_feature]. done.
Qed.

Lemma toolkit_move_click moved e j :
  click_of j (fold_left toolkit_move moved e) = click_of j e.
Proof.
  apply (fold_left_preserves (fun e1 => click_of j e1 = click_of j e)); [|done].
  intros e1 m <-. unfold toolkit_move. case_match; [|done].
  unfold click_of. proj. rewrite lookup_alter. case_decide as Hm; [|done].
  rewrite <- Hm. by destruct (shapes e1 !! m.1).
Qed.

Lemma toolkit_remove_structure e i :
  structure_ok e -> structure_ok (toolkit_remove e i).
Proof.
  intros (Hd & Hv & Hh). unfold toolkit_remove.
  rewrite group_removeLayer_eq.
  set (e' := with_map_shapes _ _).
  assert (forall n, group n e'
                    = if decide ("drawn" = n) then group "drawn" e ∖ {[ i ]}
                      else group n e) as Hgr.
  { intros n.
    change (group n e')
      with (group n (with_mapLayers
                       (<[ "drawn" := group "drawn" e ∖ {[ i ]} ]> (mapLayers e))
                       e)).
    apply group_insert. }
  assert (forall n j, j ∈ group n e' -> j ∈ group n e) as Hsub.
  { intros n j. rewrite Hgr. destruct (decide ("drawn" = n)) as [<-|]; [|done].
    by intros [? _]%elem_of_difference. }
  split; [|split].
  - intros n m j Hn Hm. apply (Hd n m j); by apply Hsub.
  - intros j. unfold e' at 1 2. proj. split.
    + intros Hj.
      assert (j ∈ map_shapes e
              /\ ~ (j = i /\ "drawn" ∈ map_groups e /\ i ∈ group "drawn" e))
        as [Hjm Hnot].
      { destruct (bool_decide ("drawn" ∈ map_groups e)
                  && group_hasLayer "drawn" i e)%bool eqn:Hb.
        - apply elem_of_difference in Hj as [Hj Hne]. split; [done|].
          intros (-> & _). by apply Hne, elem_of_singleton.
        - split; [done|]. intros (_ & Hon & Hin).
          apply andb_false_iff in Hb as [Hb|Hb].
          + by apply bool_decide_eq_false in Hb.
          + unfold group_hasLayer in Hb. by apply bool_decide_eq_false in Hb. }
      apply Hv in Hjm as (n & Hn & Hjn). exists n. split; [done|].
      rewrite Hgr. destruct (decide ("drawn" = n)) as [<-|]; [|done].
      apply elem_of_difference. split; [done|].
      intros ->%elem_of_singleton. by apply Hnot.
    + intros (n & Hn & Hj).
      assert (j ∈ map_shapes e) as Hjm
        by (apply Hv; exists n; split; [done|by apply Hsub]).
      destruct (bool_decide ("drawn" ∈ map_groups e)
                && group_hasLayer "drawn" i e)%bool eqn:Hb; [|done].
      apply elem_of_difference. split; [done|].
      intros ->%elem_of_singleton.
      apply andb_true_iff in Hb as [_ Hb].
      unfold group_hasLayer in Hb. apply bool_decide_eq_true in Hb.
      assert (n = "drawn") as -> by (apply (Hd n "drawn" i); [by apply Hsub|done]).
      rewrite Hgr, decide_True in Hj by done.
      apply elem_of_difference in Hj as [_ Hj]. by apply Hj, elem_of_singleton.
  - intros n j Hj.
    change (click_of j e') with (click_of j e).
    change (features e') with (features e). by apply Hh, Hsub.
Qed.

Lemma toolkit_remove_alloc e i : groups_alloc e -> groups_alloc (toolkit_remove e i).
Proof.
  intros Ha n j. unfold toolkit_remove. rewrite group_removeLayer_eq.
  change (j ∈ group n (with_mapLayers
                         (<[ "drawn" := group "drawn" e ∖ {[ i ]} ]> (mapLayers e))
                         e) -> j ∈ dom (shapes e)).
  rewrite group_insert.
  destruct (decide ("drawn" = n)) as [<-|]; [|apply (Ha n)].
  intros [Hj _]%elem_of_difference. by apply (Ha "drawn").
Qed.

Lemma fire_consistent ev e e' :
  consistent e -> fire ev e = Some e' -> consistent e'.
Proof.
  intros He Hfire. destruct ev; simpl in Hfire.
  - case_bool_decide; [|done]. injection Hfire as <-.
    apply (loadGeoJSONLayer_preserves consistent).
    + intros ft e1 e2. apply adds_pair_consistent.
    + intros msg ty e1. by apply consistent_ext.
    + revert He. by apply consistent_ext.
  - case_bool_decide; [|done]. injection Hfire as <-.
    destruct (setActiveTool_cases tool confirmed e)
      as [ -> | [ -> | [ -> | -> ] ] ];
      try (revert He; by apply consistent_ext).
    apply deleteSelectedFeature_consistent.
    revert He. by apply consistent_ext.
  - case_bool_decide; [|done]. injection Hfire as <-.
    by apply toggleLayer_consistent.
  - destruct (map_hasLayer layer e) eqn:Hon; [|done].
    destruct (shapes e !! layer ≫= shape_click) as [[f ln]|] eqn:Hc; [|done].
    injection Hfire as <-.
    destruct He as (Halloc & (Hd & Hv & Hh) & Hse).
    unfold map_hasLayer in Hon. apply bool_decide_eq_true in Hon.
    apply Hv in Hon as (n & Hn & Hin).
    destruct (Hh n layer Hin) as (f' & Hc' & _).
    unfold click_of in Hc'. rewrite Hc in Hc'. injection Hc' as <- <-.
    by apply selectFeature_consistent.
  - injection Hfire as <-. destruct He as (Halloc & Hst & _).
    by apply deselectFeature_consistent.
  - injection Hfire as <-. revert He. by apply consistent_ext.
  - case_match; [|done]. injection Hfire as <-. by apply saveAttributes_consistent.
  - case_match; [|done]. injection Hfire as <-.
    by apply deleteSelectedFeature_consistent.
  - case_match; [|done]. unfold new_shape in Hfire. injection Hfire as <-.
    pose proof He as (Halloc & _).
    apply handleDrawCreated_consistent.
    + proj. rewrite dom_insert_L. by apply elem_of_union_l, elem_of_singleton.
    + intros n. change (fresh (dom (shapes e)) ∉ group n e).
      by apply fresh_not_grouped.
    + revert He. apply consistent_ext; try done.
      * intros j. unfold click_of. proj. rewrite lookup_insert.
        case_decide as Hj; [|done]. subst j.
        by rewrite fresh_shape_None.
      * proj. rewrite dom_insert_L. apply union_subseteq_r.
  - injection Hfire as <-.
    destruct (toolkit_move_core moved e) as (Hm & Hms & Hmg & _ & Hs & Hf & Hd).
    unfold handleDrawEdited.
    revert He. apply consistent_ext; try done.
    + intros j. apply (toolkit_move_click moved e j).
    + change (dom (features e) ⊆ dom (features (fold_left toolkit_move moved e))).
      by rewrite Hf.
    + change (dom (shapes e) ⊆ dom (shapes (fold_left toolkit_move moved e))).
      by rewrite Hd.
  - injection Hfire as <-. unfold handleDrawDeleted.
    destruct He as (Halloc & Hst & _).
    assert (consistent (deselectFeature (fold_left toolkit_remove removed e)))
      as Hc.
    { apply deselectFeature_consistent.
      - apply (fold_left_preserves groups_alloc); [|done].
        intros e1 i. apply toolkit_remove_alloc.
      - apply (fold_left_preserves structure_ok); [|done].
        intros e1 i. apply toolkit_remove_structure. }
    revert Hc. by apply consistent_ext.
Qed.

Lemma init_consistent : consistent init.
Proof.
  assert (forall n, group n init = ∅) as Hempty.
  { intros n. unfold group, init. proj.
    rewrite !lookup_insert, lookup_singleton. by repeat case_decide. }
  split; [|split; [split; [|split]|]].
  - intros n i. rewrite Hempty. by intros ?%not_elem_of_empty.
  - intros n m i. rewrite Hempty. by intros ?%not_elem_of_empty.
  - intros i. split.
    + by intros ?%not_elem_of_empty.
    + intros (n & _ & Hi). rewrite Hempty in Hi. by apply not_elem_of_empty in Hi.
  - intros n i. rewrite Hempty. by intros ?%not_elem_of_empty.
  - intros sel. done.
Qed.

Lemma reachable_consistent e : reachable e -> consistent e.
Proof.
  induction 1 as [|e ev e' _ IH Hfire];
    [apply init_consistent|by eapply fire_consistent].
Qed.

End Consistency.

(** *** The drawing flag *)

Section TheDrawingFlag.

Context `{browser : Browser}.

Lemma drawing_state_modes e e' :
  modes e' = modes e ->
  draw_toolbar_shown (page e') = draw_toolbar_shown (page e) ->
  drawing_state e' = drawing_state e.
Proof. unfold modes, drawing_state. by intros [= -> _ -> _] ->. Qed.

Lemma loadGeoJSONLayer_toolbar ln r e :
  draw_toolbar_shown (page (loadGeoJSONLayer ln r e))
  = draw_toolbar_shown (page e).
Proof.
  assert (forall e0, draw_toolbar_shown (page (createSampleData ln e0))
                     = draw_toolbar_shown (page e0)) as Hs.
  { intros e0. unfold createSampleData. case_match; [|done].
    apply (fold_left_preserves
             (fun e1 => draw_toolbar_shown (page e1)
                        = draw_toolbar_shown (page e0))); [|done].
    intros e1 x <-. unfold addSample, new_feature, new_shape, bindPopup, onClick.
    rewrite group_addLayer_eq. reflexivity. }
  destruct r; simpl; rewrite ?Hs; try reflexivity.
  unfold addGeoJSONToMap.
  apply (fold_left_preserves
           (fun e1 => draw_toolbar_shown (page e1)
                      = draw_toolbar_shown (page e))); [|done].
  intros e1 x <-. unfold onEachFeature, new_feature, new_shape, bindPopup, onClick.
  rewrite group_addLayer_eq. reflexivity.
Qed.

Lemma fire_drawing_state ev e e' :
  fire ev e = Some e' ->
  drawing_state e' = drawing_state e
  \/ drawing_state e'
     = (currentTool e', bool_decide (currentTool e' ∈ drawTools),
        bool_decide (currentTool e' ∈ drawTools)).
Proof.
  intros Hfire. destruct ev; simpl in Hfire.
  - case_bool_decide; [|done]. injection Hfire as <-. left.
    apply drawing_state_modes;
      [by rewrite loadGeoJSONLayer_modes|by rewrite loadGeoJSONLayer_toolbar].
  - case_bool_decide; [|done]. injection Hfire as <-. right.
    destruct (setActiveTool_flags tool confirmed e) as (H1 & H2 & H3 & _).
    unfold drawing_state. by rewrite H1, H2, H3.
  - case_bool_decide; [|done]. injection Hfire as <-. left.
    rewrite toggleLayer_eq. unfold drawing_state.
    by destruct (toggleLayer_raises layerName checked e), checked.
  - repeat case_match; try done. injection Hfire as <-. left.
    by rewrite selectFeature_eq.
  - injection Hfire as <-. left. by rewrite deselectFeature_eq.
  - injection Hfire as <-. by left.
  - case_match; [|done]. injection Hfire as <-. left.
    unfold saveAttributes. by case_match.
  - case_match; [|done]. injection Hfire as <-. left.
    destruct (deleteSelectedFeature_modes confirmed e) as (Hm & Ht & _).
    by apply drawing_state_modes.
  - case_match; [|done]. unfold new_shape in Hfire. injection Hfire as <-.
    right.
    match goal with
    | |- context [handleDrawCreated ?l ?t ?n ?e0] =>
        destruct (handleDrawCreated_edit l t n e0) as (_ & Hd & Hb);
        destruct (handleDrawCreated_eq l t n e0) as (_ & _ & _ & _ & _ & Ht & _)
    end.
    unfold drawing_state. rewrite Hd, Hb, Ht. reflexivity.
  - injection Hfire as <-. left.
    change (drawing_state (fold_left toolkit_move moved e) = drawing_state e).
    apply drawing_state_modes; [apply toolkit_move_modes|].
    apply (fold_left_preserves
             (fun e1 => draw_toolbar_shown (page e1)
                        = draw_toolbar_shown (page e))); [|done].
    intros e1 m <-. unfold toolkit_move. by case_match.
  - injection Hfire as <-. left. unfold handleDrawDeleted, showNotification.
    rewrite deselectFeature_eq.
    change (drawing_state (fold_left toolkit_remove removed e)
            = drawing_state e).
    apply drawing_state_modes; [apply toolkit_remove_modes|].
    apply (fold_left_preserves
             (fun e1 => draw_toolbar_shown (page e1)
                        = draw_toolbar_shown (page e))); [|done].
    intros e1 m <-. unfold toolkit_remove. by rewrite group_removeLayer_eq.
Qed.

(** X9.  In every reachable state the drawing flag is set, and the drawing
    toolbar is shown, exactly when the current tool is one of marker,
    polygon, rectangle and polyline: every tool switch sets both this way,
    a shape handed over by the toolkit puts the tool back to select with
    both cleared, and nothing else touches them. *)
Theorem drawing_flag_follows_tool (e : Editor) :
  reachable e ->
  isDrawing e = bool_decide (currentTool e ∈ drawTools)
  /\ draw_toolbar_shown (page e) = isDrawing e.
Proof.
  assert (reachable e ->
          drawing_state e
          = (currentTool e, bool_decide (currentTool e ∈ drawTools),
             bool_decide (currentTool e ∈ drawTools))) as Hinv.
  { induction 1 as [|e ev e' _ IH Hfire]; [reflexivity|].
    destruct (fire_drawing_state ev e e' Hfire) as [Hsame|Hset]; [|exact Hset].
    rewrite Hsame, IH. unfold drawing_state in Hsame, IH.
    injection Hsame as -> _ _. reflexivity. }
  intros Hr. specialize (Hinv Hr). unfold drawing_state in Hinv.
  injection Hinv as -> ->. done.
Qed.

End TheDrawingFlag.

Section TheDrawingFlagScenarios.

Local Existing Instance plain_browser.

Lemma drawing_flag_follows_tool_witness :
  isDrawing before_marker = true /\ isDrawing marker_drawn = false.
Proof.
  destruct (drawing_flag_follows_tool before_marker before_marker_reachable)
    as [-> _].
  split; [vm_compute; reflexivity|].
  assert (reachable marker_drawn) as Hr.
  { apply (run_reachable
             [Loaded "households" (FetchStatus 500);
              DrawCreated "marker" None (Point 125.3185 12.2392) 1700000000000]
             init); [apply reachable_init|vm_compute; reflexivity]. }
  destruct (drawing_flag_follows_tool marker_drawn Hr) as [-> _].
  vm_compute. reflexivity.
Defined.

End TheDrawingFlagScenarios.

(** *** What consistency gives *)

Section ConsistencyUses.

Context `{browser : Browser}.

(** X13.  In every reachable state a shape belongs to at most one group:
    a shape held by one group is in no group of another name. *)
Theorem shape_in_one_group (e : Editor) (i : sref) (n m : string) :
  reachable e -> i ∈ group n e -> n <> m -> i ∉ group m e.
Proof.
  intros Hr Hn Hne Hm.
  destruct (reachable_consistent e Hr) as (_ & (Hd & _) & _).
  by apply Hne, (Hd n m i).
Qed.

(** X14.  In every reachable state every shape held by a group has a
    click handler that selects under the name of that very group, and the
    feature object the handler carries exists. *)
Theorem grouped_shape_has_feature (e : Editor) (i : sref) (n : string) :
  reachable e -> i ∈ group n e ->
  exists f ft,
    click_of i e = Some (f, n)
    /\ features e !! f = Some ft
    /\ feature_of_shape i e = Some ft.
Proof.
  intros Hr Hi.
  destruct (reachable_consistent e Hr) as (_ & (_ & _ & Hh) & _).
  destruct (Hh n i Hi) as (f & Hc & [ft Hft]%elem_of_dom).
  exists f, ft. split; [done|]. split; [done|].
  rewrite feature_of_shape_click, Hc. exact Hft.
Qed.

(** X15.  In every reachable state a shape is on the map exactly when the
    group that holds it is on the map. *)
Theorem on_map_iff_group_shown (e : Editor) (i : sref) :
  reachable e ->
  (i ∈ map_shapes e <-> exists n, n ∈ map_groups e /\ i ∈ group n e).
Proof.
  intros Hr. destruct (reachable_consistent e Hr) as (_ & (_ & Hv & _) & _).
  apply Hv.
Qed.

(** X16.  In every reachable state the selection is exactly what a click
    on its shape would select: the shape is in the group named by the
    selection's layer name, its click handler carries the selected feature
    under that name, and the feature object exists. *)
Theorem selection_matches_handler (e : Editor) (sel : Selection) :
  reachable e -> selectedFeature e = Some sel ->
  sel_layer sel ∈ group (sel_layerName sel) e
  /\ click_of (sel_layer sel) e = Some (sel_feature sel, sel_layerName sel)
  /\ is_Some (features e !! sel_feature sel).
Proof.
  intros Hr Hsel.
  destruct (reachable_consistent e Hr) as (_ & (_ & _ & Hh) & Hse).
  destruct (Hse sel Hsel) as [Hin Hc]. split; [done|]. split; [done|].
  destruct (Hh _ _ Hin) as (f & Hc' & Hf). rewrite Hc in Hc'.
  injection Hc' as ->. by apply elem_of_dom.
Qed.

End ConsistencyUses.

Section ConsistencyUsesScenarios.

Local Existing Instance plain_browser.

Lemma shape_in_one_group_witness :
  (0%nat ∈ group "households" households_failed)
  /\ 0%nat ∉ group "drawn" households_failed.
Proof.
  assert (0%nat ∈ group "households" households_failed) as Hin
    by (vm_compute; set_solver).
  split; [exact Hin|].
  apply (shape_in_one_group households_failed 0 "households" "drawn"
           households_failed_reachable Hin).
  done.
Defined.

Lemma grouped_shape_has_feature_witness :
  exists f ft,
    click_of 0 households_failed = Some (f, "households")
    /\ features households_failed !! f = Some ft
    /\ feature_of_shape 0 households_failed = Some ft.
Proof.
  apply (grouped_shape_has_feature households_failed 0 "households"
           households_failed_reachable).
  vm_compute. set_solver.
Defined.

Lemma on_map_iff_group_shown_witness :
  (0%nat ∈ map_shapes households_failed)
  /\ 0%nat ∉ map_shapes (toggleLayer "households" false households_failed).
Proof.
  split.
  - apply (on_map_iff_group_shown households_failed 0
             households_failed_reachable).
    exists "households". split; vm_compute; set_solver.
  - assert (reachable (toggleLayer "households" false households_failed)) as Hr.
    { apply (reachable_fire households_failed
               (LayerCheckbox "households" false));
        [apply households_failed_reachable|reflexivity]. }
    intros Hon.
    apply (on_map_iff_group_shown _ 0 Hr) in Hon as (n & Hn & Hi).
    revert Hn Hi. rewrite toggleLayer_group.
    intros Hn Hi.
    assert (n = "households") as ->.
    { destruct (decide (n = "households")) as [|Hne]; [done|].
      exfalso.
      assert (0%nat ∈ group "households" households_failed) as Hin
        by (vm_compute; set_solver).
      destruct (reachable_consistent households_failed
                  households_failed_reachable) as (_ & (Hd & _) & _).
      by apply Hne, (Hd n "households" 0%nat). }
    vm_compute in Hn. set_solver.
Defined.

Lemma selection_matches_handler_witness :
  selectedFeature (after_tour 3) = Some (mkSelection 3 3 "drawn")
  /\ (3%nat ∈ group "drawn" (after_tour 3))
  /\ click_of 3 (after_tour 3) = Some (3%nat, "drawn").
Proof.
  assert (selectedFeature (after_tour 3) = Some (mkSelection 3 3 "drawn"))
    as Hsel by (vm_compute; reflexivity).
  destruct (selection_matches_handler (after_tour 3) _
              (after_tour_reachable 3) Hsel) as (H1 & H2 & _).
  split; [exact Hsel|]. split; [exact H1|exact H2].
Defined.

End ConsistencyUsesScenarios.

(** *** Deleting a shape, hiding a layer *)

Section DeletingAndHiding.

Context `{browser : Browser}.

(** X17.  In a reachable state a confirmed delete removes the selected
    shape from every group and from the map, and touches no other shape:
    every other shape is in the groups and on the map as before. *)
Theorem confirmed_delete_removes_everywhere (e : Editor) (sel : Selection) :
  reachable e -> selectedFeature e = Some sel ->
  let e' := deleteSelectedFeature true e in
  (forall n, sel_layer sel ∉ group n e')
  /\ sel_layer sel ∉ map_shapes e'
  /\ (forall n j, j <> sel_layer sel -> (j ∈ group n e' <-> j ∈ group n e))
  /\ (forall j, j <> sel_layer sel -> (j ∈ map_shapes e' <-> j ∈ map_shapes e))
  /\ features e' = features e.
Proof.
  intros Hr Hsel e'.
  destruct (reachable_consistent e Hr) as (_ & (Hd & _ & _) & Hse).
  destruct (Hse sel Hsel) as [Hin _].
  destruct (deleteSelectedFeature_confirmed e sel Hsel)
    as (Hms & Hgr & _ & _ & Hf & _).
  fold e' in Hms, Hgr, Hf.
  split; [|split; [|split; [|split]]].
  - intros n. rewrite Hgr. case_decide as Hn.
    + intros [_ Hne]%elem_of_difference. by apply Hne, elem_of_singleton.
    + intros Hj. apply Hn. left.
      by apply (Hd n (sel_layerName sel) (sel_layer sel)).
  - rewrite Hms. intros [_ Hne]%elem_of_difference.
    by apply Hne, elem_of_singleton.
  - intros n j Hne. rewrite Hgr. case_decide; [|done].
    rewrite elem_of_difference, elem_of_singleton. tauto.
  - intros j Hne. rewrite Hms, elem_of_difference, elem_of_singleton. tauto.
  - exact Hf.
Qed.

(** X18.  In a reachable state, switching a layer off takes every shape
    of its group off the map and switching it on puts every one of them
    on the map; the shapes of the other groups stay as they are, on or
    off. *)
Theorem toggleLayer_shows_and_hides (e : Editor) (name : string) :
  reachable e ->
  (forall i, i ∈ group name e -> i ∉ map_shapes (toggleLayer name false e))
  /\ (forall i, i ∈ group name e -> i ∈ map_shapes (toggleLayer name true e))
  /\ (forall visible i, i ∉ group name e ->
        (i ∈ map_shapes (toggleLayer name visible e) <-> i ∈ map_shapes e)).
Proof.
  intros Hr.
  destruct (reachable_consistent e Hr) as (_ & (Hd & Hv & _) & _).
  assert (forall i, mapLayers e !! name = None -> i ∉ group name e) as Hnokey.
  { intros i Hk. unfold group. rewrite Hk. apply not_elem_of_empty. }
  split; [|split].
  - intros i Hi.
    destruct (toggleLayer_maps name false e)
      as [(_ & -> & _ & Hoff)|[([=] & _)|(_ & _ & _ & ->)]].
    + destruct (Hoff eq_refl) as [Hnot|Hk]; [|by destruct (Hnokey i Hk)].
      intros (n & Hn & Hin)%Hv.
      assert (n = name) as -> by by apply (Hd n name i). done.
    + intros [_ Hnot]%elem_of_difference. done.
  - intros i Hi.
    destruct (toggleLayer_maps name true e)
      as [(_ & -> & Hon & _)|[(_ & _ & _ & ->)|([=] & _)]].
    + destruct (Hon eq_refl) as [Hin|Hk]; [|by destruct (Hnokey i Hk)].
      apply Hv. by exists name.
    + by apply elem_of_union_r.
  - intros visible i Hi.
    destruct (toggleLayer_maps name visible e)
      as [(_ & -> & _)|[(_ & _ & _ & ->)|(_ & _ & _ & ->)]]; [done|..].
    + rewrite elem_of_union. tauto.
    + rewrite elem_of_difference. tauto.
Qed.

End DeletingAndHiding.

Section DeletingAndHidingScenarios.

Local Existing Instance plain_browser.

Lemma confirmed_delete_removes_everywhere_witness :
  selectedFeature (after_tour 4) = Some (mkSelection 1 1 "households")
  /\ (forall n, 1%nat ∉ group n (deleteSelectedFeature true (after_tour 4)))
  /\ 1%nat ∉ map_shapes (deleteSelectedFeature true (after_tour 4)).
Proof.
  assert (selectedFeature (after_tour 4) = Some (mkSelection 1 1 "households"))
    as Hsel by (vm_compute; reflexivity).
  destruct (confirmed_delete_removes_everywhere (after_tour 4) _
              (after_tour_reachable 4) Hsel) as (H1 & H2 & _).
  split; [exact Hsel|]. split; [exact H1|exact H2].
Defined.

Lemma toggleLayer_shows_and_hides_witness :
  (0%nat ∈ group "households" households_failed)
  /\ 0%nat ∉ map_shapes (toggleLayer "households" false households_failed)
  /\ 0%nat ∈ map_shapes (toggleLayer "households" true households_failed).
Proof.
  assert (0%nat ∈ group "households" households_failed) as Hin
    by (vm_compute; set_solver).
  destruct (toggleLayer_shows_and_hides households_failed "households"
              households_failed_reachable) as (Hoff & Hon & _).
  split; [exact Hin|]. split; [by apply Hoff|by apply Hon].
Defined.

End DeletingAndHidingScenarios.

(** *** Clicking the selected shape again *)

Section ClickingAgain.

Context `{browser : Browser}.

Lemma restyle_restyle w c w' c' sh :
  restyle w c (restyle w' c' sh) = restyle w c sh.
Proof. unfold restyle. destruct sh as [[st|] ? ? ? ?]; reflexivity. Qed.

(** The shapes after a selection, from the shapes and the selection
    before it. *)
Lemma selectFeature_shapes_ext f i ln n e e' :
  selectedFeature e = selectedFeature e' -> shapes e = shapes e' ->
  shapes (selectFeature f i ln n e) = shapes (selectFeature f i ln n e').
Proof.
  intros Hs Hsh.
  unfold selectFeature, showSelection, showAttributeEditor, storeSelection,
    highlight, restorePrevious, has_setStyle, setStyle.
  rewrite Hs. destruct (selectedFeature e') as [sel|]; proj; rewrite !Hsh.
  - destruct (shapes e' !! sel_layer sel) as [sh|]; proj; rewrite ?Hsh;
      [destruct (bool_decide (is_Some (shape_style sh)))|]; proj;
      rewrite ?Hsh; repeat case_match; proj; rewrite ?Hsh; reflexivity.
  - repeat case_match; proj; rewrite ?Hsh; reflexivity.
Qed.

Lemma highlight_again i c e0 e1 :
  shapes e1 = shapes (highlight i e0) ->
  shapes (highlight i
            (if has_setStyle i e1 then setStyle i 2 c e1 else e1))
  = shapes e1.
Proof.
  unfold highlight, has_setStyle, setStyle.
  destruct (shapes e0 !! i) as [sh0|] eqn:H0; proj.
  - destruct (bool_decide (is_Some (shape_style sh0))) eqn:Hb; proj.
    + assert (forall w k,
                bool_decide (is_Some (shape_style (restyle w k sh0))) = true)
        as Hre.
      { intros w k. apply bool_decide_eq_true.
        apply bool_decide_eq_true in Hb as [st Hst].
        unfold restyle. cbn. rewrite Hst. by eexists. }
      intros H1. rewrite H1, lookup_alter_eq, H0.
      cbn [fmap option_fmap option_map]. rewrite Hre. proj.
      rewrite !lookup_alter_eq, H0. cbn [fmap option_fmap option_map].
      rewrite restyle_restyle, Hre. proj.
      rewrite !alter_alter_eq. apply alter_ext.
      intros sh _. cbn. by rewrite !restyle_restyle.
    + intros H1.
      repeat first [rewrite H1|rewrite H0|rewrite Hb|progress proj].
      reflexivity.
  - intros H1. repeat first [rewrite H1|rewrite H0|progress proj].
    reflexivity.
Qed.

Lemma selectFeature_shapes_highlight f i ln n e :
  shapes (selectFeature f i ln n e) = shapes (highlight i (restorePrevious e)).
Proof.
  unfold selectFeature, showSelection, showAttributeEditor,
    storeSelection, highlight, has_setStyle, setStyle.
  proj. repeat case_match; reflexivity.
Qed.

Lemma selectFeature_again_shapes f i ln n e :
  shapes (selectFeature f i ln n (selectFeature f i ln n e))
  = shapes (selectFeature f i ln n e).
Proof.
  rewrite (selectFeature_shapes_highlight f i ln n (selectFeature f i ln n e)).
  unfold restorePrevious at 1.
  replace (selectedFeature (selectFeature f i ln n e))
    with (Some (mkSelection f i ln))
    by (rewrite selectFeature_eq; reflexivity).
  cbn [sel_layer sel_layerName].
  apply (highlight_again i _ (restorePrevious e)).
  apply selectFeature_shapes_highlight.
Qed.

Lemma selectFeature_after_typing f i ln n (p : Dom -> Panel) e :
  selectFeature f i ln n
    (on_page (fun d => with_attribute_editor (p d) d)
       (selectFeature f i ln n e))
  = selectFeature f i ln n e.
Proof.
  set (g := fun d => with_attribute_editor (p d) d).
  rewrite (selectFeature_eq f i ln n (on_page g (selectFeature f i ln n e))).
  rewrite (selectFeature_shapes_ext f i ln n
             (on_page g (selectFeature f i ln n e))
             (selectFeature f i ln n e)) by reflexivity.
  rewrite selectFeature_again_shapes.
  assert (props_of f (on_page g (selectFeature f i ln n e)) = props_of f e)
    as ->.
  { unfold props_of. proj. by rewrite selectFeature_eq. }
  pose (S := shapes (selectFeature f i ln n e)).
  change (shapes (selectFeature f i ln n e)) with S.
  rewrite (selectFeature_eq f i ln n e).
  change (shapes (selectFeature f i ln n e)) with S. clearbody S.
  unfold g. proj. destruct e as [? ? ? ? ? ? ? ? ? ? ? []]. proj.
  reflexivity.
Qed.

Lemma selectFeature_again f i ln n e :
  selectFeature f i ln n (selectFeature f i ln n e) = selectFeature f i ln n e.
Proof.
  assert (forall x, on_page (fun d => with_attribute_editor
                                        (attribute_editor d) d) x = x) as Hid
    by (by intros [? ? ? ? ? ? ? ? ? ? ? []]).
  rewrite <- (Hid (selectFeature f i ln n e)) at 1.
  apply (selectFeature_after_typing f i ln n attribute_editor).
Qed.

(** X19.  Clicking the selected shape again renders the form afresh from
    the stored properties: whatever has been typed since the first click
    is discarded, and the state is exactly the one the first click left.
    In particular a second click on the same shape changes nothing. *)
Theorem click_again_discards_typing (e e1 : Editor) (i : sref)
    (input text : string) :
  fire (ShapeClick i) e = Some e1 ->
  fire (Typing input text) e1 ≫= fire (ShapeClick i) = Some e1
  /\ fire (ShapeClick i) e1 = Some e1.
Proof.
  intros Hfire. cbn [fire] in Hfire.
  destruct (map_hasLayer i e) eqn:Hmap; [|done].
  destruct (shapes e !! i ≫= shape_click) as [[f ln]|] eqn:Hclick; [|done].
  injection Hfire as <-.
  destruct (selectFeature_core f i ln false e) as (_ & Hms & _).
  pose proof (selectFeature_click i f i ln false e) as Hc.
  unfold click_of in Hc. rewrite Hclick in Hc.
  split.
  - cbn [fire mbind option_bind]. unfold map_hasLayer in *. proj.
    rewrite Hms, Hmap, Hc. f_equal.
    apply (selectFeature_after_typing f i ln false
             (fun d => type_into input text (attribute_editor d))).
  - cbn [fire]. unfold map_hasLayer in *. rewrite Hms, Hmap, Hc. f_equal.
    apply selectFeature_again.
Qed.

End ClickingAgain.

Section ClickingAgainScenarios.

Local Existing Instance plain_browser.

Lemma click_again_discards_typing_witness :
  fire (Typing "attr-owner" "someone else") (after_tour 2)
    ≫= fire (ShapeClick 1) = Some (after_tour 2)
  /\ fire (ShapeClick 1) (after_tour 2) = Some (after_tour 2).
Proof.
  assert (fire (ShapeClick 1) (after_tour 1) = Some (after_tour 2)) as Hfire
    by (vm_compute; reflexivity).
  exact (click_again_discards_typing (after_tour 1) (after_tour 2) 1
           "attr-owner" "someone else" Hfire).
Defined.

End ClickingAgainScenarios.

(** *** The form of a drawn shape *)

Section DrawnForm.

Context `{browser : Browser}.

Lemma drawn_form_inputs (p : Props) (isNew : bool) :
  (fun i => (input_id i, input_readonly i))
    <$> panel_inputs (attributeForm p "drawn" isNew)
  = [("attr-id", negb isNew); ("attr-owner", false); ("attr-family", false);
     ("attr-residents", false)].
Proof.
  unfold attributeForm.
  change (String.eqb "drawn" "households" || String.eqb "drawn" "drawn")%bool
    with true.
  cbv iota. cbn [panel_inputs fmap list_fmap input_id input_readonly].
  reflexivity.
Qed.

(** X20.  Whatever the current layer is, the form shown for a shape that
    has just been drawn is generated as the household form, from the
    default properties of the current layer; the shape is on the map, and
    the next click on it generates the same form for an existing feature.
    Read by the browser as the template lists it, the first form has an
    editable id and the inputs for owner, family and residents, and in the
    second the id is read-only. *)
Theorem drawn_feature_form (e e' : Editor) (layerType : string)
    (style : option Style) (latlngs : Geometry) (now : Z) :
  reachable e ->
  fire (DrawCreated layerType style latlngs now) e = Some e' ->
  let props := own_properties (getDefaultProperties now (currentLayer e)) in
  panel e' = innerHTML (createAttributeForm props "drawn" true)
  /\ (innerHTML (createAttributeForm props "drawn" true)
      = attributeForm props "drawn" true ->
      (fun i => (input_id i, input_readonly i)) <$> panel_inputs (panel e')
      = [("attr-id", false); ("attr-owner", false); ("attr-family", false);
         ("attr-residents", false)])
  /\ exists layer f e'',
       selectedFeature e' = Some (mkSelection f layer "drawn")
       /\ fire (ShapeClick layer) e' = Some e''
       /\ panel e'' = innerHTML (createAttributeForm props "drawn" false)
       /\ (innerHTML (createAttributeForm props "drawn" false)
           = attributeForm props "drawn" false ->
           (fun i => (input_id i, input_readonly i)) <$> panel_inputs (panel e'')
           = [("attr-id", true); ("attr-owner", false); ("attr-family", false);
              ("attr-residents", false)]).
Proof.
  intros Hr Hfire props. cbn [fire] in Hfire.
  destruct (style_ok style); [|done].
  unfold new_shape in Hfire. injection Hfire as <-.
  set (layer := fresh (dom (shapes e))).
  set (e1 := with_shapes
               (<[ layer := mkShape style None None latlngs false ]> (shapes e))
               e).
  assert (layer ∈ dom (shapes e1)) as Hl.
  { unfold e1. proj. rewrite dom_insert_L.
    by apply elem_of_union_l, elem_of_singleton. }
  destruct (reachable_wf e Hr) as [(_ & Hdrawn & _) _].
  destruct (handleDrawCreated_eq layer layerType now e1)
    as (Hf & _ & Hms & _ & Hsel & _ & _ & _ & Hpanel).
  cbn [properties] in Hpanel.
  change (currentLayer e1) with (currentLayer e) in Hpanel, Hf.
  fold props in Hpanel, Hf.
  pose proof (handleDrawCreated_click layer layerType now e1 Hl) as Hclick.
  set (e' := handleDrawCreated layer layerType now e1) in *.
  set (f := fresh (dom (features e1))) in *.
  assert (panel e' = innerHTML (createAttributeForm props "drawn" true)) as Hp
    by exact Hpanel.
  split; [exact Hp|].
  split; [intros Hread; rewrite Hp, Hread; apply drawn_form_inputs|].
  exists layer, f, (selectFeature f layer "drawn" false e').
  split; [exact Hsel|].
  assert (panel (selectFeature f layer "drawn" false e')
          = innerHTML (createAttributeForm props "drawn" false)) as Hp'.
  { rewrite selectFeature_eq. unfold panel. proj. unfold props_of.
    rewrite Hf, lookup_insert_eq. reflexivity. }
  split; [|split; [exact Hp'|]].
  2: { intros Hread. rewrite Hp', Hread. apply drawn_form_inputs. }
  cbn [fire]. unfold map_hasLayer. rewrite Hms.
  rewrite (bool_decide_eq_true_2 _ Hdrawn).
  rewrite bool_decide_eq_true_2
    by (by apply elem_of_union_r, elem_of_singleton).
  unfold click_of in Hclick. rewrite Hclick. reflexivity.
Qed.

End DrawnForm.

Section DrawnFormScenarios.

Local Existing Instance plain_browser.

Lemma drawn_feature_form_witness :
  panel marker_drawn
  = innerHTML
      (createAttributeForm
         (own_properties (getDefaultProperties 1700000000000 "households"))
         "drawn" true)
  /\ (fun i => (input_id i, input_readonly i)) <$> panel_inputs (panel marker_drawn)
     = [("attr-id", false); ("attr-owner", false); ("attr-family", false);
        ("attr-residents", false)].
Proof.
  assert (fire (DrawCreated "marker" None (Point 125.3185 12.2392) 1700000000000)
               households_failed = Some marker_drawn) as Hfire
    by (vm_compute; reflexivity).
  destruct (drawn_feature_form households_failed marker_drawn "marker" None
              (Point 125.3185 12.2392) 1700000000000
              households_failed_reachable Hfire) as (Hp & Hinputs & _).
  split; [exact Hp|]. apply Hinputs. vm_compute. reflexivity.
Defined.

End DrawnFormScenarios.

(** *** Shapes deleted by the toolkit *)

Section DeletedShapes.

Context `{browser : Browser}.

Lemma toolkit_remove_drawn removed e :
  group "drawn" (fold_left toolkit_remove removed e)
  = group "drawn" e ∖ list_to_set removed.
Proof.
  revert e. induction removed as [|i removed IH]; intros e.
  - cbn [fold_left list_to_set foldr]. set_solver.
  - cbn [fold_left]. rewrite IH. unfold toolkit_remove at 1.
    rewrite group_removeLayer_eq.
    change (group "drawn"
              (with_map_shapes _
                 (with_mapLayers
                    (<[ "drawn" := group "drawn" e ∖ {[ i ]} ]> (mapLayers e))
                    e)))
      with (group "drawn"
              (with_mapLayers
                 (<[ "drawn" := group "drawn" e ∖ {[ i ]} ]> (mapLayers e)) e)).
    rewrite group_insert, decide_True by done.
    generalize (group "drawn" e). intros g. cbn [list_to_set foldr].
    clear. set_solver.
Qed.

(** X21.  When the toolkit reports deleted shapes, the selection is
    cleared and the panel goes back to the no-selection text, whichever
    shape was selected, deleted or not.  The deleted shapes are out of the
    drawn-items group, the groups of the loaded layers and the feature
    objects are untouched, and in a reachable state a deleted drawn shape
    is off the map. *)
Theorem draw_deleted_clears_selection (e : Editor) (removed : list sref) :
  exists e',
    fire (DrawDeleted removed) e = Some e'
    /\ selectedFeature e' = None
    /\ panel e' = NoSelectionPanel
    /\ group "drawn" e' = group "drawn" e ∖ list_to_set removed
    /\ (forall n, n <> "drawn" -> group n e' = group n e)
    /\ features e' = features e
    /\ (reachable e ->
        forall i, i ∈ removed -> i ∈ group "drawn" e -> i ∉ map_shapes e').
Proof.
  eexists. split; [reflexivity|].
  set (e1 := fold_left toolkit_remove removed e).
  assert (forall n, group n (handleDrawDeleted e1) = group n e1) as Hg.
  { intros n. unfold handleDrawDeleted, showNotification.
    rewrite deselectFeature_eq. reflexivity. }
  assert (group "drawn" (handleDrawDeleted e1)
          = group "drawn" e ∖ list_to_set removed) as Hdrawn
    by (rewrite Hg; apply toolkit_remove_drawn).
  assert (forall n, n <> "drawn" -> group n (handleDrawDeleted e1) = group n e)
    as Hother by (intros n Hn; rewrite Hg; by apply toolkit_remove_group).
  split; [|split; [|split; [exact Hdrawn|split; [exact Hother|split]]]].
  - unfold handleDrawDeleted, showNotification.
    rewrite deselectFeature_eq. reflexivity.
  - unfold handleDrawDeleted, showNotification, panel.
    rewrite deselectFeature_eq. reflexivity.
  - unfold handleDrawDeleted, showNotification.
    rewrite deselectFeature_eq. proj. unfold e1.
    apply (fold_left_preserves (fun e2 => features e2 = features e)); [|done].
    intros e2 i <-. unfold toolkit_remove. by rewrite group_removeLayer_eq.
  - intros Hr i Hi Hin Hmap.
    assert (reachable (handleDrawDeleted e1)) as Hr'
      by (by apply (reachable_fire e (DrawDeleted removed))).
    destruct (reachable_consistent _ Hr') as (_ & (_ & Hv & _) & _).
    destruct (reachable_consistent _ Hr) as (_ & (Hd & _ & _) & _).
    apply Hv in Hmap as (n & _ & Hn).
    destruct (decide (n = "drawn")) as [->|Hne].
    + rewrite Hdrawn in Hn. apply elem_of_difference in Hn as [_ Hn].
      apply Hn. by apply elem_of_list_to_set.
    + rewrite (Hother n Hne) in Hn. by apply Hne, (Hd n "drawn" i).
Qed.

End DeletedShapes.

Section DeletedShapesScenarios.

Local Existing Instance plain_browser.

Lemma draw_deleted_clears_selection_witness :
  exists e',
    fire (DrawDeleted [3%nat]) (after_tour 3) = Some e'
    /\ selectedFeature e' = None
    /\ 3%nat ∉ map_shapes e'.
Proof.
  destruct (draw_deleted_clears_selection (after_tour 3) [3%nat])
    as (e' & Hfire & Hsel & _ & _ & _ & _ & Hmap).
  exists e'. split; [exact Hfire|]. split; [exact Hsel|].
  apply (Hmap (after_tour_reachable 3) 3%nat).
  - by constructor.
  - vm_compute. set_solver.
Defined.

End DeletedShapesScenarios.

(** * Properties of the viewer pages *)

(** X22.  The facilities style never uses the health and the evacuation
    colours of the palette.  A name containing ['School'] gets the
    education colour whatever else it contains, and the security colour is
    given exactly to a name containing ['Post'] and none of ['School'],
    ['Chapel'], ['Barangay'] and ['Plaza'].  The callback fails exactly
    when [Facility] is a number other than 0. *)
Theorem facilities_color_rule (props : Props) (facilityName : string) :
  Viewer.facilities_color facilityName <> Viewer.facilities_health
  /\ Viewer.facilities_color facilityName <> Viewer.facilities_evacuation
  /\ (includes "School" facilityName = true ->
      Viewer.facilities_color facilityName = Viewer.facilities_education)
  /\ (Viewer.facilities_color facilityName = Viewer.facilities_security
      <-> includes "Post" facilityName = true
          /\ includes "School" facilityName = false
          /\ includes "Chapel" facilityName = false
          /\ includes "Barangay" facilityName = false
          /\ includes "Plaza" facilityName = false)
  /\ (Viewer.facilities_style props = None
      <-> exists n, props !! "Facility" = Some (VNum n) /\ n <> 0).
Proof.
  unfold Viewer.facilities_color.
  split; [|split; [|split; [|split]]].
  - by repeat case_match.
  - by repeat case_match.
  - by intros ->.
  - destruct (includes "School" facilityName), (includes "Chapel" facilityName),
      (includes "Barangay" facilityName), (includes "Plaza" facilityName),
      (includes "Post" facilityName); split; try done; by intros (? & ? & ? & ? & ?).
  - unfold Viewer.facilities_style, Js.or, truthy, str.
    destruct (props !! "Facility") as [[s|n]|].
    + destruct (negb (String.eqb s EmptyString)); split; try done;
        by intros (? & ? & ?).
    + destruct (Z.eqb_spec n 0) as [->|Hn]; cbn [negb].
      * split; [done|]. intros (m & [= <-] & Hm). done.
      * split; [|done]. intros _. by exists n.
    + split; [done|]. by intros (? & ? & ?).
Qed.

Lemma facilities_color_rule_witness :
  Viewer.facilities_color "Barangay Elementary School"
  = Viewer.facilities_education.
Proof.
  apply (facilities_color_rule ∅ "Barangay Elementary School").
  vm_compute. reflexivity.
Defined.

Lemma vulnerable_fold (ls : list Feature) (n : nat) :
  fold_left (fun count layer =>
               if Viewer.isVulnerable (properties layer) then S count else count)
            ls n
  = (n + length (List.filter (fun f => Viewer.isVulnerable (properties f)) ls))%nat.
Proof.
  revert n. induction ls as [|f ls IH]; intros n; cbn [fold_left List.filter].
  - cbn. lia.
  - rewrite IH. destruct (Viewer.isVulnerable (properties f)); cbn [length]; lia.
Qed.

(** X23.  The vulnerable count is the number of households whose circle
    marker is filled with the vulnerable colour, and never exceeds the
    household count; both are 0 while there is no households layer. *)
Theorem vulnerable_count_matches_markers (households : option (list Feature)) :
  Viewer.getVulnerableHouseholdCount households
  = length (List.filter
              (fun f => String.eqb
                          (Viewer.fillColor
                             (Viewer.households_pointToLayer (properties f)))
                          Viewer.households_vulnerable)
              (default [] households))
  /\ (Viewer.getVulnerableHouseholdCount households
      <= Viewer.getHouseholdCount households)%nat
  /\ (households = None ->
      Viewer.getHouseholdCount households = 0%nat
      /\ Viewer.getVulnerableHouseholdCount households = 0%nat).
Proof.
  assert (forall f,
            String.eqb (Viewer.fillColor
                          (Viewer.households_pointToLayer (properties f)))
                       Viewer.households_vulnerable
            = Viewer.isVulnerable (properties f)) as Hfill.
  { intros f. unfold Viewer.households_pointToLayer. cbn [Viewer.fillColor].
    by destruct (Viewer.isVulnerable (properties f)). }
  destruct households as [ls|]; cbn [Viewer.getVulnerableHouseholdCount
    Viewer.getHouseholdCount default from_option].
  - rewrite vulnerable_fold. cbn [plus].
    split; [|split; [|done]].
    + f_equal. apply List.filter_ext. intros f. symmetry. apply Hfill.
    + induction ls as [|f ls IH]; [done|]. cbn [List.filter length].
      destruct (Viewer.isVulnerable (properties f)); cbn [length]; lia.
  - done.
Qed.

(** The display [searchHouseholds] gives a row. *)
Lemma search_fold (lower : string -> string) (term : string)
    (rs acc : list Viewer.Row) (n : nat) :
  fold_left (Viewer.search_row lower term) rs (acc, n)
  = ((acc ++ ((fun r =>
                 Viewer.set_display
                   (if includes term (lower (Viewer.textContent r))
                    then EmptyString else "none") r) <$> rs))%list,
     (n + length (List.filter
                    (fun r => includes term (lower (Viewer.textContent r)))
                    rs))%nat).
Proof.
  revert acc n. induction rs as [|r rs IH]; intros acc n.
  - cbn [fold_left fmap list_fmap List.filter length].
    by rewrite app_nil_r, Nat.add_0_r.
  - cbn [fold_left]. unfold Viewer.search_row at 2. cbn [fst snd].
    cbn [fmap list_fmap List.filter].
    destruct (includes term (lower (Viewer.textContent r)));
      rewrite IH, <- app_assoc; cbn [app length]; f_equal; lia.
Qed.

Lemma displayed_set_display (f : Viewer.Row -> bool) (rs : list Viewer.Row) :
  length (Viewer.displayed
            ((fun r => Viewer.set_display
                         (if f r then EmptyString else "none") r) <$> rs))
  = length (List.filter f rs).
Proof.
  induction rs as [|r rs IH]; [done|].
  cbn [fmap list_fmap List.filter Viewer.displayed].
  unfold Viewer.displayed in IH.
  destruct (f r); cbn [Viewer.set_display Viewer.display negb String.eqb length];
    [cbn; by rewrite IH|exact IH].
Qed.

Lemma searchHouseholds_rows (toLowerCase : string -> string)
    (p : Viewer.TablePage) :
  Viewer.rows (Viewer.searchHouseholds toLowerCase p)
  = (fun r =>
       Viewer.set_display
         (if includes (toLowerCase (Viewer.search_input p))
                      (toLowerCase (Viewer.textContent r))
          then EmptyString else "none") r) <$> Viewer.rows p.
Proof.
  unfold Viewer.searchHouseholds. rewrite search_fold. reflexivity.
Qed.

(** X24.  [searchHouseholds] shows a row exactly when its lower-cased
    text contains the lower-cased search term, leaving text and cells as
    they are, and the numbers it writes into the results line are the
    number of rows displayed afterwards and the number of rows. *)
Theorem search_count_is_displayed (toLowerCase : string -> string)
    (p : Viewer.TablePage) :
  let p' := Viewer.searchHouseholds toLowerCase p in
  Viewer.rows p'
  = (fun r =>
       Viewer.set_display
         (if includes (toLowerCase (Viewer.search_input p))
                      (toLowerCase (Viewer.textContent r))
          then EmptyString else "none") r) <$> Viewer.rows p
  /\ Viewer.search_results p'
     = (fun _ => "Showing " +:+ pretty (length (Viewer.displayed (Viewer.rows p')))
                 +:+ " of " +:+ pretty (length (Viewer.rows p'))
                 +:+ " households") <$> Viewer.search_results p
  /\ (length (Viewer.displayed (Viewer.rows p')) <= length (Viewer.rows p'))%nat
  /\ Viewer.vulnerability_filter p' = Viewer.vulnerability_filter p.
Proof.
  intros p'. unfold p', Viewer.searchHouseholds.
  rewrite search_fold. cbn [app Nat.add Viewer.rows Viewer.search_results
    Viewer.vulnerability_filter].
  rewrite displayed_set_display, length_fmap.
  split; [reflexivity|]. split; [reflexivity|]. split; [|reflexivity].
  apply List.filter_length_le.
Qed.

(** X25.  Escape empties the search box and runs the search: every row is
    displayed again, also the rows the vulnerability filter had hidden,
    while the filter keeps its value; the results line counts all rows. *)
Theorem escape_shows_all_rows (toLowerCase : string -> string)
    (p : Viewer.TablePage) :
  toLowerCase EmptyString = EmptyString ->
  let p' := Viewer.escape_pressed toLowerCase p in
  Viewer.rows p' = Viewer.set_display EmptyString <$> Viewer.rows p
  /\ Viewer.displayed (Viewer.rows p') = Viewer.rows p'
  /\ Viewer.vulnerability_filter p' = Viewer.vulnerability_filter p
  /\ Viewer.search_results p'
     = (fun _ => "Showing " +:+ pretty (length (Viewer.rows p)) +:+ " of "
                 +:+ pretty (length (Viewer.rows p)) +:+ " households")
         <$> Viewer.search_results p.
Proof.
  intros Hlower p'. unfold p', Viewer.escape_pressed, Viewer.searchHouseholds.
  cbn [Viewer.search_input Viewer.rows Viewer.search_results
       Viewer.vulnerability_filter].
  rewrite search_fold, Hlower.
  cbn [app Nat.add Viewer.rows Viewer.search_results
       Viewer.vulnerability_filter].
  assert (forall s, includes EmptyString s = true) as Hinc
    by (by intros [|c s]).
  assert (forall rs : list Viewer.Row,
            (fun r => Viewer.set_display
                        (if includes EmptyString
                              (toLowerCase (Viewer.textContent r))
                         then EmptyString else "none") r) <$> rs
            = Viewer.set_display EmptyString <$> rs) as Hmap.
  { intros rs. apply list_fmap_ext. intros _ r _. by rewrite Hinc. }
  assert (forall rs : list Viewer.Row,
            List.filter (fun r => includes EmptyString
                                    (toLowerCase (Viewer.textContent r))) rs
            = rs) as Hall.
  { intros rs. induction rs as [|r rs IH]; [done|].
    cbn [List.filter]. by rewrite Hinc, IH. }
  rewrite Hmap, Hall. split; [reflexivity|]. split; [|done].
  generalize (Viewer.rows p). intros rs.
  induction rs as [|r rs IH]; [done|].
  cbn [fmap list_fmap]. unfold Viewer.displayed in *. cbn [List.filter].
  cbn [Viewer.set_display Viewer.display String.eqb negb].
  by rewrite IH.
Qed.

Lemma escape_shows_all_rows_witness :
  Viewer.display
  <$> Viewer.rows
        (Viewer.escape_pressed Viewer.toLowerCase
           (Viewer.filter_changed "vulnerable" Viewer.sample_table).1)
  = [EmptyString; EmptyString; EmptyString].
Proof.
  destruct (escape_shows_all_rows Viewer.toLowerCase
              (Viewer.filter_changed "vulnerable" Viewer.sample_table).1
              eq_refl) as (-> & _).
  vm_compute. reflexivity.
Defined.

Lemma filter_rows_redisplay (v : string) (g : Viewer.Row -> string)
    (rs : list Viewer.Row) :
  (Viewer.filter_rows v ((fun r => Viewer.set_display (g r) r) <$> rs)).2
  = (Viewer.filter_rows v rs).2
  /\ ((Viewer.filter_rows v rs).2 = true ->
      (Viewer.filter_rows v ((fun r => Viewer.set_display (g r) r) <$> rs)).1
      = (Viewer.filter_rows v rs).1).
Proof.
  induction rs as [|r rs [IH1 IH2]]; [done|].
  cbn [fmap list_fmap Viewer.filter_rows Viewer.set_display Viewer.cells].
  destruct (Viewer.cells r !! 4%nat) as [cell|]; [|done].
  change (list_fmap _ _ ?f rs) with (f <$> rs).
  destruct (Viewer.filter_rows v ((fun r => Viewer.set_display (g r) r) <$> rs))
    as [rs1 ok1].
  destruct (Viewer.filter_rows v rs) as [rs2 ok2].
  cbn [fst snd] in *. split; [exact IH1|].
  intros Hok. rewrite (IH2 Hok). reflexivity.
Qed.

Lemma filter_rows_keeps_text (v : string) (h : string -> string)
    (rs : list Viewer.Row) :
  (fun r => Viewer.set_display (h (Viewer.textContent r)) r)
    <$> (Viewer.filter_rows v rs).1
  = (fun r => Viewer.set_display (h (Viewer.textContent r)) r) <$> rs.
Proof.
  induction rs as [|r rs IH]; [done|].
  cbn [Viewer.filter_rows].
  destruct (Viewer.cells r !! 4%nat) as [cell|]; [|done].
  destruct (Viewer.filter_rows v rs) as [rs' ok]. cbn [fst] in *.
  cbn [fmap list_fmap]. f_equal. exact IH.
Qed.

(** X26.  The search and the vulnerability filter do not combine: each
    decides alone which rows are displayed.  Filtering after a search
    gives the rows the filter gives without the search (and fails on the
    same tables), and leaves the results line as the search wrote it;
    searching after a filter gives the rows the search gives without the
    filter. *)
Theorem filter_and_search_do_not_combine (toLowerCase : string -> string)
    (p : Viewer.TablePage) (text value : string) :
  let searched := Viewer.search_typed toLowerCase text p in
  let filtered := Viewer.filter_changed value p in
  (Viewer.filter_changed value searched).2 = filtered.2
  /\ (filtered.2 = true ->
      Viewer.rows (Viewer.filter_changed value searched).1
      = Viewer.rows filtered.1)
  /\ Viewer.search_results (Viewer.filter_changed value searched).1
     = Viewer.search_results searched
  /\ Viewer.rows (Viewer.search_typed toLowerCase text filtered.1)
     = Viewer.rows searched.
Proof.
  intros searched filtered.
  pose proof (searchHouseholds_rows toLowerCase
                (Viewer.mkTablePage text (Viewer.vulnerability_filter p)
                   (Viewer.rows p) (Viewer.search_results p))) as Hrows.
  cbn [Viewer.search_input Viewer.rows] in Hrows.
  fold (Viewer.search_typed toLowerCase text p) in Hrows. fold searched in Hrows.
  unfold filtered, Viewer.filter_changed, Viewer.filterHouseholdTable.
  cbn [Viewer.vulnerability_filter Viewer.rows Viewer.search_input
       Viewer.search_results].
  rewrite Hrows.
  destruct (filter_rows_redisplay value
              (fun r => if includes (toLowerCase text)
                             (toLowerCase (Viewer.textContent r))
                        then EmptyString else "none") (Viewer.rows p))
    as [Hok Heq].
  destruct (Viewer.filter_rows value
              ((fun r => Viewer.set_display
                           (if includes (toLowerCase text)
                                 (toLowerCase (Viewer.textContent r))
                            then EmptyString else "none") r)
                 <$> Viewer.rows p)) as [rs1 ok1] eqn:H1.
  pose proof (filter_rows_keeps_text value
                (fun t => if includes (toLowerCase text) (toLowerCase t)
                          then EmptyString else "none") (Viewer.rows p))
    as Hkeep.
  destruct (Viewer.filter_rows value (Viewer.rows p)) as [rs2 ok2] eqn:H2.
  cbn [fst snd Viewer.rows Viewer.search_results] in *.
  split; [exact Hok|]. split; [exact Heq|]. split; [reflexivity|].
  pose proof (searchHouseholds_rows toLowerCase
                (Viewer.mkTablePage text value rs2 (Viewer.search_results p)))
    as Hrows2.
  cbn [Viewer.search_input Viewer.rows] in Hrows2.
  unfold Viewer.search_typed at 1.
  cbn [Viewer.vulnerability_filter Viewer.rows Viewer.search_results].
  rewrite Hrows2. exact Hkeep.
Qed.

Lemma showRow_vulnerable (cell : string) :
  Viewer.showRow "vulnerable" cell = includes "Yes" cell.
Proof. unfold Viewer.showRow. by destruct (includes "Yes" cell). Qed.

Lemma showRow_non_vulnerable (cell : string) :
  Viewer.showRow "non-vulnerable" cell = negb (includes "Yes" cell).
Proof. unfold Viewer.showRow. by destruct (includes "Yes" cell). Qed.

Lemma showRow_other (v cell : string) :
  v <> "vulnerable" -> v <> "non-vulnerable" -> Viewer.showRow v cell = true.
Proof.
  intros H1%String.eqb_neq H2%String.eqb_neq.
  unfold Viewer.showRow. by rewrite H1, H2.
Qed.

Lemma filter_rows_ok (v : string) (rs : list Viewer.Row) :
  (Viewer.filter_rows v rs).2 = true
  <-> Forall (fun r => (5 <= length (Viewer.cells r))%nat) rs.
Proof.
  induction rs as [|r rs IH]; [by split; [constructor|]|].
  cbn [Viewer.filter_rows].
  destruct (Viewer.cells r !! 4%nat) as [cell|] eqn:Hcell.
  - destruct (Viewer.filter_rows v rs) as [rs' ok]. cbn [snd] in *.
    rewrite Forall_cons, <- IH.
    apply lookup_lt_Some in Hcell. split; [intros ->; split; [lia|done]|tauto].
  - cbn [snd]. split; [done|]. intros [Hlen _]%Forall_cons.
    apply lookup_ge_None in Hcell. lia.
Qed.

(** X27.  [filterHouseholdTable] returns normally exactly when every row
    has at least five cells.  On such a table the values ['vulnerable']
    and ['non-vulnerable'] split the rows: each row is displayed under
    exactly one of them, so the two counts add up to the number of rows;
    under any other value every row is displayed. *)
Theorem filter_partitions_rows (p : Viewer.TablePage) :
  (forall value,
     (Viewer.filter_changed value p).2 = true
     <-> Forall (fun r => (5 <= length (Viewer.cells r))%nat) (Viewer.rows p))
  /\ (Forall (fun r => (5 <= length (Viewer.cells r))%nat) (Viewer.rows p) ->
      (length (Viewer.displayed
                 (Viewer.rows (Viewer.filter_changed "vulnerable" p).1))
       + length (Viewer.displayed
                   (Viewer.rows (Viewer.filter_changed "non-vulnerable" p).1))
       = length (Viewer.rows p))%nat
      /\ forall value,
           value <> "vulnerable" -> value <> "non-vulnerable" ->
           Viewer.displayed (Viewer.rows (Viewer.filter_changed value p).1)
           = Viewer.rows (Viewer.filter_changed value p).1
           /\ length (Viewer.rows (Viewer.filter_changed value p).1)
              = length (Viewer.rows p)).
Proof.
  assert (forall value,
            Viewer.rows (Viewer.filter_changed value p).1
            = (Viewer.filter_rows value (Viewer.rows p)).1
            /\ (Viewer.filter_changed value p).2
               = (Viewer.filter_rows value (Viewer.rows p)).2) as Hfc.
  { intros value. unfold Viewer.filter_changed, Viewer.filterHouseholdTable.
    cbn [Viewer.vulnerability_filter Viewer.rows].
    by destruct (Viewer.filter_rows value (Viewer.rows p)). }
  split.
  - intros value. destruct (Hfc value) as [_ ->]. apply filter_rows_ok.
  - intros Hall. split.
    + destruct (Hfc "vulnerable") as [-> _].
      destruct (Hfc "non-vulnerable") as [-> _]. clear Hfc.
      induction Hall as [|r rs Hr Hrs IH]; [done|].
      cbn [Viewer.filter_rows].
      destruct (Viewer.cells r !! 4%nat) as [cell|] eqn:Hcell;
        [|apply lookup_ge_None in Hcell; lia].
      rewrite showRow_vulnerable, showRow_non_vulnerable.
      destruct (Viewer.filter_rows "vulnerable" rs) as [rs1 ok1].
      destruct (Viewer.filter_rows "non-vulnerable" rs) as [rs2 ok2].
      cbn [fst] in *. unfold Viewer.displayed in *.
      cbn [List.filter Viewer.set_display Viewer.display].
      destruct (includes "Yes" cell); cbn [negb String.eqb length];
        cbn; cbn in IH; lia.
    + intros value H1 H2. destruct (Hfc value) as [-> _]. clear Hfc.
      induction Hall as [|r rs Hr Hrs [IH1 IH2]]; [done|].
      cbn [Viewer.filter_rows].
      destruct (Viewer.cells r !! 4%nat) as [cell|] eqn:Hcell;
        [|apply lookup_ge_None in Hcell; lia].
      rewrite (showRow_other value cell H1 H2).
      destruct (Viewer.filter_rows value rs) as [rs' ok].
      cbn [fst] in *. unfold Viewer.displayed in *.
      cbn [List.filter Viewer.set_display Viewer.display String.eqb negb length].
      by rewrite IH1, IH2.
Qed.

(** Every group on the map or named by [mapLayers] has been built. *)
Lemma viewer_alloc (p : Viewer.Page) :
  Viewer.page_reachable p ->
  Viewer.on_map p ⊆ dom (Viewer.layers p)
  /\ forall name l, Viewer.mapLayers p !! name = Some l ->
                    l ∈ dom (Viewer.layers p).
Proof.
  induction 1 as [|p ev p' _ [IH1 IH2] Hfire].
  - split; [set_solver|]. intros name l. cbn. by rewrite lookup_empty.
  - destruct ev as [name o|name checked|]; cbn [Viewer.page_fire] in Hfire.
    + destruct (Viewer.settle name (Viewer.in_flight p)) as [rest|]; [|done].
      injection Hfire as <-. destruct o as [fs|]; [|done].
      unfold Viewer.built.
      cbn [Viewer.layers Viewer.mapLayers Viewer.on_map Viewer.in_flight].
      rewrite dom_insert_L. split; [set_solver|].
      intros n l. rewrite lookup_insert. case_decide.
      * intros [= <-]. set_solver.
      * intros Hn. apply IH2 in Hn. set_solver.
    + case_bool_decide; [|done]. injection Hfire as <-.
      unfold Viewer.overlay_changed.
      destruct (Viewer.mapLayers p !! name) as [layer|] eqn:Hl; [|done].
      apply IH2 in Hl.
      destruct checked;
        cbn [Viewer.layers Viewer.mapLayers Viewer.on_map]; split;
        try exact IH2; set_solver.
    + injection Hfire as <-. unfold Viewer.refreshMapLayers.
      destruct (Viewer.mapLayers p !! "households") as [layer|] eqn:Hl;
        cbn [Viewer.layers Viewer.mapLayers Viewer.on_map]; [|done].
      split; [set_solver|].
      intros n l [_ Hn]%lookup_delete_Some. by apply IH2 in Hn.
Qed.

Lemma viewer_run_reachable (evs : list Viewer.PageEvent) (p p' : Viewer.Page) :
  Viewer.page_reachable p -> Viewer.page_run evs p = Some p' -> Viewer.page_reachable p'.
Proof.
  revert p. induction evs as [|ev evs IH]; intros p Hp Hrun;
    cbn [Viewer.page_run] in Hrun.
  - by injection Hrun as <-.
  - destruct (Viewer.page_fire ev p) as [p1|] eqn:Hfire; [|done].
    eapply IH; [|exact Hrun]. by eapply Viewer.page_reachable_fire.
Qed.

(** X28.  An overlay checkbox changed before its layer has arrived does
    nothing, and is not remembered: when the response arrives the group is
    built and put on the map, whatever the checkbox says. *)
Theorem checkbox_before_load_is_lost (p : Viewer.Page) (name : string)
    (checked : bool) (features : list Feature) (rest : list string) :
  name ∈ Viewer.overlayLayers ->
  Viewer.mapLayers p !! name = None ->
  Viewer.settle name (Viewer.in_flight p) = Some rest ->
  Viewer.page_fire (Viewer.OverlayCheckbox name checked) p = Some p
  /\ exists p' l,
       Viewer.page_fire (Viewer.Arrived name (Viewer.Built features)) p = Some p'
       /\ Viewer.mapLayers p' !! name = Some l
       /\ l ∈ Viewer.on_map p'
       /\ Viewer.layers p' !! l = Some features.
Proof.
  intros Hname Hnone Hrest. split.
  - cbn [Viewer.page_fire]. rewrite (bool_decide_eq_true_2 _ Hname).
    unfold Viewer.overlay_changed. by rewrite Hnone.
  - cbn [Viewer.page_fire]. rewrite Hrest. eexists _, _. split; [reflexivity|].
    unfold Viewer.built.
    cbn [Viewer.layers Viewer.mapLayers Viewer.on_map Viewer.in_flight].
    rewrite !lookup_insert_eq. split; [done|]. split; [set_solver|done].
Qed.

Lemma checkbox_before_load_is_lost_witness :
  Viewer.page_fire (Viewer.OverlayCheckbox "roads" false) Viewer.page_init
  = Some Viewer.page_init.
Proof.
  apply (checkbox_before_load_is_lost Viewer.page_init "roads" false []
           ["households"; "facilities"; "boundary"]).
  - vm_compute. set_solver.
  - reflexivity.
  - reflexivity.
Defined.

(** X29.  When two responses for the same layer arrive one after the
    other, as after a refresh requested before the first households
    response, the group built from the first one stays on the map but is
    no longer the one [mapLayers] refers to. *)
Theorem second_response_orphans_first (p p1 p2 : Viewer.Page) (name : string)
    (fs1 fs2 : list Feature) :
  Viewer.page_reachable p ->
  Viewer.page_fire (Viewer.Arrived name (Viewer.Built fs1)) p = Some p1 ->
  Viewer.page_fire (Viewer.Arrived name (Viewer.Built fs2)) p1 = Some p2 ->
  exists l1 l2,
    Viewer.mapLayers p1 !! name = Some l1
    /\ Viewer.mapLayers p2 !! name = Some l2
    /\ l1 <> l2
    /\ l2 ∈ Viewer.on_map p2
    /\ Viewer.orphan l1 p2.
Proof.
  intros Hr H1 H2.
  assert (Viewer.page_reachable p1) as Hr1 by (by eapply Viewer.page_reachable_fire).
  destruct (viewer_alloc p Hr) as [_ Hp].
  destruct (viewer_alloc p1 Hr1) as [_ Hp1].
  cbn [Viewer.page_fire] in H1, H2.
  destruct (Viewer.settle name (Viewer.in_flight p)) as [rest|]; [|done].
  injection H1 as <-.
  cbn [Viewer.built Viewer.in_flight] in H2.
  destruct (Viewer.settle name rest) as [rest'|]; [|done].
  injection H2 as <-.
  unfold Viewer.built in *.
  cbn [Viewer.layers Viewer.mapLayers Viewer.on_map Viewer.in_flight] in *.
  set (l1 := fresh (dom (Viewer.layers p))) in *.
  set (l2 := fresh (dom (<[ l1 := fs1 ]> (Viewer.layers p)))) in *.
  assert (l1 ∉ dom (Viewer.layers p)) as Hl1 by apply is_fresh.
  assert (l1 <> l2) as Hne.
  { intros Heq.
    apply (is_fresh (dom (<[ l1 := fs1 ]> (Viewer.layers p)))).
    fold l2. rewrite <- Heq, dom_insert_L. set_solver. }
  exists l1, l2. rewrite !lookup_insert_eq.
  split; [done|]. split; [done|]. split; [done|]. split; [set_solver|].
  split; [set_solver|].
  intros n. cbn [Viewer.mapLayers].
  rewrite lookup_insert. case_decide; [congruence|].
  rewrite lookup_insert. case_decide; [done|].
  intros Hn. by apply Hp in Hn.
Qed.

Lemma second_response_orphans_first_witness :
  exists l1 l2,
    Viewer.mapLayers Viewer.refreshed_early !! "households" = Some l2
    /\ l1 <> l2
    /\ Viewer.orphan l1 Viewer.refreshed_early.
Proof.
  assert (Viewer.page_reachable (Viewer.refreshMapLayers Viewer.page_init)) as Hr.
  { apply (Viewer.page_reachable_fire Viewer.page_init Viewer.Refresh);
      [apply Viewer.page_reachable_init|reflexivity]. }
  destruct (second_response_orphans_first
              (Viewer.refreshMapLayers Viewer.page_init)
              (default Viewer.page_init
                 (Viewer.page_run
                    [Viewer.Refresh;
                     Viewer.Arrived "households"
                       (Viewer.Built
                          [mkFeature {[ "id" := VNum 1 ]}
                             (Point 125.3185 12.2392)])]
                    Viewer.page_init))
              Viewer.refreshed_early "households" _ _ Hr eq_refl eq_refl)
    as (l1 & l2 & _ & H2 & Hne & _ & Ho).
  exists l1, l2. split; [exact H2|]. split; [exact Hne|exact Ho].
Defined.

(** X30.  Nothing takes a group off the map that [mapLayers] does not
    refer to: neither the overlay checkboxes, nor a refresh, nor a later
    response.  Once orphaned, a group stays on the map through every
    event. *)
Theorem orphan_layer_stays (p p' : Viewer.Page) (ev : Viewer.PageEvent)
    (l : Viewer.lref) :
  Viewer.page_reachable p -> Viewer.orphan l p -> Viewer.page_fire ev p = Some p' ->
  Viewer.orphan l p'.
Proof.
  intros Hr [Hon Hno] Hfire.
  destruct (viewer_alloc p Hr) as [Hsub _].
  destruct ev as [name o|name checked|]; cbn [Viewer.page_fire] in Hfire.
  - destruct (Viewer.settle name (Viewer.in_flight p)) as [rest|]; [|done].
    injection Hfire as <-. destruct o as [fs|]; [|by split].
    unfold Viewer.built, Viewer.orphan.
    cbn [Viewer.layers Viewer.mapLayers Viewer.on_map Viewer.in_flight].
    split; [set_solver|].
    intros n. rewrite lookup_insert. case_decide; [|apply Hno].
    intros [= Heq].
    apply (is_fresh (dom (Viewer.layers p))). rewrite Heq. by apply Hsub.
  - case_bool_decide; [|done]. injection Hfire as <-.
    unfold Viewer.overlay_changed.
    destruct (Viewer.mapLayers p !! name) as [layer|] eqn:Hl; [|by split].
    assert (layer <> l) as Hne by (intros ->; by apply (Hno name)).
    destruct checked; split; cbn [Viewer.mapLayers Viewer.on_map];
      try exact Hno; set_solver.
  - injection Hfire as <-. unfold Viewer.refreshMapLayers.
    destruct (Viewer.mapLayers p !! "households") as [layer|] eqn:Hl;
      cbn [Viewer.layers Viewer.mapLayers Viewer.on_map]; [|by split].
    assert (layer <> l) as Hne by (intros ->; by apply (Hno "households")).
    split; cbn [Viewer.mapLayers Viewer.on_map]; [set_solver|].
    intros n [_ Hn]%lookup_delete_Some. by apply (Hno n).
Qed.

Lemma orphan_layer_stays_witness :
  Viewer.orphan 0%nat Viewer.refreshed_early
  /\ Viewer.orphan 0%nat
       (Viewer.overlay_changed "households" false Viewer.refreshed_early).
Proof.
  assert (Viewer.page_reachable Viewer.refreshed_early) as Hr.
  { apply (viewer_run_reachable
             [Viewer.Refresh;
              Viewer.Arrived "households"
                (Viewer.Built [mkFeature {[ "id" := VNum 1 ]}
                                 (Point 125.3185 12.2392)]);
              Viewer.Arrived "households"
                (Viewer.Built [mkFeature {[ "id" := VNum 1;
                                            "senior/PWD" := VStr "YES" ]}
                                 (Point 125.3185 12.2392)])]
             Viewer.page_init); [apply Viewer.page_reachable_init|].
    vm_compute. reflexivity. }
  assert (Viewer.orphan 0%nat Viewer.refreshed_early) as Ho.
  { split; [vm_compute; set_solver|].
    intros n. vm_compute. intros Hn.
    destruct (decide (n = "households")) as [->|Hne]; [done|].
    revert Hn. change (({[ "households" := 1%nat ]} : gmap string nat) !! n
                       = Some 0%nat -> False).
    by rewrite lookup_singleton_ne. }
  split; [exact Ho|].
  apply (orphan_layer_stays Viewer.refreshed_early _
           (Viewer.OverlayCheckbox "households" false) 0%nat Hr Ho).
  vm_compute. reflexivity.
Defined.
